(** * rgwml_cli: result-set construction, teardown and bounded rendering

    A shallow embedding of [rgwml_cli.c].  The C heap is a finite map from
    block addresses to blocks, allocation can fail (an oracle decides which
    allocation calls return NULL), and every operation that C leaves
    undefined (dereferencing NULL, using an indeterminate pointer, writing
    past the end of a buffer, freeing what is not a live block) is a
    [Fault].  Strings are C strings: a [string] stands for the bytes before
    the terminator. *)

From Stdlib Require Import ZArith QArith Ascii String DecimalString.
From stdpp Require Import gmap strings list.

Local Open Scope string_scope.
Local Open Scope list_scope.
Local Open Scope Z_scope.

(** ** Outcomes and the state-and-fault monad *)

Inductive fault : Type :=
| NullDeref          (* an access through a NULL pointer *)
| IndeterminateUse   (* a use of a value that was never written *)
| OutOfBounds        (* an access outside the block or the buffer *)
| InvalidFree        (* free() of something that is not a live block *)
| WildAccess         (* an access to a block of the wrong kind or a dead block *)
| Unfinished.        (* a loop of the model used up its step budget; see
                        [print_rows_fuel]: this never happens *)

Inductive outcome (A : Type) : Type :=
| Ok (a : A)
| Fault (e : fault).
Arguments Ok {A} a.
Arguments Fault {A} e.

Definition M (S A : Type) : Type := S -> outcome (A * S).

Definition ret {S A : Type} (a : A) : M S A := fun s => Ok (a, s).

Definition bind {S A B : Type} (c : M S A) (k : A -> M S B) : M S B :=
  fun s => match c s with
           | Ok (a, s') => k a s'
           | Fault e => Fault e
           end.

Definition lift {S A : Type} (o : outcome A) : M S A :=
  fun s => match o with
           | Ok a => Ok (a, s)
           | Fault e => Fault e
           end.

Definition obind {A B : Type} (o : outcome A) (k : A -> outcome B) : outcome B :=
  match o with
  | Ok a => k a
  | Fault e => Fault e
  end.

Declare Scope cmd_scope.
Delimit Scope cmd_scope with cmd.
Notation "x <- c1 ;; c2" := (bind c1 (fun x => c2))
  (at level 100, c1 at next level, right associativity) : cmd_scope.
Notation "c1 ;; c2" := (bind c1 (fun _ => c2))
  (at level 100, right associativity) : cmd_scope.
Notation "'check' x <- o1 ;; o2" := (obind o1 (fun x => o2))
  (at level 100, x name, o1 at next level, right associativity) : cmd_scope.
Local Open Scope cmd_scope.

(** A counted loop [for (int i = lo; i < hi; i++) body(i)] whose body does
    not touch the counter visits [seqZ lo (hi - lo)], in order. *)
Fixpoint for_each {S : Type} (range : list Z) (body : Z -> M S unit) : M S unit :=
  match range with
  | [] => ret tt
  | i :: range' => body i ;; for_each range' body
  end.

(** The same loop when the body can leave the function: the body answers
    [false] after an early [return], and the loop stops there. *)
Fixpoint for_until {S : Type} (range : list Z) (body : Z -> M S bool) : M S bool :=
  match range with
  | [] => ret true
  | i :: range' =>
      continue <- body i ;;
      if continue : bool then for_until range' body else ret false
  end.

(** The same loop, collecting what each round produces. *)
Fixpoint for_collect {S A B : Type} (range : list A) (body : A -> M S B)
    : M S (list B) :=
  match range with
  | [] => ret []
  | i :: range' =>
      b <- body i ;;
      bs <- for_collect range' body ;;
      ret (b :: bs)
  end.

(** ** Machine integers *)

(** [int] is 32 bits wide; a result outside its range wraps around. *)
Definition int_wrap (z : Z) : Z := (z + 2 ^ 31) mod 2 ^ 32 - 2 ^ 31.

(** [size_t] is 64 bits wide and unsigned. *)
Definition size_wrap (z : Z) : Z := z mod 2 ^ 64.

(** LP64: a pointer takes 8 bytes; [QueryResult] is four pointers and two
    ints. *)
Definition sizeof_ptr : Z := 8.
Definition sizeof_QueryResult : Z := 40.

(** ** The heap *)

Inductive val : Type :=
| Vnull              (* NULL *)
| Vundef             (* an indeterminate value: memory malloc() did not clear *)
| Vptr (b : nat).    (* the address of a block *)

Global Instance val_eq_dec : EqDecision val.
Proof. solve_decision. Defined.

Definition is_null (v : val) : bool :=
  match v with Vnull => true | _ => false end.

(** Structure to store query results. *)
Record QueryResult : Type := mkQueryResult {
  rows : val;          (* char **rows *)
  headers : val;       (* char **headers *)
  mysql_types : val;   (* char **mysql_types *)
  c_types : val;       (* char **c_types *)
  rows_count : Z;
  cols_count : Z
}.

Inductive block : Type :=
| Bstr (s : string)            (* a C string *)
| Bptrs (slots : list val)     (* an array of char* *)
| Bstruct (r : QueryResult).   (* a QueryResult *)

(** [heap] holds the live blocks; [allocs] counts the allocation calls made
    so far, successful or not. *)
Record mem : Type := mkMem {
  heap : gmap nat block;
  allocs : nat
}.

Definition empty_mem : mem := mkMem ∅ 0.

(** Blocks still allocated. *)
Definition outstanding (m : mem) : nat := size (heap m).

Section Allocator.

(** [alloc_ok k] tells whether the [k]-th allocation call (counted from 0)
    finds memory. *)
Variable alloc_ok : nat -> bool.

(** malloc(), calloc-free: the block comes with the given initial content,
    which is [Vundef] slots for an array.  A request for zero bytes is
    served like any other (glibc returns a unique pointer). *)
Definition alloc (b : block) : M mem val :=
  fun m =>
    if alloc_ok (allocs m)
    then let a := fresh (dom (heap m)) in
         Ok (Vptr a, mkMem (<[a := b]> (heap m)) (S (allocs m)))
    else Ok (Vnull, mkMem (heap m) (S (allocs m))).

(** malloc() of [bytes] bytes for an array of [char *]. *)
Definition malloc_ptrs (bytes : Z) : M mem val :=
  alloc (Bptrs (replicate (Z.to_nat (bytes / sizeof_ptr)) Vundef)).

Definition strdup (s : string) : M mem val := alloc (Bstr s).

End Allocator.

(** free(): NULL is accepted and ignored. *)
Definition free (v : val) : M mem unit :=
  fun m =>
    match v with
    | Vnull => Ok (tt, m)
    | Vundef => Fault InvalidFree
    | Vptr a =>
        match heap m !! a with
        | Some _ => Ok (tt, mkMem (delete a (heap m)) (allocs m))
        | None => Fault InvalidFree
        end
    end.

(** Reading a block through a pointer. *)
Definition deref (m : mem) (v : val) : outcome block :=
  match v with
  | Vnull => Fault NullDeref
  | Vundef => Fault IndeterminateUse
  | Vptr a =>
      match heap m !! a with
      | Some b => Ok b
      | None => Fault WildAccess
      end
  end.

(** [arr[i]] for [char **arr]. *)
Definition peek_slot (m : mem) (arr : val) (i : Z) : outcome val :=
  check b <- deref m arr ;;
  match b with
  | Bptrs slots =>
      if i <? 0 then Fault OutOfBounds
      else match slots !! Z.to_nat i with
           | Some v => Ok v
           | None => Fault OutOfBounds
           end
  | _ => Fault WildAccess
  end.

(** The C string [p] points to. *)
Definition peek_str (m : mem) (p : val) : outcome string :=
  check b <- deref m p ;;
  match b with
  | Bstr s => Ok s
  | _ => Fault WildAccess
  end.

(** [*result] for [QueryResult *result]. *)
Definition peek_struct (m : mem) (p : val) : outcome QueryResult :=
  check b <- deref m p ;;
  match b with
  | Bstruct r => Ok r
  | _ => Fault WildAccess
  end.

Definition load_slot (arr : val) (i : Z) : M mem val :=
  fun m => lift (peek_slot m arr i) m.

Definition load_struct (p : val) : M mem QueryResult :=
  fun m => lift (peek_struct m p) m.

(** [arr[i] = v] for [char **arr]. *)
Definition store_slot (arr : val) (i : Z) (v : val) : M mem unit :=
  fun m =>
    match arr with
    | Vnull => Fault NullDeref
    | Vundef => Fault IndeterminateUse
    | Vptr a =>
        match heap m !! a with
        | Some (Bptrs slots) =>
            if (i <? 0) || (Z.of_nat (length slots) <=? i) then Fault OutOfBounds
            else Ok (tt, mkMem (<[a := Bptrs (<[Z.to_nat i := v]> slots)]> (heap m))
                               (allocs m))
        | Some _ => Fault WildAccess
        | None => Fault WildAccess
        end
    end.

(** Writing the fields of [*result]. *)
Definition store_struct (p : val) (r : QueryResult) : M mem unit :=
  fun m =>
    match p with
    | Vnull => Fault NullDeref
    | Vundef => Fault IndeterminateUse
    | Vptr a =>
        match heap m !! a with
        | Some (Bstruct _) => Ok (tt, mkMem (<[a := Bstruct r]> (heap m)) (allocs m))
        | Some _ => Fault WildAccess
        | None => Fault WildAccess
        end
    end.

(** ** Teardown *)

(** [free_query_result]: the cell strings, then the header and type strings,
    then the four arrays, then the structure. *)
Definition free_query_result (result : val) : M mem unit :=
  if is_null result then ret tt
  else
    r <- load_struct result ;;
    for_each (seqZ 0 (int_wrap (rows_count r * cols_count r)))
      (fun i => p <- load_slot (rows r) i ;; free p) ;;
    for_each (seqZ 0 (cols_count r))
      (fun i =>
         h <- load_slot (headers r) i ;; free h ;;
         t <- load_slot (mysql_types r) i ;; free t ;;
         c <- load_slot (c_types r) i ;; free c) ;;
    free (rows r) ;;
    free (headers r) ;;
    free (mysql_types r) ;;
    free (c_types r) ;;
    free result.

(** ** TypeMapper *)

(** Modelled from the spec: the driver's [enum enum_field_types], declared in
    mysql/mysql.h and not part of the sources.  The constructors are the tags
    the switch of [mysql_type_to_c_type] names; [MYSQL_TYPE_unlisted] stands
    for every other tag of the enumeration (the ones the switch leaves to its
    default branch), identified by its numeric code. *)
Inductive enum_field_types : Type :=
| MYSQL_TYPE_DECIMAL | MYSQL_TYPE_NEWDECIMAL
| MYSQL_TYPE_TINY | MYSQL_TYPE_SHORT | MYSQL_TYPE_LONG
| MYSQL_TYPE_FLOAT | MYSQL_TYPE_DOUBLE
| MYSQL_TYPE_NULL
| MYSQL_TYPE_TIMESTAMP
| MYSQL_TYPE_LONGLONG | MYSQL_TYPE_INT24
| MYSQL_TYPE_DATE | MYSQL_TYPE_TIME | MYSQL_TYPE_DATETIME | MYSQL_TYPE_YEAR
| MYSQL_TYPE_NEWDATE
| MYSQL_TYPE_VARCHAR
| MYSQL_TYPE_BIT
| MYSQL_TYPE_JSON | MYSQL_TYPE_ENUM | MYSQL_TYPE_SET
| MYSQL_TYPE_TINY_BLOB | MYSQL_TYPE_MEDIUM_BLOB | MYSQL_TYPE_LONG_BLOB
| MYSQL_TYPE_BLOB
| MYSQL_TYPE_VAR_STRING | MYSQL_TYPE_STRING
| MYSQL_TYPE_GEOMETRY
| MYSQL_TYPE_unlisted (code : Z).

Record TypeMapping : Type := mkTypeMapping {
  mysql_type : string;
  c_type : string
}.

Definition mysql_type_to_c_type (type : enum_field_types) : TypeMapping :=
  match type with
  | MYSQL_TYPE_DECIMAL
  | MYSQL_TYPE_NEWDECIMAL => mkTypeMapping "DECIMAL" "double"
  | MYSQL_TYPE_TINY => mkTypeMapping "TINYINT" "int8_t"
  | MYSQL_TYPE_SHORT => mkTypeMapping "SMALLINT" "int16_t"
  | MYSQL_TYPE_LONG => mkTypeMapping "INT" "int32_t"
  | MYSQL_TYPE_FLOAT => mkTypeMapping "FLOAT" "float"
  | MYSQL_TYPE_DOUBLE => mkTypeMapping "DOUBLE" "double"
  | MYSQL_TYPE_NULL => mkTypeMapping "NULL" "void"
  | MYSQL_TYPE_TIMESTAMP => mkTypeMapping "TIMESTAMP" "char*"
  | MYSQL_TYPE_LONGLONG => mkTypeMapping "BIGINT" "int64_t"
  | MYSQL_TYPE_INT24 => mkTypeMapping "MEDIUMINT" "int32_t"
  | MYSQL_TYPE_DATE => mkTypeMapping "DATE" "char*"
  | MYSQL_TYPE_TIME => mkTypeMapping "TIME" "char*"
  | MYSQL_TYPE_DATETIME => mkTypeMapping "DATETIME" "char*"
  | MYSQL_TYPE_YEAR => mkTypeMapping "YEAR" "int"
  | MYSQL_TYPE_NEWDATE => mkTypeMapping "NEWDATE" "char*"
  | MYSQL_TYPE_VARCHAR => mkTypeMapping "VARCHAR" "char*"
  | MYSQL_TYPE_BIT => mkTypeMapping "BIT" "uint8_t"
  | MYSQL_TYPE_JSON => mkTypeMapping "JSON" "char*"
  | MYSQL_TYPE_ENUM => mkTypeMapping "ENUM" "char*"
  | MYSQL_TYPE_SET => mkTypeMapping "SET" "char*"
  | MYSQL_TYPE_TINY_BLOB => mkTypeMapping "TINYBLOB" "char*"
  | MYSQL_TYPE_MEDIUM_BLOB => mkTypeMapping "MEDIUMBLOB" "char*"
  | MYSQL_TYPE_LONG_BLOB => mkTypeMapping "LONGBLOB" "char*"
  | MYSQL_TYPE_BLOB => mkTypeMapping "BLOB" "char*"
  | MYSQL_TYPE_VAR_STRING
  | MYSQL_TYPE_STRING => mkTypeMapping "STRING" "char*"
  | MYSQL_TYPE_GEOMETRY => mkTypeMapping "GEOMETRY" "char*"
  | MYSQL_TYPE_unlisted _ => mkTypeMapping "UNKNOWN" "void"
  end.

(** ** The driver *)

(** Modelled from the spec: the database driver (libmysqlclient, outside the
    sources) supplies column metadata (name, native type tag) and a row
    cursor yielding, per row, one nullable text value per column. *)

(** Column metadata, as [mysql_fetch_fields] hands it out. *)
Record MYSQL_FIELD : Type := mkField {
  name : string;
  type : enum_field_types
}.

(** A fetched row: one nullable text value per column. *)
Definition MYSQL_ROW : Type := list (option string).

(** A stored result: the column metadata and the rows [mysql_fetch_row]
    yields, in order. *)
Record MYSQL_RES : Type := mkRes {
  fields : list MYSQL_FIELD;
  data : list MYSQL_ROW
}.

(** What the driver answers for the connection parameters and the query at
    hand: whether each call succeeds, and the result set it stores. *)
Record MYSQL : Type := mkMysql {
  mysql_init : bool;
  mysql_real_connect : bool;
  mysql_query : bool;
  mysql_store_result : option MYSQL_RES
}.

(** The sentinel that stands for a database NULL. *)
Definition cell_text (v : option string) : string :=
  match v with
  | Some s => s
  | None => "NULL"
  end.

(** [row[i]] and [fields[i]]. *)
Definition index {A : Type} (l : list A) (i : Z) : outcome A :=
  if i <? 0 then Fault OutOfBounds
  else match l !! Z.to_nat i with
       | Some a => Ok a
       | None => Fault OutOfBounds
       end.

(** ** ResultSet Builder *)

Section Builder.

Variable alloc_ok : nat -> bool.

(** The body of the column loop; [false] when it returned NULL. *)
Definition fill_column (result : val) (r : QueryResult) (res : MYSQL_RES)
    (i : Z) : M mem bool :=
  f <- lift (index (fields res) i) ;;
  h <- strdup alloc_ok (name f) ;;
  store_slot (headers r) i h ;;
  let mapping := mysql_type_to_c_type (type f) in
  t <- strdup alloc_ok (mysql_type mapping) ;;
  store_slot (mysql_types r) i t ;;
  c <- strdup alloc_ok (c_type mapping) ;;
  store_slot (c_types r) i c ;;
  if is_null h || is_null t || is_null c
  then free_query_result result ;; ret false
  else ret true.

(** The body of the cell loop for the fetched row [row]. *)
Definition fill_cell (result : val) (r : QueryResult) (row : MYSQL_ROW)
    (row_index : Z) (i : Z) : M mem bool :=
  v <- lift (index row i) ;;
  p <- strdup alloc_ok (cell_text v) ;;
  store_slot (rows r) (int_wrap (row_index * cols_count r + i)) p ;;
  if is_null p
  then free_query_result result ;; ret false
  else ret true.

(** [while ((row = mysql_fetch_row(res)))]: the cursor is the list of rows
    still to fetch. *)
Fixpoint fetch_rows (result : val) (r : QueryResult) (cursor : list MYSQL_ROW)
    (row_index : Z) : M mem bool :=
  match cursor with
  | [] => ret true
  | row :: cursor' =>
      filled <- for_until (seqZ 0 (cols_count r))
                  (fill_cell result r row row_index) ;;
      if filled : bool
      then fetch_rows result r cursor' (int_wrap (row_index + 1))
      else ret false
  end.

(** The content of a structure fresh from malloc(). *)
Definition uninitialised : QueryResult :=
  mkQueryResult Vundef Vundef Vundef Vundef 0 0.

(** [execute_mysql_query]; the answer is the [QueryResult *] it returns.
    The driver's own handles ([conn], [res]) are not heap blocks of this
    program and are left out. *)
Definition execute_mysql_query (conn : MYSQL) : M mem val :=
  if negb (mysql_init conn) then ret Vnull
  else if negb (mysql_real_connect conn) then ret Vnull
  else if negb (mysql_query conn) then ret Vnull
  else match mysql_store_result conn with
  | None => ret Vnull
  | Some res =>
      let rows_count := int_wrap (Z.of_nat (length (data res))) in
      let cols_count := int_wrap (Z.of_nat (length (fields res))) in
      result <- alloc alloc_ok (Bstruct uninitialised) ;;
      if is_null result then ret Vnull
      else
        rows <- malloc_ptrs alloc_ok
                  (size_wrap (int_wrap (rows_count * cols_count) * sizeof_ptr)) ;;
        headers <- malloc_ptrs alloc_ok (size_wrap (cols_count * sizeof_ptr)) ;;
        mysql_types <- malloc_ptrs alloc_ok (size_wrap (cols_count * sizeof_ptr)) ;;
        c_types <- malloc_ptrs alloc_ok (size_wrap (cols_count * sizeof_ptr)) ;;
        let r := mkQueryResult rows headers mysql_types c_types
                   rows_count cols_count in
        store_struct result r ;;
        if is_null rows || is_null headers || is_null mysql_types || is_null c_types
        then free_query_result result ;; ret Vnull
        else
          named <- for_until (seqZ 0 cols_count) (fill_column result r res) ;;
          if named : bool
          then
            fetched <- fetch_rows result r (data res) 0 ;;
            if fetched : bool then ret result else ret Vnull
          else ret Vnull
  end.

End Builder.

(** ** The cell buffer *)

(** [char buffer[bufferSize]]: a byte is [None] until it is written. *)
Definition buffer : Type := list (option ascii).

Definition NUL : ascii := Ascii.zero.

(** strlen() of a C string. *)
Definition strlen (s : string) : Z := Z.of_nat (String.length s).

(** strlen() of what is in the buffer: the bytes before the first NUL. *)
Fixpoint buffer_strlen (b : buffer) : outcome nat :=
  match b with
  | [] => Fault OutOfBounds
  | None :: _ => Fault IndeterminateUse
  | Some c :: b' =>
      if Ascii.eqb c NUL then Ok O
      else check n <- buffer_strlen b' ;; Ok (S n)
  end.

(** The C string in the buffer, as [ft_u8write] reads it. *)
Fixpoint buffer_string (b : buffer) : outcome string :=
  match b with
  | [] => Fault OutOfBounds
  | None :: _ => Fault IndeterminateUse
  | Some c :: b' =>
      if Ascii.eqb c NUL then Ok EmptyString
      else check s <- buffer_string b' ;; Ok (String c s)
  end.

(** Writing [bytes] at offset [at_] of the buffer. *)
Definition poke (at_ : nat) (bytes : list ascii) : M buffer unit :=
  fun dest =>
    if (length dest <? at_ + length bytes)%nat then Fault OutOfBounds
    else Ok (tt, take at_ dest ++ map Some bytes ++ drop (at_ + length bytes) dest).

(** strncpy(dest, src, n) writes exactly [n] bytes: the first [n] characters
    of [src], padded with NULs when [src] is shorter; no terminator is
    written when [src] has [n] characters or more. *)
Definition strncpy (src : string) (n : Z) : M buffer unit :=
  fun dest =>
    if Z.of_nat (length dest) <? n then Fault OutOfBounds
    else
      let k := Z.to_nat n in
      poke 0 (take k (list_ascii_of_string src ++ replicate k NUL)) dest.

(** strcat(dest, src) appends [src] and a terminator where the string in
    [dest] ends. *)
Definition strcat (src : string) : M buffer unit :=
  fun dest =>
    check len <- buffer_strlen dest ;;
    poke len (list_ascii_of_string src ++ [NUL]) dest.

(** [dest[n] = c]. *)
Definition store_byte (n : Z) (c : ascii) : M buffer unit :=
  fun dest =>
    if n <? 0 then Fault OutOfBounds else poke (Z.to_nat n) [c] dest.

(** Function to safely truncate and format cell data. *)
Definition safe_strncpy (src : string) (n : Z) : M buffer unit :=
  if strlen src >? n
  then strncpy src (size_wrap (n - 3)) ;;   (* Leave space for ellipsis *)
       strcat "..."
  else strncpy src n ;;
       store_byte n NUL.

(** ** Renderer *)

(** What a call of [ft_u8write] is given. *)
Inductive ft_arg : Type :=
| Header (j : Z)      (* result->headers[j] *)
| HiddenHeader        (* hidden_columns_header *)
| Ellipsis            (* the literal "..." *)
| Cell (i j : Z).     (* buffer, after safe_strncpy of the cell of row i, column j *)

Global Instance ft_arg_eq_dec : EqDecision ft_arg.
Proof. solve_decision. Defined.

Definition rows_to_show : Z := 5.

(** [for (j = 0; j < 3 && j < cols_count; j++)] *)
Definition head_columns (cols_count : Z) : list Z := seqZ 0 (Z.min 3 cols_count).

(** [if (cols_count > 4) for (j = cols_count - 4; j < cols_count; j++)] *)
Definition tail_columns (cols_count : Z) : list Z :=
  if cols_count >? 4 then seqZ (cols_count - 4) 4 else [].

Definition hidden_columns (cols_count : Z) : Z :=
  if cols_count >? 7 then cols_count - 7 else 0.

(** One table row: the head columns, the marker column when columns are
    hidden, the tail columns; the row ends with [ft_ln]. *)
Definition table_row {A : Type} (cols_count : Z) (column : Z -> A) (marker : A)
    : list A :=
  map column (head_columns cols_count)
  ++ (if hidden_columns cols_count >? 0 then [marker] else [])
  ++ map column (tail_columns cols_count).

Definition header_row (cols_count : Z) : list ft_arg :=
  table_row cols_count Header HiddenHeader.

Definition ellipsis_row (cols_count : Z) : list ft_arg :=
  table_row cols_count (fun _ => Ellipsis) Ellipsis.

Definition data_row (cols_count : Z) (i : Z) : list ft_arg :=
  table_row cols_count (Cell i) Ellipsis.

(** The row loop, whose body moves the counter [i]; [None] when the fuel
    runs out before the loop ends. *)
Fixpoint print_rows (fuel : nat) (rows_count cols_count : Z) (i : Z)
    : option (list (list ft_arg)) :=
  match fuel with
  | O => None
  | S fuel' =>
      if i <? rows_count then
        if (rows_count >? 10) && (i =? rows_to_show) then
          (* Skip directly to the last 5 rows *)
          let i' := rows_count - rows_to_show in
          match print_rows fuel' rows_count cols_count (i' + 1) with
          | Some rest => Some (ellipsis_row cols_count :: data_row cols_count i' :: rest)
          | None => None
          end
        else
          match print_rows fuel' rows_count cols_count (i + 1) with
          | Some rest => Some (data_row cols_count i :: rest)
          | None => None
          end
      else Some []
  end.

(** The calls of [ft_u8write], row by row, header row first. *)
Definition table_calls (rows_count cols_count : Z) : option (list (list ft_arg)) :=
  match print_rows (S (Z.to_nat rows_count)) rows_count cols_count 0 with
  | Some body => Some (header_row cols_count :: body)
  | None => None
  end.

(** [snprintf(hidden_columns_header, 50, "<<+%d cols>>", hidden_columns)];
    the text has at most 20 characters and is never cut. *)
Definition hidden_columns_header (hidden : Z) : string :=
  "<<+" +:+ NilZero.string_of_int (Z.to_int hidden) +:+ " cols>>".

(** [result->headers[i]], [result->rows[i]] and the like, as text. *)
Definition text_at (m : mem) (arr : val) (i : Z) : outcome string :=
  check p <- peek_slot m arr i ;;
  peek_str m p.

(** Buffer size for cell data, before the terminator is added: the longest
    header among the columns of [columns], and [bufferSize] at least. *)
Fixpoint widest_header (m : mem) (r : QueryResult) (columns : list Z)
    (bufferSize : Z) : outcome Z :=
  match columns with
  | [] => Ok bufferSize
  | i :: columns' =>
      check h <- text_at m (headers r) i ;;
      widest_header m r columns'
        (if strlen h >? bufferSize then strlen h else bufferSize)
  end.

(** [bufferSize], terminator included.  A C string is shorter than 2^64
    bytes, so the sum does not wrap. *)
Definition buffer_size (m : mem) (r : QueryResult) : outcome Z :=
  check w <- widest_header m r (head_columns (cols_count r)) 1 ;;
  check w <- widest_header m r (tail_columns (cols_count r)) w ;;
  Ok (w + 1).

(** The text one call of [ft_u8write] receives. *)
Definition written (m : mem) (r : QueryResult) (bufferSize : Z) (a : ft_arg)
    : M buffer string :=
  match a with
  | Header j => lift (text_at m (headers r) j)
  | HiddenHeader => ret (hidden_columns_header (hidden_columns (cols_count r)))
  | Ellipsis => ret "..."
  | Cell i j =>
      s <- lift (text_at m (rows r) (int_wrap (i * cols_count r + j))) ;;
      safe_strncpy s (bufferSize - 1) ;;
      fun dest => lift (buffer_string dest) dest
  end.

(** The table handed to the drawing library: its rows of cell texts. *)
Definition render_table (m : mem) (r : QueryResult) : outcome (list (list string)) :=
  check bufferSize <- buffer_size m r ;;
  match table_calls (rows_count r) (cols_count r) with
  | None => Fault Unfinished
  | Some calls =>
      match for_collect calls (fun row => for_collect row (written m r bufferSize))
              (replicate (Z.to_nat bufferSize) None) with
      | Ok (table, _) => Ok table
      | Fault e => Fault e
      end
  end.

(** [size += strlen(arr[i]) + 1] for the [i] of [range]. *)
Fixpoint add_strings (m : mem) (arr : val) (range : list Z) (size : Z) : outcome Z :=
  match range with
  | [] => Ok size
  | i :: range' =>
      check s <- text_at m arr i ;;
      add_strings m arr range' (size_wrap (size + (strlen s + 1)))
  end.

(** The same for the header and the two type names of each column. *)
Fixpoint add_columns (m : mem) (r : QueryResult) (range : list Z) (size : Z)
    : outcome Z :=
  match range with
  | [] => Ok size
  | i :: range' =>
      check h <- text_at m (headers r) i ;;
      let size := size_wrap (size + (strlen h + 1)) in
      check t <- text_at m (mysql_types r) i ;;
      let size := size_wrap (size + (strlen t + 1)) in
      check c <- text_at m (c_types r) i ;;
      let size := size_wrap (size + (strlen c + 1)) in
      add_columns m r range' size
  end.

(** The size of the object in memory, in bytes ([size_t size]). *)
Definition footprint (m : mem) (r : QueryResult) : outcome Z :=
  let size := sizeof_QueryResult in
  let size :=
    size_wrap (size + size_wrap (size_wrap (int_wrap (rows_count r * cols_count r))
                                 * sizeof_ptr)) in
  let size :=
    size_wrap (size + size_wrap (size_wrap (size_wrap (cols_count r) * sizeof_ptr) * 3)) in
  check size <-
    add_strings m (rows r) (seqZ 0 (int_wrap (rows_count r * cols_count r))) size ;;
  add_columns m r (seqZ 0 (cols_count r)) size.

(** [(double)size] for a [size_t]: the nearest number with a 53-bit
    significand, ties to even; every such number is a rational. *)
Definition to_double (size : Z) : Q :=
  if size <? 2 ^ 53 then inject_Z size
  else
    let e := Z.log2 size - 52 in
    let q := size / 2 ^ e in
    let rest := size mod 2 ^ e in
    let half := 2 ^ (e - 1) in
    let q := if (rest >? half) || ((rest =? half) && Z.odd q) then q + 1 else q in
    inject_Z (q * 2 ^ e).

(** [(double)size / (1024 * 1024 * 1024)]: dividing a double of this range
    by a power of two is exact. *)
Definition gigabytes (size : Z) : Q :=
  (to_double size / inject_Z (1024 * 1024 * 1024))%Q.

(** Column names and data types. *)
Definition legend (m : mem) (r : QueryResult) : outcome (list (string * string * string)) :=
  match for_collect (seqZ 0 (cols_count r))
          (fun i => h <- lift (text_at m (headers r) i) ;;
                    t <- lift (text_at m (mysql_types r) i) ;;
                    c <- lift (text_at m (c_types r) i) ;;
                    ret (h, t, c)) tt with
  | Ok (l, _) => Ok l
  | Fault e => Fault e
  end.

(** What [print_query_result] prints. *)
Record report : Type := mkReport {
  shown : list (list string);                    (* the table *)
  total_rows : Z;                                (* Total number of rows *)
  size_in_gb : Q;                                (* Size in memory *)
  column_types : list (string * string * string) (* Column names and data types *)
}.

(** [print_query_result]; nothing is printed for a NULL result. *)
Definition print_query_result (m : mem) (result : val) : outcome (option report) :=
  if is_null result then Ok None
  else
    check r <- peek_struct m result ;;
    check table <- render_table m r ;;
    check size <- footprint m r ;;
    check names <- legend m r ;;
    Ok (Some (mkReport table (rows_count r) (gigabytes size) names)).

(** ** Configuration *)

(** Modelled from the spec: the parsed configuration, a cJSON tree (cJSON is a
    library outside the sources).  An item is a string, an array, an object
    with named members, or anything else (number, boolean, null). *)
#[local] Unset Elimination Schemes.
Inductive cJSON : Type :=
| cJSON_String (valuestring : string)
| cJSON_Array (items : list cJSON)
| cJSON_Object (members : list (string * cJSON))
| cJSON_Other.
#[local] Set Elimination Schemes.

(** The children [cJSON_ArrayForEach] walks through. *)
Definition children (item : cJSON) : list cJSON :=
  match item with
  | cJSON_Array items => items
  | cJSON_Object members => map snd members
  | _ => []
  end.

(** The first member whose name passes [same]; only the members of an object
    have names. *)
Definition get_object_item (same : string -> string -> bool) (object : option cJSON)
    (key : string) : option cJSON :=
  match object with
  | Some (cJSON_Object members) =>
      snd <$> List.find (fun member => same key (fst member)) members
  | _ => None
  end.

Definition cJSON_GetObjectItemCaseSensitive : option cJSON -> string -> option cJSON :=
  get_object_item String.eqb.

Definition tolower (c : ascii) : ascii :=
  let n := nat_of_ascii c in
  if (65 <=? n)%nat && (n <=? 90)%nat then ascii_of_nat (n + 32) else c.

Fixpoint lowercase (s : string) : string :=
  match s with
  | EmptyString => EmptyString
  | String c s' => String (tolower c) (lowercase s')
  end.

Definition cJSON_GetObjectItem : option cJSON -> string -> option cJSON :=
  get_object_item (fun a b => String.eqb (lowercase a) (lowercase b)).

Definition cJSON_IsString (item : option cJSON) : bool :=
  match item with
  | Some (cJSON_String _) => true
  | _ => false
  end.

(** [item->valuestring]: NULL unless the item is a string. *)
Definition valuestring_of (item : option cJSON) : outcome (option string) :=
  match item with
  | None => Fault NullDeref
  | Some (cJSON_String s) => Ok (Some s)
  | Some _ => Ok None
  end.

(** The first preset of [db_presets] whose [name] is the string
    [preset_name]; [List.find] is the loop that returns at the first match. *)
Definition get_db_preset (json : cJSON) (preset_name : string) : option cJSON :=
  let db_presets := cJSON_GetObjectItemCaseSensitive (Some json) "db_presets" in
  List.find
    (fun preset =>
       let name := cJSON_GetObjectItemCaseSensitive (Some preset) "name" in
       cJSON_IsString name
       && match valuestring_of name with
          | Ok (Some valuestring) => String.eqb valuestring preset_name
          | _ => false
          end)
    (match db_presets with
     | Some array => children array
     | None => []
     end).

(** ** The program *)

Definition EXIT_SUCCESS : Z := 0.
Definition EXIT_FAILURE : Z := 1.

Definition config_path : string := "/home/rgw/Documents/rgwml.config".

Section Program.

Variable alloc_ok : nat -> bool.

(** The file system: the text of a regular file that is read whole, or
    [None] for a file that cannot be opened.  The calls between fopen() and
    fclose() are taken one by one in [Stream], below. *)
Variable fopen : string -> option string.

(** cJSON's parser: [None] for a text that is not JSON. *)
Variable cJSON_Parse : string -> option cJSON.

(** The driver's answer for the given host, user, password, database and
    query. *)
Variable server :
  option string -> option string -> option string -> option string -> string -> MYSQL.

Definition read_file (filename : string) : M mem val :=
  match fopen filename with
  | None => ret Vnull
  | Some content => alloc alloc_ok (Bstr content)
  end.

(** [main]; the answer is the exit status.  [argc] is the length of
    [argv]. *)
Definition main (argv : list string) : M mem Z :=
  let argc := Z.of_nat (length argv) in
  if negb (argc =? 3) then ret EXIT_FAILURE
  else
    preset_name <- lift (index argv 1) ;;
    query <- lift (index argv 2) ;;
    config_content <- read_file config_path ;;
    if is_null config_content then ret EXIT_FAILURE
    else
      text <- (fun m => lift (peek_str m config_content) m) ;;
      match cJSON_Parse text with
      | None => free config_content ;; ret EXIT_FAILURE
      | Some config_json =>
          match get_db_preset config_json preset_name with
          | None => free config_content ;; ret EXIT_FAILURE
          | Some preset =>
              host <- lift (valuestring_of (cJSON_GetObjectItem (Some preset) "host")) ;;
              user <- lift (valuestring_of (cJSON_GetObjectItem (Some preset) "username")) ;;
              password <- lift (valuestring_of (cJSON_GetObjectItem (Some preset) "password")) ;;
              database <- lift (valuestring_of (cJSON_GetObjectItem (Some preset) "database")) ;;
              result <- execute_mysql_query alloc_ok
                          (server host user password database query) ;;
              (if negb (is_null result)
               then (fun m => lift (print_query_result m result) m) ;;
                    free_query_result result
               else ret tt (* "Query execution failed." *)) ;;
              free config_content ;;
              ret EXIT_SUCCESS
          end
      end.

End Program.

(** ** The configuration file, call by call *)

Module Stream.

(** An open stream, as far as [read_file] can tell: what ftell() answers
    once fseek() was asked for the end of the stream (the size of a regular
    file; -1 when the stream cannot be positioned, as a pipe), and the bytes
    fread() delivers once fseek() was asked for its start. *)
Record FILE : Type := mkFILE {
  ftell : Z;
  delivered : list ascii
}.

(** fread(content, 1, count, file): the bytes delivered, [count] at most, are
    written at the start of [content]. *)
Definition fread (count : Z) (file : FILE) : M buffer unit :=
  poke 0 (take (Z.to_nat count) (delivered file)).

(** [read_file] with its calls one by one.  [malloc_ok] tells whether
    malloc() finds memory; the answer is the content of the block returned,
    [None] for NULL.  The block has [length + 1] bytes that malloc() did not
    clear, [length + 1] converted to [size_t]; no result of fseek(), ftell()
    or fread() is checked. *)
Definition read_file (fopen : string -> option FILE) (malloc_ok : bool)
    (filename : string) : outcome (option buffer) :=
  match fopen filename with
  | None => Ok None                      (* Could not open file *)
  | Some file =>
      let length := ftell file in
      let content := replicate (Z.to_nat (size_wrap (length + 1))) None in
      if negb malloc_ok then Ok None     (* Memory allocation failed *)
      else
        match (fread (size_wrap length) file ;;
               store_byte length NUL)%cmd content with
        | Ok (_, content) => Ok (Some content)
        | Fault e => Fault e
        end
  end.

(** A regular file that is read whole: ftell() gives its size, a [long],
    and fread() delivers that many bytes. *)
Definition whole (file : FILE) : Prop :=
  ftell file = Z.of_nat (length (delivered file)) /\ ftell file < 2 ^ 63 - 1.

(** The C string at the start of [bytes]: what precedes the first NUL. *)
Fixpoint c_string (bytes : list ascii) : string :=
  match bytes with
  | [] => EmptyString
  | c :: bytes' => if Ascii.eqb c NUL then EmptyString else String c (c_string bytes')
  end.

(** The text of the file: what [fopen] of Section Program answers for it. *)
Definition text (file : FILE) : string := c_string (delivered file).

End Stream.

(** ** Fixtures *)

(** Allocation never fails; allocation call number [k] fails. *)
Definition always : nat -> bool := fun _ => true.
Definition failing (k : nat) : nat -> bool := fun n => negb (n =? k)%nat.

(** A server that answers the query with the given result set. *)
Definition answering (res : MYSQL_RES) : MYSQL := mkMysql true true true (Some res).

(** Two rows of two columns, the second cell of the second row NULL. *)
Definition two_by_two : MYSQL_RES :=
  mkRes [mkField "id" MYSQL_TYPE_LONG; mkField "name" MYSQL_TYPE_VARCHAR]
        [[Some "1"; Some "Alice"]; [Some "2"; None]].

(** One column whose header has 9 characters (computed width 10), a cell of
    9 characters and a cell of 50. *)
Definition fifty : string := "The quick brown fox jumps over the lazy dog, twice".

Definition wide_cell : MYSQL_RES :=
  mkRes [mkField "city_name" MYSQL_TYPE_VARCHAR] [[Some "Amsterdam"]; [Some fifty]].

(** The same column with the long cell alone. *)
Definition wide_cell_alone : MYSQL_RES :=
  mkRes [mkField "city_name" MYSQL_TYPE_VARCHAR] [[Some fifty]].

(** A configuration with one preset, and a server that refuses the
    connection. *)
Definition config_text : string := "{db_presets: [...]}".

Definition config_tree : cJSON :=
  cJSON_Object
    [("db_presets",
      cJSON_Array
        [cJSON_Object [("name", cJSON_String "prod");
                       ("host", cJSON_String "db.example.org");
                       ("username", cJSON_String "reader");
                       ("password", cJSON_String "secret");
                       ("database", cJSON_String "sales")]])].

Definition one_file (path : string) : option string :=
  if String.eqb path config_path then Some config_text else None.

Definition parser (text : string) : option cJSON :=
  if String.eqb text config_text then Some config_tree else None.

Definition unreachable_server
    (host user password database : option string) (query : string) : MYSQL :=
  mkMysql true false false None.

(** A structure whose cell array is absent, as it is after a failed
    malloc() of the grid: one row, one column, the other arrays complete. *)
Definition gridless : mem :=
  mkMem (<[0%nat := Bstruct (mkQueryResult Vnull (Vptr 1) (Vptr 2) (Vptr 3) 1 1)]>
         (<[1%nat := Bptrs [Vptr 4]]>
          (<[2%nat := Bptrs [Vptr 5]]>
           (<[3%nat := Bptrs [Vptr 6]]>
            (<[4%nat := Bstr "id"]>
             (<[5%nat := Bstr "INT"]>
              (<[6%nat := Bstr "int32_t"]> ∅))))))) 7.

(** What a run leaves behind: its answer and the number of blocks still
    allocated, or the fault. *)
Definition verdict {A : Type} (o : outcome (A * mem)) : outcome (A * nat) :=
  match o with
  | Ok (a, m) => Ok (a, outstanding m)
  | Fault e => Fault e
  end.

(** Running the query against a server that answers [res], with or without
    an allocation failure, and printing what comes back. *)
Definition query (alloc_ok : nat -> bool) (res : MYSQL_RES) : outcome (val * mem) :=
  execute_mysql_query alloc_ok (answering res) empty_mem.

Definition query_and_print (res : MYSQL_RES) : outcome (option report) :=
  match query always res with
  | Ok (result, m) => print_query_result m result
  | Fault e => Fault e
  end.

(** The cell buffer holding the C string [s] in [size] bytes. *)
Definition buffer_with (s : string) (size : nat) : buffer :=
  take size (map Some (list_ascii_of_string s) ++ replicate size (Some NUL)).

(** ** Reading a constructed result *)

(** The array [arr] has [n] slots, and its first slots point to live strings
    with the texts of [texts], in order. *)
Definition holds (m : mem) (arr : val) (n : nat) (texts : list string) : Prop :=
  exists a slots,
    arr = Vptr a /\ heap m !! a = Some (Bptrs slots) /\ length slots = n /\
    forall (i : nat) s, texts !! i = Some s ->
      exists b, slots !! i = Some (Vptr b) /\ heap m !! b = Some (Bstr s).

(** Every block of [m] but the one [arr] points to is the same in [m']. *)
Definition preserved (m m' : mem) (arr : val) : Prop :=
  forall x b, heap m !! x = Some b -> Vptr x <> arr -> heap m' !! x = Some b.

(** What a column of the legend says: header, native type, portable type. *)
Definition column_of (f : MYSQL_FIELD) : string * string * string :=
  (name f, mysql_type (mysql_type_to_c_type (type f)),
   c_type (mysql_type_to_c_type (type f))).

(** The result under construction: the structure is written, the four
    arrays are distinct blocks of [cells_n] and [cols_n] slots, and their
    first slots hold the cell texts and the columns filled so far. *)
Definition partial (m : mem) (result : val) (r : QueryResult) (cells_n cols_n : nat)
    (cells : list string) (columns : list (string * string * string)) : Prop :=
  peek_struct m result = Ok r /\
  NoDup [rows r; headers r; mysql_types r; c_types r] /\
  holds m (rows r) cells_n cells /\
  holds m (headers r) cols_n ((fun c => c.1.1) <$> columns) /\
  holds m (mysql_types r) cols_n ((fun c => c.1.2) <$> columns) /\
  holds m (c_types r) cols_n ((fun c => c.2) <$> columns).

(** The bytes the texts of [texts] take, terminators included. *)
Definition bytes_of (texts : list string) : Z :=
  foldr (fun s acc => strlen s + 1 + acc) 0 texts.

(** The same for the header and the two type names of every column. *)
Definition bytes_of_columns (columns : list (string * string * string)) : Z :=
  foldr (fun c acc => (strlen c.1.1 + 1) + (strlen c.1.2 + 1) + (strlen c.2 + 1) + acc)
        0 columns.

(** The estimate as the specification words it: the fixed overhead of the
    structure, one pointer slot per cell, three pointer slots per column, and
    every cell, header and type-name string with its terminator. *)
Definition estimated_footprint (rowCount colCount : Z) (cells : list string)
    (columns : list (string * string * string)) : Z :=
  sizeof_QueryResult
  + rowCount * colCount * sizeof_ptr
  + 3 * colCount * sizeof_ptr
  + bytes_of cells
  + bytes_of_columns columns.

(** The memory and the structure of the two-by-two result once built. *)
Definition two_by_two_mem : mem :=
  match query always two_by_two with
  | Ok (_, m) => m
  | Fault _ => empty_mem
  end.

Definition two_by_two_struct : QueryResult :=
  mkQueryResult (Vptr 1) (Vptr 2) (Vptr 3) (Vptr 4) 2 2.

(** ** What a result owns *)

(** An array of the result: its address, the addresses of the strings stored
    in its first slots, and its number of slots. *)
Record array_layout : Type := mkArray {
  array_at : nat;
  stored : list nat;
  slots_n : nat
}.

(** The block of such an array: the slots written so far, then the slots
    malloc() left unwritten. *)
Definition array_block (x : array_layout) : block :=
  Bptrs ((Vptr <$> stored x) ++ replicate (slots_n x - length (stored x)) Vundef).

Definition strings_of (arrays : list array_layout) : list nat :=
  concat (stored <$> arrays).

(** Every block of a result: the structure, the arrays, the strings. *)
Definition owned (a0 : nat) (arrays : list array_layout) : list nat :=
  a0 :: (array_at <$> arrays) ++ strings_of arrays.

(** [m] holds at [a0] a result whose four arrays are [arrays], in the order
    of the fields of the structure; no block is used twice. *)
Definition laid_out (m : mem) (a0 : nat) (r : QueryResult)
    (arrays : list array_layout) : Prop :=
  heap m !! a0 = Some (Bstruct r) /\
  Vptr <$> (array_at <$> arrays) = [rows r; headers r; mysql_types r; c_types r] /\
  Forall (fun x => heap m !! array_at x = Some (array_block x)
                   /\ (length (stored x) <= slots_n x)%nat) arrays /\
  Forall (fun p => exists s, heap m !! p = Some (Bstr s)) (strings_of arrays) /\
  NoDup (owned a0 arrays).

(** The blocks at [own] are what [m] has more than [m0]. *)
Definition grown (m0 m : mem) (own : list nat) : Prop :=
  heap m0 ⊆ heap m /\
  dom (heap m) = dom (heap m0) ∪ list_to_set own /\
  Forall (fun k => heap m0 !! k = None) own.

(** [m'] is [m] without the blocks at [addrs]. *)
Definition without (addrs : list nat) (m m' : mem) : Prop :=
  allocs m' = allocs m /\
  forall k, heap m' !! k = if decide (k ∈ addrs) then None else heap m !! k.

(** A complete result: every slot of every array is written, and the counts
    of the structure are the sizes of the arrays. *)
Definition complete (m : mem) (result : val) (r : QueryResult)
    (a0 : nat) (arrays : list array_layout) : Prop :=
  result = Vptr a0 /\
  laid_out m a0 r arrays /\
  Forall (fun x => length (stored x) = slots_n x) arrays /\
  (Z.of_nat <$> (slots_n <$> arrays))
    = [int_wrap (rows_count r * cols_count r); cols_count r; cols_count r; cols_count r].

(** The four arrays of a result set under construction, with the strings
    stored so far in each. *)
Definition arrays_with (a1 a2 a3 a4 : nat) (cells_n cols_n : nat)
    (cps hps tps qps : list nat) : list array_layout :=
  [mkArray a1 cps cells_n; mkArray a2 hps cols_n; mkArray a3 tps cols_n;
   mkArray a4 qps cols_n].

(** The computation [c] returns from [m], and what it does to the heap is to
    release the blocks at [addrs]. *)
Definition releases (c : M mem unit) (addrs : list nat) (m : mem) : Prop :=
  exists m', c m = Ok (tt, m') /\ without addrs m m'.

(** ** A result under construction, or half torn down *)

(** An array as malloc() returned it: absent, or with no slot written. *)
Definition unwritten (m : mem) (arr : val) : Prop :=
  arr = Vnull \/
  exists a n, arr = Vptr a /\ heap m !! a = Some (Bptrs (replicate n Vundef)).

(** The grid, while its strings are being freed: still there as it was, or
    freed itself through one of its own slots. *)
Definition grid_or_gone (a : nat) (slots : list val) (m : mem) : Prop :=
  heap m !! a = None \/ heap m !! a = Some (Bptrs slots).

(** The result while it is being filled: the structure is written, and the
    slots of the grid from [c] on are as malloc() left them. *)
Definition grid_written_to (m : mem) (a0 a1 : nat) (r : QueryResult) (n c : nat) : Prop :=
  heap m !! a0 = Some (Bstruct r) /\
  exists slots, heap m !! a1 = Some (Bptrs slots) /\ length slots = n /\
    forall i, (c <= i < n)%nat -> slots !! i = Some Vundef.

(** What a loop of the construction came to: it crashed, or it went on in a
    memory that satisfies [Q], or [L] holds. *)
Definition crashed_or (o : outcome (bool * mem)) (Q : mem -> Prop) (L : Prop) : Prop :=
  (exists e, o = Fault e) \/ (exists m', o = Ok (true, m') /\ Q m') \/ L.

(** Every allocation call from [m] up to, and not including, the one for the
    last cell finds memory, when the next cell to fill is cell [c] of [n]. *)
Definition ok_until_last_cell (alloc_ok : nat -> bool) (n : nat) (m : mem) (c : nat)
    : Prop :=
  forall k, (allocs m <= k < allocs m + (n - 1 - c))%nat -> alloc_ok k = true.

(** ** What the table shows *)

(** The text a call of [ft_u8write] shows when no cell is cut: the header,
    the marker, the dots, or the cell as the server sent it. *)
Definition shown_text (cells : list string) (columns : list (string * string * string))
    (cols : Z) (a : ft_arg) : string :=
  match a with
  | Header j => default "" ((fun c => c.1.1) <$> columns !! Z.to_nat j)
  | HiddenHeader => hidden_columns_header (hidden_columns cols)
  | Ellipsis => "..."
  | Cell i j => default "" (cells !! Z.to_nat (i * cols + j))
  end.

(** A call that reads inside the result: its column exists, and its row. *)
Definition in_range (rows cols : Z) (a : ft_arg) : Prop :=
  match a with
  | Header j => 0 <= j < cols
  | Cell i j => 0 <= i < rows /\ 0 <= j < cols
  | _ => True
  end.

(** What a text of the table that came back has to do with the call of
    [ft_u8write] that made it, on a buffer of [bufferSize] bytes: a header
    is the header of its column, the marker and the dots are what they are,
    and a cell is the cell of its row and column as the result has it,
    verbatim when it fits the buffer. *)
Definition rendered (m : mem) (r : QueryResult) (bufferSize : Z) (a : ft_arg)
    (text : string) : Prop :=
  match a with
  | Header j => text_at m (headers r) j = Ok text
  | HiddenHeader => text = hidden_columns_header (hidden_columns (cols_count r))
  | Ellipsis => text = "..."
  | Cell i j =>
      exists s,
        text_at m (rows r) (int_wrap (i * cols_count r + j)) = Ok s /\
        (strlen s <= bufferSize - 1 -> NUL ∉ list_ascii_of_string s -> text = s)
  end.

(** The texts of [row] are those of row [i] of the result, in the columns
    on display. *)
Definition rendered_row (m : mem) (r : QueryResult) (bufferSize : Z) (i : Z)
    (row : list string) : Prop :=
  Forall2 (rendered m r bufferSize) (data_row (cols_count r) i) row.

(** ** NULL cells *)

(** The answer [res] with every NULL cell replaced by a cell that holds the
    four letters NULL. *)
Definition spelled_out (res : MYSQL_RES) : MYSQL_RES :=
  mkRes (fields res) (map (map (fun v => Some (cell_text v))) (data res)).

(** ** More fixtures *)

(** A complete result set of one row and one column, laid out by hand. *)
Definition one_cell : mem :=
  mkMem (<[0%nat := Bstruct (mkQueryResult (Vptr 1) (Vptr 2) (Vptr 3) (Vptr 4) 1 1)]>
         (<[1%nat := Bptrs [Vptr 5]]>
          (<[2%nat := Bptrs [Vptr 6]]>
           (<[3%nat := Bptrs [Vptr 7]]>
            (<[4%nat := Bptrs [Vptr 8]]>
             (<[5%nat := Bstr "42"]>
              (<[6%nat := Bstr "id"]>
               (<[7%nat := Bstr "INT"]>
                (<[8%nat := Bstr "int32_t"]> ∅))))))))) 9.

Definition one_cell_struct : QueryResult :=
  mkQueryResult (Vptr 1) (Vptr 2) (Vptr 3) (Vptr 4) 1 1.

Definition one_cell_arrays : list array_layout :=
  arrays_with 1 2 3 4 1 1 [5%nat] [6%nat] [7%nat] [8%nat].

(** One row of two columns while the row is being fetched: the first cell is
    stored, the second slot of the grid is as malloc() left it. *)
Definition half_written : mem :=
  mkMem (<[0%nat := Bstruct (mkQueryResult (Vptr 1) (Vptr 2) (Vptr 3) (Vptr 4) 1 2)]>
         (<[1%nat := Bptrs [Vptr 11; Vundef]]>
          (<[2%nat := Bptrs [Vptr 5; Vptr 8]]>
           (<[3%nat := Bptrs [Vptr 6; Vptr 9]]>
            (<[4%nat := Bptrs [Vptr 7; Vptr 10]]>
             (<[5%nat := Bstr "id"]>
              (<[6%nat := Bstr "INT"]>
               (<[7%nat := Bstr "int32_t"]>
                (<[8%nat := Bstr "name"]>
                 (<[9%nat := Bstr "VARCHAR"]>
                  (<[10%nat := Bstr "char*"]>
                   (<[11%nat := Bstr "1"]> ∅)))))))))))) 12.

(** Two rows of two columns in which no cell is longer than its header row
    allows: the longest header has 4 characters. *)
Definition fitting : MYSQL_RES :=
  mkRes [mkField "id" MYSQL_TYPE_LONG; mkField "name" MYSQL_TYPE_VARCHAR]
        [[Some "1"; Some "Bob"]; [Some "2"; None]].

Definition fitting_mem : mem :=
  match query always fitting with
  | Ok (_, m) => m
  | Fault _ => empty_mem
  end.

(** A configuration whose only preset has no host, and its parser. *)
Definition hostless_tree : cJSON :=
  cJSON_Object
    [("db_presets",
      cJSON_Array
        [cJSON_Object [("name", cJSON_String "prod");
                       ("username", cJSON_String "reader");
                       ("password", cJSON_String "secret");
                       ("database", cJSON_String "sales")]])].

Definition hostless_parser (text : string) : option cJSON :=
  if String.eqb text config_text then Some hostless_tree else None.

(** A server that answers every query with the result set [res]. *)
Definition answering_server (res : MYSQL_RES)
    (host user password database : option string) (query : string) : MYSQL :=
  answering res.

(** A result set of [rows] rows and [cols] columns: the headers are col0,
    col1 and so on, and the cell of row [i] and column [j] reads [i.j]. *)
Definition decimal (n : nat) : string :=
  NilZero.string_of_int (Z.to_int (Z.of_nat n)).

Definition numbered (rows cols : nat) : MYSQL_RES :=
  mkRes ((fun j => mkField ("col" +:+ decimal j) MYSQL_TYPE_LONG) <$> seq 0 cols)
        ((fun i => (fun j => Some (decimal i +:+ "." +:+ decimal j)) <$> seq 0 cols)
           <$> seq 0 rows).

(** Twelve rows of nine columns, once built, and the table printed for
    them. *)
Definition twelve_by_nine : MYSQL_RES := numbered 12 9.

Definition twelve_by_nine_mem : mem :=
  match query always twelve_by_nine with
  | Ok (_, m) => m
  | Fault _ => empty_mem
  end.

Definition twelve_by_nine_struct : QueryResult :=
  mkQueryResult (Vptr 1) (Vptr 2) (Vptr 3) (Vptr 4) 12 9.

Definition twelve_by_nine_table : list (list string) :=
  [["col0"; "col1"; "col2"; "<<+2 cols>>"; "col5"; "col6"; "col7"; "col8"];
   ["0.0"; "0.1"; "0.2"; "..."; "0.5"; "0.6"; "0.7"; "0.8"];
   ["1.0"; "1.1"; "1.2"; "..."; "1.5"; "1.6"; "1.7"; "1.8"];
   ["2.0"; "2.1"; "2.2"; "..."; "2.5"; "2.6"; "2.7"; "2.8"];
   ["3.0"; "3.1"; "3.2"; "..."; "3.5"; "3.6"; "3.7"; "3.8"];
   ["4.0"; "4.1"; "4.2"; "..."; "4.5"; "4.6"; "4.7"; "4.8"];
   ["..."; "..."; "..."; "..."; "..."; "..."; "..."; "..."];
   ["7.0"; "7.1"; "7.2"; "..."; "7.5"; "7.6"; "7.7"; "7.8"];
   ["8.0"; "8.1"; "8.2"; "..."; "8.5"; "8.6"; "8.7"; "8.8"];
   ["9.0"; "9.1"; "9.2"; "..."; "9.5"; "9.6"; "9.7"; "9.8"];
   ["10.0"; "10.1"; "10.2"; "..."; "10.5"; "10.6"; "10.7"; "10.8"];
   ["11.0"; "11.1"; "11.2"; "..."; "11.5"; "11.6"; "11.7"; "11.8"]].

(** Streams: the configuration as a regular file, as a pipe with the same
    bytes, and as a file cut short while it is read. *)
Definition config_stream : Stream.FILE :=
  Stream.mkFILE 19 (list_ascii_of_string config_text).

Definition config_pipe : Stream.FILE :=
  Stream.mkFILE (-1) (list_ascii_of_string config_text).

Definition config_cut : Stream.FILE :=
  Stream.mkFILE 19 (list_ascii_of_string "{db_presets").

Definition one_stream (file : Stream.FILE) (path : string) : option Stream.FILE :=
  if String.eqb path config_path then Some file else None.

(** * Theorems *)

(** ** Machine integers *)

(** Within range nothing wraps. *)
Lemma int_wrap_id (z : Z) : - 2 ^ 31 <= z < 2 ^ 31 -> int_wrap z = z.
Proof. intros Hz. unfold int_wrap. rewrite Z.mod_small; lia. Qed.

Lemma size_wrap_id (z : Z) : 0 <= z < 2 ^ 64 -> size_wrap z = z.
Proof. intros Hz. unfold size_wrap. by rewrite Z.mod_small. Qed.

(** ** TypeMapper *)

(** C4, counterexample: the tag YEAR is temporal, and its portable type is
    [int], not text. *)
Lemma year_is_not_text :
  mysql_type_to_c_type MYSQL_TYPE_YEAR = mkTypeMapping "YEAR" "int" /\
  c_type (mysql_type_to_c_type MYSQL_TYPE_YEAR) <> "char*".
Proof. split; [reflexivity | discriminate]. Qed.

(** C4, amended: the mapper is total with two non-empty names for every tag,
    unlisted tags give ("UNKNOWN", "void"), and the table is: decimal to
    double; 8, 16, 32 and 64-bit integers to the signed type of that width and
    the 24-bit integer to int32_t; float and double to themselves; bit to
    uint8_t; date, time, datetime, timestamp and newdate to text, year to int;
    character, text, blob, json, enum, set and geometry tags to text; the
    null type to void. *)
Theorem type_mapper_table :
  (forall t, mysql_type (mysql_type_to_c_type t) <> ""
             /\ c_type (mysql_type_to_c_type t) <> "") /\
  (forall code, mysql_type_to_c_type (MYSQL_TYPE_unlisted code)
                = mkTypeMapping "UNKNOWN" "void") /\
  Forall (fun t => c_type (mysql_type_to_c_type t) = "double")
         [MYSQL_TYPE_DECIMAL; MYSQL_TYPE_NEWDECIMAL; MYSQL_TYPE_DOUBLE] /\
  c_type (mysql_type_to_c_type MYSQL_TYPE_TINY) = "int8_t" /\
  c_type (mysql_type_to_c_type MYSQL_TYPE_SHORT) = "int16_t" /\
  c_type (mysql_type_to_c_type MYSQL_TYPE_LONG) = "int32_t" /\
  c_type (mysql_type_to_c_type MYSQL_TYPE_INT24) = "int32_t" /\
  c_type (mysql_type_to_c_type MYSQL_TYPE_LONGLONG) = "int64_t" /\
  c_type (mysql_type_to_c_type MYSQL_TYPE_FLOAT) = "float" /\
  c_type (mysql_type_to_c_type MYSQL_TYPE_BIT) = "uint8_t" /\
  c_type (mysql_type_to_c_type MYSQL_TYPE_YEAR) = "int" /\
  c_type (mysql_type_to_c_type MYSQL_TYPE_NULL) = "void" /\
  Forall (fun t => c_type (mysql_type_to_c_type t) = "char*")
         [MYSQL_TYPE_DATE; MYSQL_TYPE_TIME; MYSQL_TYPE_DATETIME;
          MYSQL_TYPE_TIMESTAMP; MYSQL_TYPE_NEWDATE;
          MYSQL_TYPE_VARCHAR; MYSQL_TYPE_VAR_STRING; MYSQL_TYPE_STRING;
          MYSQL_TYPE_TINY_BLOB; MYSQL_TYPE_MEDIUM_BLOB; MYSQL_TYPE_LONG_BLOB;
          MYSQL_TYPE_BLOB; MYSQL_TYPE_JSON; MYSQL_TYPE_ENUM; MYSQL_TYPE_SET;
          MYSQL_TYPE_GEOMETRY].
Proof.
  split.
  { intros t; destruct t; split; discriminate. }
  split; [reflexivity |].
  repeat split; repeat constructor.
Qed.

(** ** Renderer: which columns and rows are shown *)

(** The shape of every table row, header row and data rows alike. *)
Lemma table_row_shape {A : Type} (cols_count : Z) (column : Z -> A) (marker : A) :
  table_row cols_count column marker =
  if cols_count <=? 3 then column <$> seqZ 0 cols_count
  else [column 0; column 1; column 2]
       ++ (if cols_count >? 7 then [marker] else [])
       ++ (if cols_count >? 4 then column <$> seqZ (cols_count - 4) 4 else []).
Proof.
  unfold table_row, head_columns, tail_columns, hidden_columns.
  destruct (Z.leb_spec cols_count 3) as [Hle | Hgt].
  - rewrite Z.min_r by lia.
    replace (cols_count >? 7) with false by lia.
    replace (cols_count >? 4) with false by lia.
    simpl. by rewrite app_nil_r.
  - rewrite Z.min_l by lia.
    destruct (cols_count >? 7) eqn:H7;
      [replace (cols_count - 7 >? 0) with true by lia |];
      destruct (cols_count >? 4); reflexivity.
Qed.

Lemma table_row_length {A : Type} (cols_count : Z) (column : Z -> A) (marker : A) :
  (length (table_row cols_count column marker) <= 8)%nat.
Proof.
  rewrite table_row_shape.
  destruct (Z.leb_spec cols_count 3).
  - rewrite length_fmap, length_seqZ. lia.
  - destruct (cols_count >? 7), (cols_count >? 4);
      rewrite ?length_app, ?length_fmap, ?length_seqZ; simpl; lia.
Qed.

(** One round of the row loop. *)
Lemma print_rows_S (fuel : nat) (rows_count cols_count i : Z) :
  print_rows (S fuel) rows_count cols_count i =
  if i <? rows_count then
    if (rows_count >? 10) && (i =? rows_to_show) then
      match print_rows fuel rows_count cols_count (rows_count - rows_to_show + 1) with
      | Some rest =>
          Some (ellipsis_row cols_count
                :: data_row cols_count (rows_count - rows_to_show) :: rest)
      | None => None
      end
    else
      match print_rows fuel rows_count cols_count (i + 1) with
      | Some rest => Some (data_row cols_count i :: rest)
      | None => None
      end
  else Some [].
Proof. reflexivity. Qed.

(** The row loop where it does not jump: either there are at most 10 rows,
    or the counter is past [rows_to_show]. *)
Lemma print_rows_plain (fuel : nat) (rows_count cols_count i : Z) :
  rows_count <= 10 \/ rows_to_show < i ->
  (Z.to_nat (rows_count - i) < fuel)%nat ->
  print_rows fuel rows_count cols_count i =
  Some (data_row cols_count <$> seqZ i (rows_count - i)).
Proof.
  unfold rows_to_show.
  revert i. induction fuel as [| fuel IH]; intros i Hplain Hfuel; [lia |].
  rewrite print_rows_S. unfold rows_to_show.
  destruct (Z.ltb_spec i rows_count) as [Hlt | Hge].
  - replace ((rows_count >? 10) && (i =? 5)) with false by lia.
    rewrite IH by lia.
    rewrite (seqZ_cons i (rows_count - i)) by lia.
    replace (Z.succ i) with (i + 1) by lia.
    replace (Z.pred (rows_count - i)) with (rows_count - (i + 1)) by lia.
    reflexivity.
  - by rewrite seqZ_nil by lia.
Qed.

(** One round of the row loop before the jump. *)
Lemma print_rows_head (fuel : nat) (rows_count cols_count i : Z) :
  10 < rows_count -> 0 <= i < rows_to_show ->
  print_rows (S fuel) rows_count cols_count i =
  cons (data_row cols_count i) <$> print_rows fuel rows_count cols_count (i + 1).
Proof.
  unfold rows_to_show. intros Hrows Hi.
  rewrite print_rows_S. unfold rows_to_show.
  replace (i <? rows_count) with true by lia.
  replace ((rows_count >? 10) && (i =? 5)) with false by lia.
  by destruct (print_rows fuel rows_count cols_count (i + 1)).
Qed.

(** The round of the row loop that jumps. *)
Lemma print_rows_jump (fuel : nat) (rows_count cols_count : Z) :
  10 < rows_count ->
  (5 <= fuel)%nat ->
  print_rows (S fuel) rows_count cols_count rows_to_show =
  Some (ellipsis_row cols_count
        :: (data_row cols_count <$> seqZ (rows_count - rows_to_show) rows_to_show)).
Proof.
  intros Hrows Hfuel.
  rewrite print_rows_S.
  rewrite print_rows_plain by (unfold rows_to_show; lia).
  unfold rows_to_show.
  replace (5 <? rows_count) with true by lia.
  replace ((rows_count >? 10) && (5 =? 5)) with true by lia.
  rewrite (seqZ_cons (rows_count - 5) 5) by lia.
  replace (Z.succ (rows_count - 5)) with (rows_count - 5 + 1) by lia.
  replace (rows_count - (rows_count - 5 + 1)) with (Z.pred 5) by lia.
  reflexivity.
Qed.

(** The row loop ends within its step budget. *)
Lemma print_rows_fuel (rows_count cols_count : Z) :
  print_rows (S (Z.to_nat rows_count)) rows_count cols_count 0 =
  Some (if rows_count >? 10
        then (data_row cols_count <$> seqZ 0 rows_to_show)
             ++ [ellipsis_row cols_count]
             ++ (data_row cols_count <$> seqZ (rows_count - rows_to_show) rows_to_show)
        else data_row cols_count <$> seqZ 0 rows_count).
Proof.
  destruct (Z.gtb_spec rows_count 10) as [Hgt | Hle].
  - assert (exists k, Z.to_nat rows_count = (5 + S k)%nat /\ (5 <= k)%nat)
      as (k & -> & Hk) by (exists (Z.to_nat rows_count - 6)%nat; lia).
    change (S (5 + S k)) with (S (S (S (S (S (S (S k))))))).
    rewrite (print_rows_head _ _ _ 0) by (unfold rows_to_show; lia).
    rewrite (print_rows_head _ _ _ (0 + 1)) by (unfold rows_to_show; lia).
    rewrite (print_rows_head _ _ _ (0 + 1 + 1)) by (unfold rows_to_show; lia).
    rewrite (print_rows_head _ _ _ (0 + 1 + 1 + 1)) by (unfold rows_to_show; lia).
    rewrite (print_rows_head _ _ _ (0 + 1 + 1 + 1 + 1)) by (unfold rows_to_show; lia).
    change (0 + 1 + 1 + 1 + 1 + 1) with rows_to_show.
    rewrite print_rows_jump by lia.
    reflexivity.
  - rewrite print_rows_plain by lia.
    by rewrite Z.sub_0_r.
Qed.

(** The whole table: the header row, then the rows the loop selects. *)
Lemma table_calls_shape (rows_count cols_count : Z) :
  table_calls rows_count cols_count =
  Some (header_row cols_count ::
        (if rows_count >? 10
         then (data_row cols_count <$> seqZ 0 5)
              ++ [ellipsis_row cols_count]
              ++ (data_row cols_count <$> seqZ (rows_count - 5) 5)
         else data_row cols_count <$> seqZ 0 rows_count)).
Proof. unfold table_calls. by rewrite print_rows_fuel. Qed.

(** Beyond 7 columns every row has the marker column at position 3. *)
Lemma table_row_marker {A : Type} (cols : Z) (column : Z -> A) (marker : A) :
  7 < cols ->
  table_row cols column marker =
  [column 0; column 1; column 2; marker] ++ (column <$> seqZ (cols - 4) 4).
Proof.
  intros Hcols. rewrite table_row_shape.
  replace (cols <=? 3) with false by lia.
  replace (cols >? 7) with true by lia.
  replace (cols >? 4) with true by lia.
  reflexivity.
Qed.

Lemma data_row_marker (cols i : Z) :
  7 < cols ->
  data_row cols i !! 3%nat = Some Ellipsis /\ HiddenHeader ∉ data_row cols i.
Proof.
  intros Hcols. unfold data_row. rewrite table_row_marker by done.
  split; [reflexivity |].
  rewrite elem_of_app, list_elem_of_fmap, !elem_of_cons, elem_of_nil.
  intros [[?|[?|[?|[?|[]]]]] | (j & ? & _)]; discriminate.
Qed.

Lemma ellipsis_row_marker (cols : Z) :
  7 < cols ->
  ellipsis_row cols !! 3%nat = Some Ellipsis /\ HiddenHeader ∉ ellipsis_row cols.
Proof.
  intros Hcols. unfold ellipsis_row. rewrite table_row_marker by done.
  split; [reflexivity |].
  rewrite elem_of_app, list_elem_of_fmap, !elem_of_cons, elem_of_nil.
  intros [[?|[?|[?|[?|[]]]]] | (j & ? & _)]; discriminate.
Qed.

(** C10: with more than 7 columns the marker column is the fourth column of
    the table; its label is written in the header row only, and every row
    below the header, data row or ellipsis row, has the literal "..." in that
    column. *)
Theorem marker_only_in_header (rows_shown cols : Z) :
  7 < cols ->
  exists body,
    table_calls rows_shown cols = Some (header_row cols :: body) /\
    header_row cols =
      [Header 0; Header 1; Header 2; HiddenHeader] ++ (Header <$> seqZ (cols - 4) 4) /\
    Forall (fun row => row !! 3%nat = Some Ellipsis /\ HiddenHeader ∉ row) body /\
    (forall m r bufferSize dest,
       written m r bufferSize Ellipsis dest = Ok ("...", dest)).
Proof.
  intros Hcols.
  eexists. split; [apply table_calls_shape |].
  split; [by apply table_row_marker |].
  split; [| reflexivity].
  destruct (rows_shown >? 10).
  - rewrite !Forall_app, !Forall_fmap. split_and!.
    + apply Forall_forall. intros i _. by apply data_row_marker.
    + constructor; [by apply ellipsis_row_marker | constructor].
    + apply Forall_forall. intros i _. by apply data_row_marker.
  - rewrite Forall_fmap. apply Forall_forall. intros i _. by apply data_row_marker.
Qed.

Lemma marker_only_in_header_witness :
  exists body,
    table_calls 12 9 = Some (header_row 9 :: body) /\
    header_row 9 =
      [Header 0; Header 1; Header 2; HiddenHeader] ++ (Header <$> seqZ (9 - 4) 4) /\
    Forall (fun row => row !! 3%nat = Some Ellipsis /\ HiddenHeader ∉ row) body /\
    (forall m r bufferSize dest,
       written m r bufferSize Ellipsis dest = Ok ("...", dest)).
Proof. apply (marker_only_in_header 12 9). lia. Defined.

(** ** The process boundary *)

Section Exit.

Variable alloc_ok : nat -> bool.
Variable fopen : string -> option string.
Variable cJSON_Parse : string -> option cJSON.
Variable server :
  option string -> option string -> option string -> option string -> string -> MYSQL.

(** A wrong number of arguments ends the process with [EXIT_FAILURE]. *)
Lemma main_usage (argv : list string) (m : mem) :
  length argv <> 3%nat ->
  main alloc_ok fopen cJSON_Parse server argv m = Ok (EXIT_FAILURE, m).
Proof.
  intros Hargc. unfold main.
  replace (Z.of_nat (length argv) =? 3) with false by lia.
  reflexivity.
Qed.

(** X1: when the configuration file cannot be opened, [main] exits with
    EXIT_FAILURE and the heap is untouched. *)
Lemma main_config_unreadable (prog preset_name query : string) (m : mem) :
  fopen config_path = None ->
  main alloc_ok fopen cJSON_Parse server [prog; preset_name; query] m =
  Ok (EXIT_FAILURE, m).
Proof. intros Hfile. unfold main, read_file, bind. simpl. by rewrite Hfile. Qed.

(** The heap is back to what it was once the configuration text is freed. *)
Lemma alloc_then_free (b : block) (m : mem) :
  alloc_ok (allocs m) = true ->
  exists p m1,
    alloc alloc_ok b m = Ok (p, m1) /\ is_null p = false /\
    deref m1 p = Ok b /\
    free p m1 = Ok (tt, mkMem (heap m) (S (allocs m))).
Proof.
  intros Hok. unfold alloc. rewrite Hok.
  eexists _, _. split; [reflexivity |]. split; [reflexivity |].
  assert (heap m !! fresh (dom (heap m)) = None) as Hfresh
    by (apply not_elem_of_dom, is_fresh).
  unfold deref, free. simpl. rewrite lookup_insert_eq.
  split; [reflexivity |].
  by rewrite delete_insert_id.
Qed.

(** X2: when the configuration text is not JSON, [main] exits with
    EXIT_FAILURE after freeing the text: one allocation call was made, and
    the heap is back to what it was. *)
Lemma main_config_malformed (prog preset_name query content : string) (m : mem) :
  fopen config_path = Some content ->
  alloc_ok (allocs m) = true ->
  cJSON_Parse content = None ->
  main alloc_ok fopen cJSON_Parse server [prog; preset_name; query] m =
  Ok (EXIT_FAILURE, mkMem (heap m) (S (allocs m))).
Proof.
  intros Hfile Hok Hparse.
  destruct (alloc_then_free (Bstr content) m Hok) as (p & m1 & Halloc & Hp & Hread & Hfree).
  unfold main, read_file, bind. simpl. rewrite Hfile, Halloc, Hp.
  unfold peek_str, obind. rewrite Hread. simpl. rewrite Hparse.
  by rewrite Hfree.
Qed.

(** X3: when no preset carries the name asked for, [main] exits with
    EXIT_FAILURE after freeing the configuration text, and no query is
    sent. *)
Lemma main_preset_missing (prog preset_name query content : string)
    (json : cJSON) (m : mem) :
  fopen config_path = Some content ->
  alloc_ok (allocs m) = true ->
  cJSON_Parse content = Some json ->
  get_db_preset json preset_name = None ->
  main alloc_ok fopen cJSON_Parse server [prog; preset_name; query] m =
  Ok (EXIT_FAILURE, mkMem (heap m) (S (allocs m))).
Proof.
  intros Hfile Hok Hparse Hpreset.
  destruct (alloc_then_free (Bstr content) m Hok) as (p & m1 & Halloc & Hp & Hread & Hfree).
  unfold main, read_file, bind. simpl. rewrite Hfile, Halloc, Hp.
  unfold peek_str, obind. rewrite Hread. simpl. rewrite Hparse, Hpreset.
  by rewrite Hfree.
Qed.

(** A driver that reports a failure makes [execute_mysql_query] return NULL
    with the heap untouched. *)
Lemma execute_mysql_query_refused (conn : MYSQL) (m : mem) :
  mysql_init conn = false \/ mysql_real_connect conn = false \/
  mysql_query conn = false \/ mysql_store_result conn = None ->
  execute_mysql_query alloc_ok conn m = Ok (Vnull, m).
Proof.
  unfold execute_mysql_query.
  destruct (mysql_init conn), (mysql_real_connect conn), (mysql_query conn),
    (mysql_store_result conn); simpl; try reflexivity.
  intros [? | [? | [? | ?]]]; discriminate.
Qed.

(** C1, the failing run: with three arguments, a readable and well-formed
    configuration and a known preset, a connection or query failure reported
    by the driver ends the process with [EXIT_SUCCESS]. *)
Theorem main_exit_status_on_query_failure
    (prog preset_name query content : string) (json preset : cJSON)
    (host user password database : option string) (m : mem) :
  fopen config_path = Some content ->
  alloc_ok (allocs m) = true ->
  cJSON_Parse content = Some json ->
  get_db_preset json preset_name = Some preset ->
  valuestring_of (cJSON_GetObjectItem (Some preset) "host") = Ok host ->
  valuestring_of (cJSON_GetObjectItem (Some preset) "username") = Ok user ->
  valuestring_of (cJSON_GetObjectItem (Some preset) "password") = Ok password ->
  valuestring_of (cJSON_GetObjectItem (Some preset) "database") = Ok database ->
  (let conn := server host user password database query in
   mysql_init conn = false \/ mysql_real_connect conn = false \/
   mysql_query conn = false \/ mysql_store_result conn = None) ->
  main alloc_ok fopen cJSON_Parse server [prog; preset_name; query] m =
  Ok (EXIT_SUCCESS, mkMem (heap m) (S (allocs m))).
Proof.
  intros Hfile Hok Hparse Hpreset Hhost Huser Hpassword Hdatabase Hrefused.
  destruct (alloc_then_free (Bstr content) m Hok) as (p & m1 & Halloc & Hp & Hread & Hfree).
  unfold main.
  change (Z.of_nat (length [prog; preset_name; query]) =? 3) with true.
  change (index [prog; preset_name; query] 1) with (Ok preset_name).
  change (index [prog; preset_name; query] 2) with (Ok query).
  unfold read_file, bind, lift, ret, peek_str, obind. cbn [negb].
  rewrite Hfile, Halloc, Hp, Hread, Hparse, Hpreset.
  rewrite Hhost, Huser, Hpassword, Hdatabase.
  rewrite (execute_mysql_query_refused _ m1 Hrefused).
  cbn [is_null negb]. by rewrite Hfree.
Qed.

End Exit.

Lemma main_exit_status_on_query_failure_witness :
  main always one_file parser unreachable_server
       ["rgwml_cli"; "prod"; "SELECT 1"] empty_mem =
  Ok (EXIT_SUCCESS, mkMem (heap empty_mem) (S (allocs empty_mem))).
Proof.
  apply (main_exit_status_on_query_failure always one_file parser unreachable_server
           "rgwml_cli" "prod" "SELECT 1" config_text config_tree
           (cJSON_Object [("name", cJSON_String "prod");
                          ("host", cJSON_String "db.example.org");
                          ("username", cJSON_String "reader");
                          ("password", cJSON_String "secret");
                          ("database", cJSON_String "sales")])
           (Some "db.example.org") (Some "reader") (Some "secret") (Some "sales"));
    try reflexivity.
  simpl. right. left. reflexivity.
Defined.

(** ** Allocation failures during construction *)

(** C2, the failing runs: the query answers two rows of two columns, which
    takes 15 allocation calls (the structure, the four arrays, three strings
    per column, one string per cell).  When the first call fails there is
    nothing to undo, and when the last one fails the teardown finds every
    slot written.  When the grid allocation fails (call 1) the teardown reads
    through the NULL grid pointer; when any call from 2 to 13 fails it hands
    free() a slot that was never written. *)
Theorem rollback_after_allocation_failure :
  verdict (query (failing 0) two_by_two) = Ok (Vnull, 0%nat) /\
  verdict (query (failing 1) two_by_two) = Fault NullDeref /\
  Forall (fun k => verdict (query (failing k) two_by_two) = Fault InvalidFree)
         (seq 2 12) /\
  verdict (query (failing 14) two_by_two) = Ok (Vnull, 0%nat) /\
  verdict (query always two_by_two) = Ok (Vptr 0, 15%nat).
Proof.
  split; [by vm_compute |].
  split; [by vm_compute |].
  split; [repeat constructor; by vm_compute |].
  split; by vm_compute.
Qed.

(** ** Teardown of a partial result *)

(** C3, the failing input: when the cell array is absent and the counts say
    there are cells, the teardown reads through the NULL pointer. *)
Theorem teardown_without_grid (m : mem) (result : val) (r : QueryResult) :
  peek_struct m result = Ok r ->
  rows r = Vnull ->
  0 < int_wrap (rows_count r * cols_count r) ->
  free_query_result result m = Fault NullDeref.
Proof.
  intros Hstruct Hrows Hcells.
  unfold free_query_result.
  destruct result as [| | a]; try discriminate.
  cbn [is_null]. unfold bind at 1, load_struct. rewrite Hstruct. cbn [lift].
  rewrite seqZ_cons by done.
  cbn [for_each]. unfold bind at 1 2, load_slot. rewrite Hrows.
  reflexivity.
Qed.

Lemma teardown_without_grid_witness :
  free_query_result (Vptr 0) gridless = Fault NullDeref.
Proof.
  apply (teardown_without_grid gridless (Vptr 0)
           (mkQueryResult Vnull (Vptr 1) (Vptr 2) (Vptr 3) 1 1)).
  - by vm_compute.
  - reflexivity.
  - by vm_compute.
Defined.

(** ** Cell truncation *)

Lemma take_padded {A : Type} (l : list A) (x : A) (k n : nat) :
  (length l <= k)%nat -> (k <= length l + n)%nat ->
  take k (l ++ replicate n x) = l ++ replicate (k - length l) x.
Proof.
  intros Hl Hk. rewrite take_app_ge by done. f_equal.
  rewrite take_replicate. f_equal. lia.
Qed.

Lemma length_list_ascii_of_string (s : string) :
  length (list_ascii_of_string s) = String.length s.
Proof. induction s; simpl; congruence. Qed.

(** A buffer that holds a text shorter than its size: the text, then NULs. *)
Lemma buffer_with_fits (s : string) (size : nat) :
  (String.length s < size)%nat ->
  buffer_with s size =
  map Some (list_ascii_of_string s) ++ replicate (size - String.length s) (Some NUL).
Proof.
  intros Hs. unfold buffer_with.
  rewrite take_padded;
    rewrite ?List.length_map, ?length_list_ascii_of_string; try lia.
  done.
Qed.

Lemma buffer_string_padded (l : list ascii) (n : nat) :
  NUL ∉ l -> (0 < n)%nat ->
  buffer_string (map Some l ++ replicate n (Some NUL)) = Ok (string_of_list_ascii l).
Proof.
  intros Hl Hn. induction l as [| c l IH]; simpl.
  - destruct n; [lia | done].
  - apply not_elem_of_cons in Hl as [Hc Hl].
    destruct (Ascii.eqb_spec c NUL) as [-> | _]; [done |].
    by rewrite IH.
Qed.

(** A cell that fits the budget is copied whole, whatever the buffer held,
    and is read back unmodified. *)
Lemma safe_strncpy_fits (src : string) (n : Z) (dest : buffer) :
  strlen src <= n ->
  Z.of_nat (length dest) = n + 1 ->
  safe_strncpy src n dest = Ok (tt, buffer_with src (length dest)).
Proof.
  intros Hfit Hdest. unfold strlen in Hfit.
  pose proof (length_list_ascii_of_string src) as Hlen.
  unfold safe_strncpy, strlen.
  destruct (Z.gtb_spec (Z.of_nat (String.length src)) n); [lia |].
  unfold bind, strncpy.
  destruct (Z.ltb_spec (Z.of_nat (length dest)) n); [lia |].
  set (k := Z.to_nat n).
  assert (length dest = S k) as Hk by lia.
  rewrite take_padded by (rewrite ?Hlen; lia).
  unfold poke at 1. rewrite length_app, length_replicate, Hlen.
  destruct (Nat.ltb_spec (length dest)
              (0 + (String.length src + (k - String.length src)))); [lia |].
  unfold store_byte. destruct (Z.ltb_spec n 0); [lia |].
  unfold poke. fold k.
  change (take 0 dest) with (@nil (option ascii)). cbn [app length].
  replace (0 + (String.length src + (k - String.length src)))%nat with k by lia.
  set (bytes := list_ascii_of_string src ++ replicate (k - String.length src) NUL).
  assert (length (map Some bytes) = k) as Hbytes.
  { rewrite List.length_map. unfold bytes.
    rewrite length_app, length_replicate, Hlen. lia. }
  assert (length (drop k dest) = 1%nat) as Hdrop by (rewrite length_drop; lia).
  rewrite length_app, Hbytes, Hdrop.
  destruct (Nat.ltb_spec (k + 1) (k + 1)); [lia |].
  f_equal. f_equal.
  rewrite buffer_with_fits by lia.
  rewrite take_app_length' by done.
  rewrite drop_ge by (rewrite length_app, Hbytes, Hdrop; lia).
  rewrite app_nil_r.
  unfold bytes. rewrite map_app.
  change (map Some (replicate (k - String.length src) NUL))
    with (Some <$> replicate (k - String.length src) NUL).
  rewrite fmap_replicate, <- app_assoc. f_equal.
  replace (length dest - String.length src)%nat with (S (k - String.length src)) by lia.
  by rewrite replicate_S_end.
Qed.

(** X25: a cell of at most [n] characters, written into a buffer of [n + 1]
    bytes, is copied whole whatever the buffer held, and is read back
    unmodified. *)
Lemma cell_within_budget (src : string) (n : Z) (dest : buffer) :
  strlen src <= n ->
  Z.of_nat (length dest) = n + 1 ->
  NUL ∉ list_ascii_of_string src ->
  exists dest', safe_strncpy src n dest = Ok (tt, dest') /\
                buffer_string dest' = Ok src.
Proof.
  intros Hfit Hdest Hnul. unfold strlen in Hfit.
  exists (buffer_with src (length dest)).
  split; [by apply safe_strncpy_fits |].
  rewrite buffer_with_fits by lia.
  rewrite buffer_string_padded by (done || lia).
  by rewrite string_of_list_ascii_of_string.
Qed.

(** The string in a buffer ends at the first NUL. *)
Lemma buffer_strlen_padded (l : list ascii) (rest : buffer) :
  NUL ∉ l ->
  buffer_strlen (map Some l ++ Some NUL :: rest) = Ok (length l).
Proof.
  intros Hl. induction l as [| c l IH]; simpl; [done |].
  apply not_elem_of_cons in Hl as [Hc Hl].
  destruct (Ascii.eqb_spec c NUL) as [-> | _]; [done |].
  by rewrite IH.
Qed.

(** X26: a cell over the budget [n], written after a text of more than [n - 3]
    characters: the copy leaves the tail of that text in place, and the
    ellipsis is appended behind it, past the end of the buffer. *)
Lemma safe_strncpy_overrun (src prev : string) (n : Z) :
  3 <= n < 2 ^ 64 ->
  n < strlen src ->
  n - 3 < strlen prev <= n ->
  NUL ∉ list_ascii_of_string src ->
  NUL ∉ list_ascii_of_string prev ->
  safe_strncpy src n (buffer_with prev (Z.to_nat (n + 1))) = Fault OutOfBounds.
Proof.
  intros Hn Hlong Hprev Hsrc Hnul. unfold strlen in *.
  pose proof (length_list_ascii_of_string src) as Hlen.
  pose proof (length_list_ascii_of_string prev) as Hlenp.
  unfold safe_strncpy, strlen.
  destruct (Z.gtb_spec (Z.of_nat (String.length src)) n); [| lia].
  rewrite size_wrap_id by lia.
  set (k := Z.to_nat (n - 3)).
  rewrite buffer_with_fits by lia.
  replace (Z.to_nat (n + 1) - String.length prev)%nat
    with (S (Z.to_nat n - String.length prev)) by lia.
  cbn [replicate].
  set (dest := map Some (list_ascii_of_string prev)
               ++ Some NUL :: replicate (Z.to_nat n - String.length prev) (Some NUL)).
  assert (length dest = Z.to_nat (n + 1)) as Hdest.
  { unfold dest. rewrite length_app, List.length_map, Hlenp. simpl.
    rewrite length_replicate. lia. }
  unfold bind, strncpy.
  destruct (Z.ltb_spec (Z.of_nat (length dest)) (n - 3)); [lia |].
  fold k.
  rewrite take_app_le by lia.
  unfold poke at 1. rewrite length_take, Hlen.
  destruct (Nat.ltb_spec (length dest) (0 + k `min` String.length src)); [lia |].
  change (take 0 dest) with (@nil (option ascii)). cbn [app].
  replace (0 + k `min` String.length src)%nat with k by lia.
  unfold strcat.
  unfold dest. rewrite drop_app_le by (rewrite List.length_map; lia).
  change (drop k (map Some (list_ascii_of_string prev)))
    with (drop k (Some <$> list_ascii_of_string prev)).
  rewrite <- fmap_drop.
  change (Some <$> drop k (list_ascii_of_string prev))
    with (map Some (drop k (list_ascii_of_string prev))).
  rewrite app_assoc, <- map_app.
  rewrite buffer_strlen_padded.
  - cbn [obind]. unfold poke.
    rewrite !length_app, List.length_map, length_app, length_take, length_drop, Hlen, Hlenp.
    simpl length. rewrite length_replicate.
    destruct (Nat.ltb_spec (k `min` String.length src + (String.length prev - k)
                            + S (Z.to_nat n - String.length prev))
                (k `min` String.length src + (String.length prev - k) + (3 + 1)));
      [done | lia].
  - rewrite not_elem_of_app. split.
    + intros Hin. apply Hsrc.
      rewrite <- (take_drop k (list_ascii_of_string src)), elem_of_app. by left.
    + intros Hin. apply Hnul.
      rewrite <- (take_drop k (list_ascii_of_string prev)), elem_of_app. by right.
Qed.

Lemma drop_padded {A : Type} (l : list A) (x : A) (k n : nat) :
  (length l <= k)%nat ->
  drop k (l ++ replicate n x) = replicate (n - (k - length l)) x.
Proof.
  intros Hl. rewrite drop_app_ge by done. by rewrite drop_replicate.
Qed.

(** X27: a cell over the budget [n], written after a text of at most [n - 3]
    characters: the padding of that text ends the copy, and the cell is cut
    as intended, to its first [n - 3] characters and three dots. *)
Lemma safe_strncpy_cut (src prev : string) (n : Z) :
  3 <= n < 2 ^ 64 ->
  n < strlen src ->
  strlen prev <= n - 3 ->
  NUL ∉ list_ascii_of_string src ->
  safe_strncpy src n (buffer_with prev (Z.to_nat (n + 1))) =
  Ok (tt, map Some (take (Z.to_nat (n - 3)) (list_ascii_of_string src)
                    ++ list_ascii_of_string "...") ++ [Some NUL]).
Proof.
  intros Hn Hlong Hprev Hsrc. unfold strlen in *.
  pose proof (length_list_ascii_of_string src) as Hlen.
  pose proof (length_list_ascii_of_string prev) as Hlenp.
  unfold safe_strncpy, strlen.
  destruct (Z.gtb_spec (Z.of_nat (String.length src)) n); [| lia].
  rewrite size_wrap_id by lia.
  set (k := Z.to_nat (n - 3)).
  rewrite buffer_with_fits by lia.
  set (dest := map Some (list_ascii_of_string prev)
               ++ replicate (Z.to_nat (n + 1) - String.length prev) (Some NUL)).
  assert (length dest = (k + 4)%nat) as Hdest.
  { unfold dest. rewrite length_app, List.length_map, Hlenp, length_replicate. lia. }
  unfold bind, strncpy.
  destruct (Z.ltb_spec (Z.of_nat (length dest)) (n - 3)); [lia |].
  fold k.
  rewrite take_app_le by lia.
  unfold poke at 1. rewrite length_take, Hlen.
  destruct (Nat.ltb_spec (length dest) (0 + k `min` String.length src)); [lia |].
  change (take 0 dest) with (@nil (option ascii)). cbn [app].
  replace (0 + k `min` String.length src)%nat with k by lia.
  unfold dest at 1. rewrite drop_padded by (rewrite List.length_map; lia).
  rewrite List.length_map, Hlenp.
  replace (Z.to_nat (n + 1) - String.length prev - (k - String.length prev))%nat
    with 4%nat by lia.
  cbn [replicate].
  unfold strcat. rewrite buffer_strlen_padded; cycle 1.
  { intros Hin. apply Hsrc.
    rewrite <- (take_drop k (list_ascii_of_string src)), elem_of_app. by left. }
  cbn [obind]. unfold poke.
  rewrite length_app, List.length_map, length_take, Hlen.
  replace (k `min` String.length src)%nat with k by lia.
  simpl length.
  destruct (Nat.ltb_spec (k + 4) (k + 4)); [lia |].
  f_equal. f_equal.
  rewrite take_app_length' by (rewrite List.length_map, length_take; lia).
  rewrite drop_ge by (rewrite length_app, List.length_map, length_take; simpl; lia).
  by rewrite !map_app, app_nil_r, <- !app_assoc.
Qed.

(** C5, the failing input: a column whose header has 9 characters gives the
    computed width 10.  After a cell of 9 characters, a cell of 50 is copied
    without a terminator: its first 6 characters land in front of the last 3
    of the previous cell, and "..." is appended behind them, past the end of
    the buffer.  The same cell alone is appended to bytes that were never
    written.  It is cut as intended only after a text of at most 6
    characters. *)
Theorem truncation_overruns_buffer :
  String.length fifty = 50%nat /\
  query_and_print wide_cell = Fault OutOfBounds /\
  query_and_print wide_cell_alone = Fault IndeterminateUse /\
  safe_strncpy fifty 9 (buffer_with "Amsterdam" 10) = Fault OutOfBounds /\
  safe_strncpy fifty 9 (buffer_with "The qu..." 10) = Fault OutOfBounds /\
  safe_strncpy fifty 9 (replicate 10 None) = Fault IndeterminateUse /\
  safe_strncpy fifty 9 (buffer_with "Paris" 10) = Ok (tt, buffer_with "The qu..." 10).
Proof. repeat split; by vm_compute. Qed.

(** ** Construction *)

Lemma bind_inv {S A B : Type} (c : M S A) (k : A -> M S B) (s s' : S) (b : B) :
  bind c k s = Ok (b, s') ->
  exists a s1, c s = Ok (a, s1) /\ k a s1 = Ok (b, s').
Proof.
  unfold bind. destruct (c s) as [[a s1] | e]; [| discriminate].
  intros Hk. by exists a, s1.
Qed.

Lemma lift_inv {S A : Type} (o : outcome A) (s s' : S) (a : A) :
  lift o s = Ok (a, s') -> o = Ok a /\ s' = s.
Proof. destruct o; simpl; [| discriminate]. intros [= -> ->]. done. Qed.

(** The rollback branches answer [false] or crash. *)
Lemma rolled_back_inv {A : Type} (result : val) (answer : A) (m m' : mem) (a : A) :
  (free_query_result result ;; ret answer) m = Ok (a, m') -> a = answer.
Proof.
  intros Hrun. apply bind_inv in Hrun as (? & ? & _ & Hret).
  by injection Hret as <- _.
Qed.

(** A successful allocation adds one block at an address that was free. *)
Lemma alloc_inv (alloc_ok : nat -> bool) (b : block) (m m' : mem) (p : val) :
  alloc alloc_ok b m = Ok (p, m') ->
  is_null p = false ->
  exists a, p = Vptr a /\ heap m !! a = None /\ heap m' = <[a := b]> (heap m).
Proof.
  unfold alloc. destruct (alloc_ok (allocs m)); intros [= <- <-]; [| discriminate].
  intros _. eexists. split; [reflexivity |]. split; [| reflexivity].
  apply not_elem_of_dom, is_fresh.
Qed.

Lemma store_slot_inv (arr : val) (i : Z) (v : val) (m m' : mem) :
  store_slot arr i v m = Ok (tt, m') ->
  exists a slots,
    arr = Vptr a /\ heap m !! a = Some (Bptrs slots) /\
    0 <= i < Z.of_nat (length slots) /\
    heap m' = <[a := Bptrs (<[Z.to_nat i := v]> slots)]> (heap m).
Proof.
  unfold store_slot. destruct arr as [| | a]; try discriminate.
  destruct (heap m !! a) as [[s | slots | r] |] eqn:Hblock; try discriminate.
  destruct (Z.ltb_spec i 0), (Z.leb_spec (Z.of_nat (length slots)) i);
    try discriminate.
  intros [= <-]. exists a, slots. split_and!; (done || lia).
Qed.

(** One slot filled: duplicate the text, store the pointer in the next free
    slot of the array. *)
Lemma slot_filled (alloc_ok : nat -> bool) (m m1 m2 : mem) (arr : val) (n : nat)
    (texts : list string) (s : string) (p : val) (i : Z) :
  holds m arr n texts ->
  i = Z.of_nat (length texts) ->
  strdup alloc_ok s m = Ok (p, m1) ->
  store_slot arr i p m1 = Ok (tt, m2) ->
  is_null p = false ->
  holds m2 arr n (texts ++ [s]) /\ preserved m m2 arr.
Proof.
  intros (a & slots & -> & Harr & Hlen & Htexts) -> Hdup Hstore Hp.
  apply alloc_inv in Hdup as (b & -> & Hfree & Hheap1); [| done].
  assert (a <> b) as Hab by congruence.
  apply store_slot_inv in Hstore as (a' & slots' & [= <-] & Harr1 & Hi & Hheap2).
  rewrite Hheap1, lookup_insert_ne in Harr1 by done.
  assert (slots' = slots) as -> by congruence.
  rewrite Nat2Z.id in Hheap2.
  split.
  - exists a, (<[length texts := Vptr b]> slots).
    split; [done |]. split; [by rewrite Hheap2, lookup_insert_eq |].
    split; [by rewrite length_insert |].
    intros i s' Hi'. apply lookup_app_Some in Hi' as [Hold | [Hge Hnew]].
    + destruct (Htexts i s' Hold) as (b' & Hslot & Hstr).
      exists b'. apply lookup_lt_Some in Hold.
      rewrite list_lookup_insert_ne by lia. split; [done |].
      rewrite Hheap2, Hheap1, !lookup_insert_ne by congruence. done.
    + destruct (i - length texts)%nat as [| k] eqn:Hk; [| by destruct k].
      injection Hnew as <-. replace i with (length texts) by lia.
      exists b. rewrite list_lookup_insert_eq by lia. split; [done |].
      by rewrite Hheap2, Hheap1, lookup_insert_ne, lookup_insert_eq.
  - intros x blk Hx Hne.
    rewrite Hheap2, Hheap1, !lookup_insert_ne by congruence. done.
Qed.

(** What is preserved stays readable. *)
Lemma holds_preserved (m m' : mem) (arr arr' : val) (n n' : nat)
    (texts texts' : list string) :
  holds m arr n texts ->
  holds m arr' n' texts' ->
  arr' <> arr ->
  preserved m m' arr ->
  holds m' arr' n' texts'.
Proof.
  intros (a & slots & -> & Harr & _) (a' & slots' & -> & Harr' & Hlen & Htexts)
    Hne Hkeep.
  exists a', slots'. split; [done |].
  split; [by apply Hkeep |]. split; [done |].
  intros i s Hi. destruct (Htexts i s Hi) as (b & Hslot & Hstr).
  exists b. split; [done |]. apply Hkeep; congruence.
Qed.

Lemma peek_struct_preserved (m m' : mem) (arr result : val) (n : nat)
    (texts : list string) (r : QueryResult) :
  holds m arr n texts ->
  peek_struct m result = Ok r ->
  preserved m m' arr ->
  peek_struct m' result = Ok r.
Proof.
  intros (a & slots & -> & Harr & _) Hstruct Hkeep.
  unfold peek_struct, deref in *. destruct result as [| | x]; try discriminate.
  simpl in *. destruct (heap m !! x) as [[s | sl | r'] |] eqn:Hx; try discriminate.
  rewrite (Hkeep x _ Hx) by congruence. done.
Qed.

(** An array fresh from malloc() holds no text yet. *)
Lemma holds_nothing (m : mem) (a : nat) (slots : list val) :
  heap m !! a = Some (Bptrs slots) ->
  holds m (Vptr a) (length slots) [].
Proof.
  intros Ha. exists a, slots. split_and!; done.
Qed.

Section Construction.

Variable alloc_ok : nat -> bool.

(** Filling one array slot keeps the rest of the partial result. *)
Lemma partial_cell (m m1 m2 : mem) (result : val) (r : QueryResult)
    (cells_n cols_n : nat) (cells : list string)
    (columns : list (string * string * string)) (s : string) (p : val) (i : Z) :
  partial m result r cells_n cols_n cells columns ->
  i = Z.of_nat (length cells) ->
  strdup alloc_ok s m = Ok (p, m1) ->
  store_slot (rows r) i p m1 = Ok (tt, m2) ->
  is_null p = false ->
  partial m2 result r cells_n cols_n (cells ++ [s]) columns.
Proof.
  intros (Hstruct & Hdistinct & Hrows & Hheaders & Hmysql & Hc) Hi Hdup Hstore Hp.
  destruct (slot_filled _ _ _ _ _ _ _ _ _ _ Hrows Hi Hdup Hstore Hp) as [Hnew Hkeep].
  pose proof Hdistinct as Hne. apply NoDup_cons in Hne as [Hne _].
  rewrite !not_elem_of_cons in Hne. destruct Hne as (Hh & Ht & Hc' & _).
  split_and!; try done.
  - exact (peek_struct_preserved _ _ _ _ _ _ _ Hrows Hstruct Hkeep).
  - exact (holds_preserved _ _ _ _ _ _ _ _ Hrows Hheaders (not_eq_sym Hh) Hkeep).
  - exact (holds_preserved _ _ _ _ _ _ _ _ Hrows Hmysql (not_eq_sym Ht) Hkeep).
  - exact (holds_preserved _ _ _ _ _ _ _ _ Hrows Hc (not_eq_sym Hc') Hkeep).
Qed.

(** Filling one column: three slots, one in each of the column arrays. *)
Lemma partial_column (m m' : mem) (result : val) (r : QueryResult) (res : MYSQL_RES)
    (cells_n cols_n : nat) (cells : list string)
    (columns : list (string * string * string)) (i : Z) (f : MYSQL_FIELD) :
  partial m result r cells_n cols_n cells columns ->
  i = Z.of_nat (length columns) ->
  fields res !! length columns = Some f ->
  fill_column alloc_ok result r res i m = Ok (true, m') ->
  partial m' result r cells_n cols_n cells (columns ++ [column_of f]).
Proof.
  intros (Hstruct & Hdistinct & Hrows & Hheaders & Hmysql & Hc) Hi Hfield Hrun.
  unfold fill_column in Hrun.
  apply bind_inv in Hrun as (f' & m0 & Hf & Hrun).
  apply lift_inv in Hf as [Hf ->].
  assert (f' = f) as ->.
  { unfold index in Hf. subst i.
    destruct (Z.ltb_spec (Z.of_nat (length columns)) 0); [lia |].
    rewrite Nat2Z.id, Hfield in Hf. congruence. }
  apply bind_inv in Hrun as (h & m1 & Hdup1 & Hrun).
  apply bind_inv in Hrun as ([] & m2 & Hstore1 & Hrun).
  apply bind_inv in Hrun as (t & m3 & Hdup2 & Hrun).
  apply bind_inv in Hrun as ([] & m4 & Hstore2 & Hrun).
  apply bind_inv in Hrun as (c & m5 & Hdup3 & Hrun).
  apply bind_inv in Hrun as ([] & m6 & Hstore3 & Hrun).
  destruct (is_null h) eqn:Hh; [by apply rolled_back_inv in Hrun |].
  destruct (is_null t) eqn:Ht; [by apply rolled_back_inv in Hrun |].
  destruct (is_null c) eqn:Hc'; [by apply rolled_back_inv in Hrun |].
  injection Hrun as <-.
  apply NoDup_cons in Hdistinct as [Hne1 Hdistinct'].
  apply NoDup_cons in Hdistinct' as [Hne2 Hdistinct'].
  apply NoDup_cons in Hdistinct' as [Hne3 _].
  rewrite !not_elem_of_cons in Hne1. destruct Hne1 as (Hrh & Hrt & Hrc & _).
  rewrite !not_elem_of_cons in Hne2. destruct Hne2 as (Hht & Hhc & _).
  rewrite !not_elem_of_cons in Hne3. destruct Hne3 as (Htc & _).
  (* the header *)
  assert (i = Z.of_nat (length ((fun c => c.1.1) <$> columns))) as Hi1
    by (by rewrite length_fmap).
  destruct (slot_filled _ _ _ _ _ _ _ _ _ _ Hheaders Hi1 Hdup1 Hstore1 Hh)
    as [Hheaders2 Hkeep1].
  pose proof (peek_struct_preserved _ _ _ _ _ _ _ Hheaders Hstruct Hkeep1) as Hstruct2.
  pose proof (holds_preserved _ _ _ _ _ _ _ _ Hheaders Hrows Hrh Hkeep1) as Hrows2.
  pose proof (holds_preserved _ _ _ _ _ _ _ _ Hheaders Hmysql (not_eq_sym Hht) Hkeep1)
    as Hmysql2.
  pose proof (holds_preserved _ _ _ _ _ _ _ _ Hheaders Hc (not_eq_sym Hhc) Hkeep1)
    as Hc2.
  (* the native type name *)
  assert (i = Z.of_nat (length ((fun c => c.1.2) <$> columns))) as Hi2
    by (by rewrite length_fmap).
  destruct (slot_filled _ _ _ _ _ _ _ _ _ _ Hmysql2 Hi2 Hdup2 Hstore2 Ht)
    as [Hmysql4 Hkeep2].
  pose proof (peek_struct_preserved _ _ _ _ _ _ _ Hmysql2 Hstruct2 Hkeep2) as Hstruct4.
  pose proof (holds_preserved _ _ _ _ _ _ _ _ Hmysql2 Hrows2 Hrt Hkeep2) as Hrows4.
  pose proof (holds_preserved _ _ _ _ _ _ _ _ Hmysql2 Hheaders2 Hht Hkeep2) as Hheaders4.
  pose proof (holds_preserved _ _ _ _ _ _ _ _ Hmysql2 Hc2 (not_eq_sym Htc) Hkeep2)
    as Hc4.
  (* the portable type name *)
  assert (i = Z.of_nat (length ((fun c => c.2) <$> columns))) as Hi3
    by (by rewrite length_fmap).
  destruct (slot_filled _ _ _ _ _ _ _ _ _ _ Hc4 Hi3 Hdup3 Hstore3 Hc')
    as [Hc6 Hkeep3].
  pose proof (peek_struct_preserved _ _ _ _ _ _ _ Hc4 Hstruct4 Hkeep3) as Hstruct6.
  pose proof (holds_preserved _ _ _ _ _ _ _ _ Hc4 Hrows4 Hrc Hkeep3) as Hrows6.
  pose proof (holds_preserved _ _ _ _ _ _ _ _ Hc4 Hheaders4 Hhc Hkeep3) as Hheaders6.
  pose proof (holds_preserved _ _ _ _ _ _ _ _ Hc4 Hmysql4 Htc Hkeep3) as Hmysql6.
  unfold partial. rewrite !fmap_app.
  split_and!; [done | | done | exact Hheaders6 | exact Hmysql6 | exact Hc6].
  repeat constructor; rewrite ?not_elem_of_cons, ?elem_of_nil; tauto.
Qed.

(** The column loop, from the columns done so far to all of them. *)
Lemma columns_filled (res : MYSQL_RES) (result : val) (r : QueryResult)
    (cells_n cols_n : nat) (cells : list string) (todo : list MYSQL_FIELD) :
  forall (done : list MYSQL_FIELD) (m m' : mem),
    fields res = done ++ todo ->
    partial m result r cells_n cols_n cells (column_of <$> done) ->
    for_until (seqZ (Z.of_nat (length done)) (Z.of_nat (length todo)))
      (fill_column alloc_ok result r res) m = Ok (true, m') ->
    partial m' result r cells_n cols_n cells (column_of <$> fields res).
Proof.
  induction todo as [| f todo IH]; intros done m m' Hfields Hpartial Hrun.
  - injection Hrun as <-. by rewrite Hfields, app_nil_r.
  - rewrite seqZ_cons in Hrun by (simpl; lia).
    cbn [for_until] in Hrun.
    apply bind_inv in Hrun as (continue & m1 & Hstep & Hrun).
    destruct continue; [| discriminate].
    assert (partial m1 result r cells_n cols_n cells
              ((column_of <$> done) ++ [column_of f])) as Hpartial1.
    { eapply partial_column; [exact Hpartial | | | exact Hstep].
      - by rewrite length_fmap.
      - by rewrite length_fmap, Hfields, list_lookup_middle. }
    apply (IH (done ++ [f]) m1 m').
    + by rewrite <- app_assoc.
    + by rewrite fmap_app.
    + rewrite length_app. simpl length.
      replace (Z.of_nat (length done + 1)) with (Z.succ (Z.of_nat (length done)))
        by lia.
      replace (Z.of_nat (length todo)) with (Z.pred (Z.of_nat (S (length todo))))
        by lia.
      done.
Qed.

(** The cell loop over one fetched row. *)
Lemma row_filled (result : val) (r : QueryResult) (cells_n cols_n : nat)
    (columns : list (string * string * string)) (row : MYSQL_ROW) (row_index : Z)
    (prev : list string) (todo : list (option string)) :
  forall (done : list (option string)) (m m' : mem),
    row = done ++ todo ->
    row_index * cols_count r = Z.of_nat (length prev) ->
    Z.of_nat (length prev) + Z.of_nat (length row) < 2 ^ 31 ->
    partial m result r cells_n cols_n (prev ++ (cell_text <$> done)) columns ->
    for_until (seqZ (Z.of_nat (length done)) (Z.of_nat (length todo)))
      (fill_cell alloc_ok result r row row_index) m = Ok (true, m') ->
    partial m' result r cells_n cols_n (prev ++ (cell_text <$> row)) columns.
Proof.
  induction todo as [| v todo IH]; intros done m m' Hrow Hindex Hsmall Hpartial Hrun.
  - injection Hrun as <-. by rewrite Hrow, app_nil_r.
  - rewrite seqZ_cons in Hrun by (simpl; lia).
    cbn [for_until] in Hrun.
    apply bind_inv in Hrun as (continue & m1 & Hstep & Hrun).
    destruct continue; [| discriminate].
    assert (partial m1 result r cells_n cols_n
              (prev ++ (cell_text <$> done ++ [v])) columns) as Hpartial1.
    { unfold fill_cell in Hstep.
      apply bind_inv in Hstep as (v' & m0 & Hv & Hstep).
      apply lift_inv in Hv as [Hv ->].
      assert (v' = v) as ->.
      { unfold index in Hv.
        destruct (Z.ltb_spec (Z.of_nat (length done)) 0); [lia |].
        rewrite Nat2Z.id, Hrow, list_lookup_middle in Hv by done. congruence. }
      apply bind_inv in Hstep as (p & m2 & Hdup & Hstep).
      apply bind_inv in Hstep as ([] & m3 & Hstore & Hstep).
      destruct (is_null p) eqn:Hp; [by apply rolled_back_inv in Hstep |].
      injection Hstep as <-.
      rewrite fmap_app, app_assoc.
      eapply partial_cell; [exact Hpartial | | exact Hdup | exact Hstore | exact Hp].
      rewrite length_app, length_fmap, Hindex.
      rewrite Hrow, length_app in Hsmall. simpl in Hsmall.
      rewrite int_wrap_id by lia. lia. }
    apply (IH (done ++ [v]) m1 m'); try done.
    + by rewrite <- app_assoc.
    + rewrite length_app. simpl length.
      replace (Z.of_nat (length done + 1)) with (Z.succ (Z.of_nat (length done)))
        by lia.
      replace (Z.of_nat (length todo)) with (Z.pred (Z.of_nat (S (length todo))))
        by lia.
      done.
Qed.

(** The fetch loop, from the rows fetched so far to the end of the cursor. *)
Lemma rows_filled (result : val) (r : QueryResult) (cells_n cols_n : nat)
    (columns : list (string * string * string)) (cursor : list MYSQL_ROW) :
  forall (prev : list (option string)) (row_index : Z) (m m' : mem),
    Forall (fun row => Z.of_nat (length row) = cols_count r) cursor ->
    0 <= row_index ->
    row_index * cols_count r = Z.of_nat (length prev) ->
    Z.of_nat (length prev) + Z.of_nat (length cursor) * cols_count r < 2 ^ 31 ->
    row_index + Z.of_nat (length cursor) < 2 ^ 31 ->
    partial m result r cells_n cols_n (cell_text <$> prev) columns ->
    fetch_rows alloc_ok result r cursor row_index m = Ok (true, m') ->
    partial m' result r cells_n cols_n (cell_text <$> (prev ++ concat cursor)) columns.
Proof.
  induction cursor as [| row cursor IH];
    intros prev row_index m m' Hwide Hpos Hindex Hsmall Hrows Hpartial Hrun.
  - injection Hrun as <-. by rewrite app_nil_r.
  - apply Forall_cons in Hwide as [Hrow Hwide].
    simpl length in Hsmall, Hrows.
    cbn [fetch_rows] in Hrun.
    apply bind_inv in Hrun as (filled & m1 & Hfill & Hrun).
    destruct filled; [| discriminate].
    rewrite <- Hrow in Hfill.
    assert (partial m1 result r cells_n cols_n
              ((cell_text <$> prev) ++ (cell_text <$> row)) columns) as Hpartial1.
    { eapply (row_filled _ _ _ _ _ _ _ _ row []); [done | | | | exact Hfill].
      - by rewrite length_fmap.
      - rewrite length_fmap. nia.
      - by rewrite app_nil_r. }
    rewrite int_wrap_id in Hrun by lia.
    simpl concat. rewrite app_assoc.
    apply (IH (prev ++ row) (row_index + 1) m1 m'); try done.
    + lia.
    + rewrite length_app. nia.
    + rewrite length_app. nia.
    + lia.
    + by rewrite fmap_app.
Qed.

End Construction.

(** Reading a text that an array holds. *)
Lemma holds_text_at (m : mem) (arr : val) (n : nat) (texts : list string)
    (i : nat) (s : string) :
  holds m arr n texts ->
  texts !! i = Some s ->
  text_at m arr (Z.of_nat i) = Ok s.
Proof.
  intros (a & slots & -> & Harr & _ & Htexts) Hi.
  destruct (Htexts i s Hi) as (b & Hslot & Hstr).
  unfold text_at, peek_slot, peek_str, deref, obind. rewrite Harr.
  destruct (Z.ltb_spec (Z.of_nat i) 0); [lia |].
  by rewrite Nat2Z.id, Hslot, Hstr.
Qed.

(** Rows of one width laid out one after the other. *)
Lemma concat_uniform_length {A : Type} (l : list (list A)) (c : nat) :
  Forall (fun row => length row = c) l ->
  length (concat l) = (length l * c)%nat.
Proof.
  induction 1 as [| row l Hrow _ IH]; [done |].
  simpl. rewrite length_app. lia.
Qed.

Lemma concat_uniform_lookup {A : Type} (l : list (list A)) (c : nat) :
  Forall (fun row => length row = c) l ->
  forall (i j : nat) (row : list A) (v : A),
    l !! i = Some row -> row !! j = Some v ->
    concat l !! (i * c + j)%nat = Some v.
Proof.
  induction 1 as [| row0 l Hrow0 _ IH]; intros i j row v Hi Hj; [done |].
  destruct i as [| i]; simpl in *.
  - injection Hi as ->. by apply lookup_app_l_Some.
  - rewrite lookup_app_r by lia.
    replace (c + i * c + j - length row0)%nat with (i * c + j)%nat by lia.
    by eapply IH.
Qed.

Lemma store_struct_inv (p : val) (r : QueryResult) (m m' : mem) :
  store_struct p r m = Ok (tt, m') ->
  exists a, p = Vptr a /\ heap m' = <[a := Bstruct r]> (heap m).
Proof.
  unfold store_struct. destruct p as [| | a]; try discriminate.
  destruct (heap m !! a) as [[] |]; try discriminate.
  intros [= <-]. by exists a.
Qed.

(** Whenever [execute_mysql_query] returns a result, the result is complete:
    the structure carries the counts of the stored result set, and the
    arrays hold every cell and every column. *)
Lemma execute_mysql_query_complete (alloc_ok : nat -> bool) (conn : MYSQL)
    (res : MYSQL_RES) (m0 m : mem) (result : val) :
  mysql_store_result conn = Some res ->
  Forall (fun row => length row = length (fields res)) (data res) ->
  Z.of_nat (length (data res)) < 2 ^ 31 ->
  Z.of_nat (length (fields res)) < 2 ^ 31 ->
  Z.of_nat (length (data res)) * Z.of_nat (length (fields res)) < 2 ^ 31 ->
  execute_mysql_query alloc_ok conn m0 = Ok (result, m) ->
  result <> Vnull ->
  exists r,
    rows_count r = Z.of_nat (length (data res)) /\
    cols_count r = Z.of_nat (length (fields res)) /\
    partial m result r (length (data res) * length (fields res)) (length (fields res))
      (cell_text <$> concat (data res)) (column_of <$> fields res).
Proof.
  intros Hres Hwide Hrows Hcols Hcells Hrun Hresult.
  unfold execute_mysql_query in Hrun. rewrite Hres in Hrun.
  destruct (mysql_init conn); [| by injection Hrun as <-].
  destruct (mysql_real_connect conn); [| by injection Hrun as <-].
  destruct (mysql_query conn); [| by injection Hrun as <-].
  cbn [negb] in Hrun.
  rewrite !(int_wrap_id (Z.of_nat _)) in Hrun by lia.
  rewrite (int_wrap_id (_ * _)) in Hrun by lia.
  rewrite !size_wrap_id in Hrun by (unfold sizeof_ptr; lia).
  set (R := length (data res)) in *. set (C := length (fields res)) in *.
  apply bind_inv in Hrun as (result0 & m1 & Halloc0 & Hrun).
  destruct (is_null result0) eqn:Hnull0; [by injection Hrun as <-|].
  apply bind_inv in Hrun as (p1 & m2 & Halloc1 & Hrun).
  apply bind_inv in Hrun as (p2 & m3 & Halloc2 & Hrun).
  apply bind_inv in Hrun as (p3 & m4 & Halloc3 & Hrun).
  apply bind_inv in Hrun as (p4 & m5 & Halloc4 & Hrun).
  apply bind_inv in Hrun as ([] & m6 & Hstruct & Hrun).
  destruct (is_null p1) eqn:Hnull1;
    [by apply rolled_back_inv in Hrun; subst result |].
  destruct (is_null p2) eqn:Hnull2;
    [by apply rolled_back_inv in Hrun; subst result |].
  destruct (is_null p3) eqn:Hnull3;
    [by apply rolled_back_inv in Hrun; subst result |].
  destruct (is_null p4) eqn:Hnull4;
    [by apply rolled_back_inv in Hrun; subst result |].
  cbn [orb] in Hrun.
  apply alloc_inv in Halloc0 as (a0 & -> & Hfree0 & Hheap1); [| done].
  unfold malloc_ptrs in Halloc1, Halloc2, Halloc3, Halloc4.
  apply alloc_inv in Halloc1 as (a1 & -> & Hfree1 & Hheap2); [| done].
  apply alloc_inv in Halloc2 as (a2 & -> & Hfree2 & Hheap3); [| done].
  apply alloc_inv in Halloc3 as (a3 & -> & Hfree3 & Hheap4); [| done].
  apply alloc_inv in Halloc4 as (a4 & -> & Hfree4 & Hheap5); [| done].
  apply store_struct_inv in Hstruct as (a0' & [= <-] & Hheap6).
  replace (Z.to_nat (Z.of_nat R * Z.of_nat C * sizeof_ptr / sizeof_ptr))
    with (R * C)%nat in *
    by (unfold sizeof_ptr; rewrite Z.div_mul by done; lia).
  replace (Z.to_nat (Z.of_nat C * sizeof_ptr / sizeof_ptr)) with C in *
    by (unfold sizeof_ptr; rewrite Z.div_mul by done; lia).
  set (r := mkQueryResult (Vptr a1) (Vptr a2) (Vptr a3) (Vptr a4)
              (Z.of_nat R) (Z.of_nat C)) in *.
  (* the addresses are distinct *)
  rewrite Hheap1 in Hfree1. rewrite Hheap2, Hheap1 in Hfree2.
  rewrite Hheap3, Hheap2, Hheap1 in Hfree3.
  rewrite Hheap4, Hheap3, Hheap2, Hheap1 in Hfree4.
  rewrite !lookup_insert_None in Hfree1. destruct Hfree1 as (_ & H01).
  rewrite !lookup_insert_None in Hfree2. destruct Hfree2 as ((_ & H02) & H12).
  rewrite !lookup_insert_None in Hfree3. destruct Hfree3 as (((_ & H03) & H13) & H23).
  rewrite !lookup_insert_None in Hfree4.
  destruct Hfree4 as ((((_ & H04) & H14) & H24) & H34).
  assert (partial m6 (Vptr a0) r (R * C) C [] []) as Hpartial.
  { unfold partial, peek_struct, deref, obind. simpl.
    rewrite Hheap6, lookup_insert_eq.
    split_and!.
    - done.
    - repeat constructor; rewrite ?not_elem_of_cons, ?elem_of_nil;
        split_and?; congruence.
    - rewrite <- (length_replicate (R * C) Vundef) at 1. apply holds_nothing.
      rewrite Hheap6, Hheap5, Hheap4, Hheap3, Hheap2.
      by rewrite !lookup_insert_ne, lookup_insert_eq by done.
    - rewrite <- (length_replicate C Vundef) at 1. apply holds_nothing.
      rewrite Hheap6, Hheap5, Hheap4, Hheap3.
      by rewrite !lookup_insert_ne, lookup_insert_eq by done.
    - rewrite <- (length_replicate C Vundef) at 1. apply holds_nothing.
      rewrite Hheap6, Hheap5, Hheap4.
      by rewrite !lookup_insert_ne, lookup_insert_eq by done.
    - rewrite <- (length_replicate C Vundef) at 1. apply holds_nothing.
      rewrite Hheap6, Hheap5.
      by rewrite !lookup_insert_ne, lookup_insert_eq by done. }
  (* the column loop *)
  apply bind_inv in Hrun as (named & m7 & Hnamed & Hrun).
  destruct named; [| by injection Hrun as <-].
  apply (columns_filled alloc_ok res (Vptr a0) r (R * C)%nat C [] (fields res) [])
    in Hnamed; [| done | done].
  (* the fetch loop *)
  apply bind_inv in Hrun as (fetched & m8 & Hfetched & Hrun).
  destruct fetched; [| by injection Hrun as <-].
  injection Hrun as <- <-.
  apply (rows_filled alloc_ok (Vptr a0) r (R * C)%nat C (column_of <$> fields res)
           (data res) [] 0) in Hfetched; try done; try (simpl; lia).
  - by exists r.
  - eapply Forall_impl; [exact Hwide |]. intros row Hrow. simpl. by rewrite Hrow.
Qed.

(** C8: in every result [execute_mysql_query] returns, the cell grid has
    exactly [rows_count * cols_count] slots, every slot points to a live
    string (none is NULL or unwritten), the cell of row [i] and column [j] is
    at index [i * cols_count + j] and reads as the fetched value, with the
    text "NULL" standing for a database NULL and for nothing else: any other
    value is copied as it is.  The cursor yields rows of the width the driver
    announces. *)
Theorem constructed_result_set (alloc_ok : nat -> bool) (conn : MYSQL)
    (res : MYSQL_RES) (m0 m : mem) (result : val) :
  mysql_store_result conn = Some res ->
  Forall (fun row => length row = length (fields res)) (data res) ->
  Z.of_nat (length (data res)) < 2 ^ 31 ->
  Z.of_nat (length (fields res)) < 2 ^ 31 ->
  Z.of_nat (length (data res)) * Z.of_nat (length (fields res)) < 2 ^ 31 ->
  execute_mysql_query alloc_ok conn m0 = Ok (result, m) ->
  result <> Vnull ->
  exists r,
    peek_struct m result = Ok r /\
    rows_count r = Z.of_nat (length (data res)) /\
    cols_count r = Z.of_nat (length (fields res)) /\
    (exists grid slots,
       rows r = Vptr grid /\ heap m !! grid = Some (Bptrs slots) /\
       Z.of_nat (length slots) = rows_count r * cols_count r /\
       Forall (fun v => exists b s, v = Vptr b /\ heap m !! b = Some (Bstr s)) slots) /\
    (forall (i j : nat) row v,
       data res !! i = Some row -> row !! j = Some v ->
       Z.of_nat j < cols_count r /\
       text_at m (rows r) (Z.of_nat i * cols_count r + Z.of_nat j) = Ok (cell_text v)) /\
    cell_text None = "NULL" /\
    (forall s, cell_text (Some s) = s).
Proof.
  intros Hres Hwide Hrows Hcols Hcells Hrun Hresult.
  destruct (execute_mysql_query_complete _ _ _ _ _ _ Hres Hwide Hrows Hcols Hcells
              Hrun Hresult)
    as (r & Hr & Hc & Hstruct & _ & Hgrid & _).
  exists r. split_and!; try done.
  - destruct Hgrid as (grid & slots & Hptr & Hblock & Hlen & Htexts).
    exists grid, slots. split_and!; try done; [lia |].
    apply Forall_lookup. intros i v Hv.
    destruct (lookup_lt_is_Some_2 (cell_text <$> concat (data res)) i) as [s Hs].
    { apply lookup_lt_Some in Hv.
      rewrite length_fmap, (concat_uniform_length _ _ Hwide).
      unfold MYSQL_ROW in *. lia. }
    destruct (Htexts i s Hs) as (b & Hslot & Hstr).
    exists b, s. split; [congruence | done].
  - intros i j row v Hi Hj. split.
    + rewrite Hc. apply lookup_lt_Some in Hj.
      rewrite Forall_lookup in Hwide. rewrite (Hwide i row Hi) in Hj. lia.
    + rewrite Hc, <- Nat2Z.inj_mul, <- Nat2Z.inj_add.
      apply (holds_text_at _ _ _ _ _ _ Hgrid).
      rewrite list_lookup_fmap, (concat_uniform_lookup _ _ Hwide _ _ _ _ Hi Hj).
      done.
Qed.

Lemma constructed_result_set_witness :
  exists r,
    peek_struct two_by_two_mem (Vptr 0) = Ok r /\
    rows_count r = 2 /\ cols_count r = 2 /\
    text_at two_by_two_mem (rows r) 3 = Ok "NULL".
Proof.
  destruct (constructed_result_set always (answering two_by_two) two_by_two empty_mem
              two_by_two_mem (Vptr 0))
    as (r & Hstruct & Hr & Hc & _ & Hcell & _).
  - reflexivity.
  - repeat constructor.
  - by vm_compute.
  - by vm_compute.
  - by vm_compute.
  - by vm_compute.
  - discriminate.
  - exists r.
    split; [exact Hstruct |]. split; [exact Hr |]. split; [exact Hc |].
    destruct (Hcell 1%nat 1%nat [Some "2"; None] None eq_refl eq_refl) as [_ Htext].
    rewrite Hc in Htext. exact Htext.
Defined.

(** ** Summary *)

Lemma bytes_of_nonneg (texts : list string) : 0 <= bytes_of texts.
Proof. induction texts; simpl; unfold strlen in *; lia. Qed.

Lemma bytes_of_columns_nonneg (columns : list (string * string * string)) :
  0 <= bytes_of_columns columns.
Proof. induction columns; simpl; unfold strlen in *; lia. Qed.

Lemma size_wrap_add (a b : Z) : size_wrap (size_wrap a + b) = size_wrap (a + b).
Proof. unfold size_wrap. apply Zplus_mod_idemp_l. Qed.

Lemma size_wrap_range (z : Z) : 0 <= size_wrap z < 2 ^ 64.
Proof. unfold size_wrap. apply Z.mod_pos_bound. lia. Qed.

(** The loop over the cell strings adds up their bytes, modulo 2^64. *)
Lemma add_strings_sum (m : mem) (arr : val) (texts : list string) :
  forall (k : nat) (size : Z),
    (forall (i : nat) s, texts !! i = Some s ->
                         text_at m arr (Z.of_nat (k + i)) = Ok s) ->
    0 <= size < 2 ^ 64 ->
    add_strings m arr (seqZ (Z.of_nat k) (Z.of_nat (length texts))) size =
    Ok (size_wrap (size + bytes_of texts)).
Proof.
  induction texts as [| s texts IH]; intros k size Hread Hsize.
  - simpl. by rewrite Z.add_0_r, size_wrap_id.
  - rewrite seqZ_cons by (simpl; lia). cbn [add_strings].
    pose proof (Hread 0%nat s eq_refl) as Hs. rewrite Nat.add_0_r in Hs.
    rewrite Hs. cbn [obind].
    replace (Z.succ (Z.of_nat k)) with (Z.of_nat (S k)) by lia.
    replace (Z.pred (Z.of_nat (length (s :: texts)))) with (Z.of_nat (length texts))
      by (simpl; lia).
    rewrite IH.
    + rewrite size_wrap_add. simpl. f_equal. f_equal. lia.
    + intros i s' Hi. replace (S k + i)%nat with (k + S i)%nat by lia.
      by apply Hread.
    + apply size_wrap_range.
Qed.

(** The loop over the columns does the same for three strings a column. *)
Lemma add_columns_sum (m : mem) (r : QueryResult)
    (columns : list (string * string * string)) :
  forall (k : nat) (size : Z),
    (forall (i : nat) c, columns !! i = Some c ->
       text_at m (headers r) (Z.of_nat (k + i)) = Ok c.1.1 /\
       text_at m (mysql_types r) (Z.of_nat (k + i)) = Ok c.1.2 /\
       text_at m (c_types r) (Z.of_nat (k + i)) = Ok c.2) ->
    0 <= size < 2 ^ 64 ->
    add_columns m r (seqZ (Z.of_nat k) (Z.of_nat (length columns))) size =
    Ok (size_wrap (size + bytes_of_columns columns)).
Proof.
  induction columns as [| c columns IH]; intros k size Hread Hsize.
  - simpl. by rewrite Z.add_0_r, size_wrap_id.
  - rewrite seqZ_cons by (simpl; lia). cbn [add_columns].
    destruct (Hread 0%nat c eq_refl) as (Hh & Ht & Hc).
    rewrite Nat.add_0_r in Hh, Ht, Hc.
    rewrite Hh. cbn [obind]. rewrite Ht. cbn [obind]. rewrite Hc. cbn [obind].
    replace (Z.succ (Z.of_nat k)) with (Z.of_nat (S k)) by lia.
    replace (Z.pred (Z.of_nat (length (c :: columns)))) with (Z.of_nat (length columns))
      by (simpl; lia).
    rewrite IH.
    + rewrite size_wrap_add, <- !Z.add_assoc, size_wrap_add, <- !Z.add_assoc,
        size_wrap_add.
      simpl. f_equal. f_equal. lia.
    + intros i c' Hi. replace (S k + i)%nat with (k + S i)%nat by lia.
      by apply Hread.
    + apply size_wrap_range.
Qed.

(** The size computed for a complete result is the estimate. *)
Lemma footprint_estimate (m : mem) (result : val) (r : QueryResult)
    (cells : list string) (columns : list (string * string * string)) :
  partial m result r (length cells) (length columns) cells columns ->
  rows_count r * cols_count r = Z.of_nat (length cells) ->
  cols_count r = Z.of_nat (length columns) ->
  Z.of_nat (length cells) < 2 ^ 31 ->
  estimated_footprint (rows_count r) (cols_count r) cells columns < 2 ^ 64 ->
  footprint m r = Ok (estimated_footprint (rows_count r) (cols_count r) cells columns).
Proof.
  intros (_ & _ & Hrows & Hheaders & Hmysql & Hc) Hcells Hcols Hint Hsmall.
  unfold estimated_footprint in *. unfold footprint.
  rewrite Hcells in *. rewrite Hcols in *.
  pose proof (bytes_of_nonneg cells) as Hb1.
  pose proof (bytes_of_columns_nonneg columns) as Hb2.
  set (N := Z.of_nat (length cells)) in *.
  set (C := Z.of_nat (length columns)) in *.
  assert (0 <= N) by lia. assert (0 <= C) by lia.
  unfold sizeof_QueryResult, sizeof_ptr in *.
  rewrite (int_wrap_id N) by lia.
  rewrite (size_wrap_id N) by lia.
  rewrite (size_wrap_id (N * 8)) by lia.
  rewrite (size_wrap_id C) by lia.
  rewrite (size_wrap_id (C * 8)) by lia.
  rewrite (size_wrap_id (C * 8 * 3)) by lia.
  rewrite (size_wrap_id (40 + N * 8)) by lia.
  rewrite (size_wrap_id (40 + N * 8 + C * 8 * 3)) by lia.
  subst N C.
  rewrite (add_strings_sum m (rows r) cells 0%nat); cycle 1.
  { intros i s Hi. by apply (holds_text_at _ _ _ _ _ _ Hrows). }
  { lia. }
  cbn [obind].
  rewrite (add_columns_sum m r columns 0%nat); cycle 1.
  { intros i c Hi. split_and!.
    - apply (holds_text_at _ _ _ _ _ _ Hheaders).
      cbn [Nat.add]. by rewrite list_lookup_fmap, Hi.
    - apply (holds_text_at _ _ _ _ _ _ Hmysql).
      cbn [Nat.add]. by rewrite list_lookup_fmap, Hi.
    - apply (holds_text_at _ _ _ _ _ _ Hc).
      cbn [Nat.add]. by rewrite list_lookup_fmap, Hi. }
  { apply size_wrap_range. }
  rewrite size_wrap_add, size_wrap_id by lia.
  f_equal. lia.
Qed.

(** * Further properties *)

(** ** The process boundary, failure paths *)

Lemma main_usage_witness :
  main always one_file parser unreachable_server ["rgwml_cli"; "prod"] empty_mem =
  Ok (EXIT_FAILURE, empty_mem).
Proof. apply main_usage. simpl. lia. Defined.

Lemma main_config_unreadable_witness :
  main always (fun _ => None) parser unreachable_server
       ["rgwml_cli"; "prod"; "SELECT 1"] empty_mem =
  Ok (EXIT_FAILURE, empty_mem).
Proof. apply main_config_unreadable. reflexivity. Defined.

Lemma main_config_malformed_witness :
  main always one_file (fun _ => None) unreachable_server
       ["rgwml_cli"; "prod"; "SELECT 1"] empty_mem =
  Ok (EXIT_FAILURE, mkMem (heap empty_mem) (S (allocs empty_mem))).
Proof.
  apply (main_config_malformed always one_file (fun _ => None) unreachable_server
           "rgwml_cli" "prod" "SELECT 1" config_text); reflexivity.
Defined.

Lemma main_preset_missing_witness :
  main always one_file parser unreachable_server
       ["rgwml_cli"; "staging"; "SELECT 1"] empty_mem =
  Ok (EXIT_FAILURE, mkMem (heap empty_mem) (S (allocs empty_mem))).
Proof.
  apply (main_preset_missing always one_file parser unreachable_server
           "rgwml_cli" "staging" "SELECT 1" config_text config_tree); reflexivity.
Defined.

(** ** Preset lookup *)

(** [List.find] stops at the first element that passes. *)
Lemma find_first {A : Type} (f : A -> bool) (l : list A) (x : A) :
  List.find f l = Some x ->
  exists before after,
    l = before ++ x :: after /\ f x = true /\ Forall (fun y => f y = false) before.
Proof.
  induction l as [| y l IH]; [discriminate |].
  simpl. destruct (f y) eqn:Hy.
  - intros [= ->]. by exists [], l.
  - intros Hfind. destruct (IH Hfind) as (before & after & -> & Hx & Hbefore).
    exists (y :: before), after. split_and!; [done | done | by constructor].
Qed.

(** What makes a preset match: it has a member [name] that is a string equal
    to the name asked for, letter case included. *)
Lemma preset_matches (preset : cJSON) (preset_name : string) :
  (let name := cJSON_GetObjectItemCaseSensitive (Some preset) "name" in
   cJSON_IsString name
   && match valuestring_of name with
      | Ok (Some valuestring) => String.eqb valuestring preset_name
      | _ => false
      end) = true <->
  cJSON_GetObjectItemCaseSensitive (Some preset) "name" = Some (cJSON_String preset_name).
Proof.
  cbv zeta.
  destruct (cJSON_GetObjectItemCaseSensitive (Some preset) "name") as [[s | | |] |];
    simpl; split; try discriminate.
  - intros Heq. apply String.eqb_eq in Heq. by subst.
  - intros [= ->]. apply String.eqb_refl.
Qed.

(** X6: a preset that is found is a child of [db_presets], carries the name asked
    for, and is the first such child. *)
Theorem get_db_preset_found (json preset : cJSON) (preset_name : string) :
  get_db_preset json preset_name = Some preset ->
  exists db_presets before after,
    cJSON_GetObjectItemCaseSensitive (Some json) "db_presets" = Some db_presets /\
    children db_presets = before ++ preset :: after /\
    cJSON_GetObjectItemCaseSensitive (Some preset) "name"
      = Some (cJSON_String preset_name) /\
    Forall (fun earlier =>
              cJSON_GetObjectItemCaseSensitive (Some earlier) "name"
                <> Some (cJSON_String preset_name)) before.
Proof.
  unfold get_db_preset. intros Hfind.
  apply find_first in Hfind as (before & after & Hchildren & Hmatch & Hbefore).
  destruct (cJSON_GetObjectItemCaseSensitive (Some json) "db_presets") as [array |];
    [| by destruct before].
  exists array, before, after. split_and!; try done.
  - by apply preset_matches.
  - eapply Forall_impl; [exact Hbefore |]. intros earlier Hno Hyes.
    apply preset_matches in Hyes. cbv zeta in Hyes. congruence.
Qed.

Lemma get_db_preset_found_witness :
  exists db_presets before after,
    cJSON_GetObjectItemCaseSensitive (Some config_tree) "db_presets" = Some db_presets /\
    children db_presets
      = before ++ cJSON_Object [("name", cJSON_String "prod");
                                ("host", cJSON_String "db.example.org");
                                ("username", cJSON_String "reader");
                                ("password", cJSON_String "secret");
                                ("database", cJSON_String "sales")] :: after /\
    cJSON_GetObjectItemCaseSensitive
      (Some (cJSON_Object [("name", cJSON_String "prod");
                           ("host", cJSON_String "db.example.org");
                           ("username", cJSON_String "reader");
                           ("password", cJSON_String "secret");
                           ("database", cJSON_String "sales")])) "name"
      = Some (cJSON_String "prod") /\
    Forall (fun earlier =>
              cJSON_GetObjectItemCaseSensitive (Some earlier) "name"
                <> Some (cJSON_String "prod")) before.
Proof. apply (get_db_preset_found config_tree). reflexivity. Defined.

(** X7: no preset is found exactly when no child of [db_presets] carries the name
    asked for; this is so in particular when the configuration has no member
    [db_presets], or one that has no children. *)
Theorem get_db_preset_missing (json : cJSON) (preset_name : string) :
  get_db_preset json preset_name = None <->
  forall db_presets preset,
    cJSON_GetObjectItemCaseSensitive (Some json) "db_presets" = Some db_presets ->
    preset ∈ children db_presets ->
    cJSON_GetObjectItemCaseSensitive (Some preset) "name"
      <> Some (cJSON_String preset_name).
Proof.
  unfold get_db_preset.
  destruct (cJSON_GetObjectItemCaseSensitive (Some json) "db_presets") as [array |].
  - split.
    + intros Hfind db_presets preset [= <-] Hin Hname.
      apply list_elem_of_In in Hin.
      pose proof (find_none _ _ Hfind preset Hin) as Hno.
      apply preset_matches in Hname. cbv zeta in Hname, Hno. congruence.
    + intros Hnone.
      destruct (List.find _ (children array)) as [preset |] eqn:Hfind; [| done].
      apply find_some in Hfind as [Hin Hmatch].
      apply list_elem_of_In in Hin. apply preset_matches in Hmatch.
      by destruct (Hnone array preset).
  - split; [discriminate | done].
Qed.

(** ** Reading the configuration file *)

(** A terminated block is read up to its terminator; a block with a byte
    that was never written before any NUL cannot be read as a string. *)
Lemma buffer_string_terminated (bytes : list ascii) (rest : buffer) :
  buffer_string (map Some bytes ++ Some NUL :: rest) = Ok (Stream.c_string bytes).
Proof.
  induction bytes as [| c bytes IH]; simpl; [done |].
  destruct (Ascii.eqb c NUL); [done |]. by rewrite IH.
Qed.

Lemma buffer_string_unwritten (bytes : list ascii) (rest : buffer) :
  NUL ∉ bytes ->
  buffer_string (map Some bytes ++ None :: rest) = Fault IndeterminateUse.
Proof.
  induction bytes as [| c bytes IH]; intros Hnul; simpl; [done |].
  apply not_elem_of_cons in Hnul as [Hc Hnul].
  destruct (Ascii.eqb_spec c NUL) as [-> | _]; [done |]. by rewrite IH.
Qed.

(** The block [read_file] returns when ftell() announces as many bytes as
    fread() delivers, or more: the bytes, a gap that is never written, the
    terminator. *)
Lemma read_file_filled (fopen : string -> option Stream.FILE) (filename : string)
    (file : Stream.FILE) :
  fopen filename = Some file ->
  Z.of_nat (length (Stream.delivered file)) <= Stream.ftell file < 2 ^ 63 - 1 ->
  Stream.read_file fopen true filename =
  Ok (Some (map Some (Stream.delivered file)
            ++ replicate (Z.to_nat (Stream.ftell file) - length (Stream.delivered file)) None
            ++ [Some NUL])).
Proof.
  intros Hopen [Hshort Hlong]. unfold Stream.read_file. rewrite Hopen. cbn [negb].
  set (n := Stream.ftell file) in *. set (bytes := Stream.delivered file) in *.
  unfold size_wrap. rewrite !Z.mod_small by lia.
  unfold bind, Stream.fread. fold bytes.
  rewrite take_ge by lia.
  assert (poke 0 bytes (replicate (Z.to_nat (n + 1)) None) =
          Ok (tt, map Some bytes ++ replicate (Z.to_nat n - length bytes) None ++ [None]))
    as ->.
  { unfold poke. rewrite length_replicate.
    destruct (Nat.ltb_spec (Z.to_nat (n + 1)) (0 + length bytes)); [lia |].
    rewrite take_0, drop_replicate. cbn [app].
    replace (Z.to_nat (n + 1) - (0 + length bytes))%nat
      with ((Z.to_nat n - length bytes) + 1)%nat by lia.
    by rewrite replicate_add. }
  unfold store_byte. destruct (Z.ltb_spec n 0); [lia |]. unfold poke.
  assert (length (map Some bytes ++ replicate (Z.to_nat n - length bytes) None) = Z.to_nat n)
    as Hfront by (rewrite length_app, List.length_map, length_replicate; lia).
  rewrite (app_assoc (map Some bytes)).
  rewrite length_app, Hfront. cbn [length].
  destruct (Nat.ltb_spec (Z.to_nat n + 1) (Z.to_nat n + 1)); [lia |].
  rewrite take_app_length' by done.
  rewrite drop_ge by (rewrite length_app, Hfront; simpl; lia).
  cbn [map app]. by rewrite <- app_assoc.
Qed.

(** X8: [read_file] on a file that cannot be opened, or on a regular file that
    is read whole (ftell() gives its size and fread() delivers that many
    bytes).  It returns NULL exactly when the file cannot be opened or the
    buffer cannot be allocated, and then the heap is as it was.  Otherwise
    the block it returns holds the bytes of the file and a terminator; it is
    the one block added, the blocks that were there are untouched, and read
    as a C string it is the text that [read_file] of Section Program puts in
    the block: on such files the two agree. *)
Theorem read_file_outcome (alloc_ok : nat -> bool)
    (fopen : string -> option Stream.FILE) (filename : string) (m : mem) :
  (forall file, fopen filename = Some file -> Stream.whole file) ->
  exists p m',
    read_file alloc_ok (fun name => Stream.text <$> fopen name) filename m = Ok (p, m') /\
    (p = Vnull <-> fopen filename = None \/ alloc_ok (allocs m) = false) /\
    (p = Vnull ->
     heap m' = heap m /\
     Stream.read_file fopen (alloc_ok (allocs m)) filename = Ok None) /\
    heap m ⊆ heap m' /\
    (forall file,
       fopen filename = Some file -> p <> Vnull ->
       Stream.read_file fopen (alloc_ok (allocs m)) filename =
         Ok (Some (map Some (Stream.delivered file) ++ [Some NUL])) /\
       buffer_string (map Some (Stream.delivered file) ++ [Some NUL]) =
         Ok (Stream.text file) /\
       peek_str m' p = Ok (Stream.text file) /\
       outstanding m' = S (outstanding m)).
Proof.
  intros Hwhole. unfold read_file, alloc.
  assert (heap m !! fresh (dom (heap m)) = None) as Hfresh
    by (apply not_elem_of_dom, is_fresh).
  destruct (fopen filename) as [file |] eqn:Hopen; cbn [fmap option_fmap option_map].
  - destruct (Hwhole file eq_refl) as [Hsize Hlong].
    destruct (alloc_ok (allocs m)) eqn:Hok.
    + eexists _, _. split; [reflexivity |]. simpl. split_and!.
      * split; [discriminate | by intros [|]].
      * discriminate.
      * by apply insert_subseteq.
      * intros file' [= <-] _.
        rewrite (read_file_filled fopen filename file Hopen) by lia.
        replace (Z.to_nat (Stream.ftell file) - length (Stream.delivered file))%nat
          with 0%nat by lia.
        cbn [replicate app]. split_and!; [done | apply buffer_string_terminated | |].
        -- unfold peek_str, deref. simpl. by rewrite lookup_insert_eq.
        -- unfold outstanding. simpl. by rewrite map_size_insert_None.
    + eexists _, _. split; [reflexivity |]. simpl. split_and!; try done.
      * split; [by right | done].
      * intros _. split; [done |]. unfold Stream.read_file. by rewrite Hopen.
  - eexists _, _. split; [reflexivity |]. split_and!; try done.
    + split; [by left | done].
    + intros _. split; [done |]. unfold Stream.read_file. by rewrite Hopen.
Qed.

Lemma read_file_outcome_witness :
  exists p m',
    read_file always (fun name => Stream.text <$> one_stream config_stream name)
      config_path empty_mem = Ok (p, m') /\
    Stream.read_file (one_stream config_stream) true config_path =
      Ok (Some (map Some (list_ascii_of_string config_text) ++ [Some NUL])) /\
    peek_str m' p = Ok config_text.
Proof.
  destruct (read_file_outcome always (one_stream config_stream) config_path empty_mem)
    as (p & m' & Hrun & Hnull & _ & _ & Hcontent).
  - intros file [= <-]. split; [reflexivity | by vm_compute].
  - exists p, m'. split; [exact Hrun |].
    destruct (Hcontent config_stream eq_refl) as (Hstream & _ & Hpeek & _).
    + intros Hp. apply Hnull in Hp as [Hp | Hp]; discriminate.
    + split; [exact Hstream | exact Hpeek].
Defined.

(** X29: the answer of ftell() is not checked.  When it is -1, as for a stream
    that cannot be positioned, and malloc(0) returns a block, [read_file]
    writes outside the block: fread() is asked for 2^64 - 1 bytes into a
    block of none, and the terminator goes to [content[-1]]. *)
Theorem read_file_unsized (fopen : string -> option Stream.FILE) (filename : string)
    (file : Stream.FILE) :
  fopen filename = Some file ->
  Stream.ftell file = -1 ->
  Stream.read_file fopen true filename = Fault OutOfBounds.
Proof.
  intros Hopen Htell. unfold Stream.read_file. rewrite Hopen, Htell. cbn [negb].
  change (Z.to_nat (size_wrap (-1 + 1))) with 0%nat. cbn [replicate].
  unfold bind, Stream.fread, poke at 1. cbn [length].
  destruct (Nat.ltb_spec 0 (0 + length (take (Z.to_nat (size_wrap (-1)))
                                          (Stream.delivered file)))); [done |].
  reflexivity.
Qed.

Lemma read_file_unsized_witness :
  Stream.read_file (one_stream config_pipe) true config_path = Fault OutOfBounds.
Proof. apply (read_file_unsized _ _ config_pipe); reflexivity. Defined.

(** X30: the answer of fread() is not checked.  When the stream delivers fewer
    bytes than ftell() announced, and no NUL among them, [read_file] returns
    a block in which the bytes delivered are followed by bytes that were
    never written; the terminator comes after them, so that reading the
    block as a C string, which is what [main] does next, reads them. *)
Theorem read_file_short (fopen : string -> option Stream.FILE) (filename : string)
    (file : Stream.FILE) :
  fopen filename = Some file ->
  Z.of_nat (length (Stream.delivered file)) < Stream.ftell file < 2 ^ 63 - 1 ->
  NUL ∉ Stream.delivered file ->
  exists content,
    Stream.read_file fopen true filename = Ok (Some content) /\
    Z.of_nat (length content) = Stream.ftell file + 1 /\
    content !! length (Stream.delivered file) = Some None /\
    buffer_string content = Fault IndeterminateUse.
Proof.
  intros Hopen Hshort Hnul. eexists. split; [apply (read_file_filled _ _ _ Hopen); lia |].
  destruct (Z.to_nat (Stream.ftell file) - length (Stream.delivered file))%nat
    as [| gap] eqn:Hgap; [lia |].
  split_and!.
  - rewrite !length_app, List.length_map, length_replicate. simpl. lia.
  - cbn [replicate app]. apply list_lookup_middle. by rewrite List.length_map.
  - cbn [replicate app]. by apply buffer_string_unwritten.
Qed.

Lemma read_file_short_witness :
  exists content,
    Stream.read_file (one_stream config_cut) true config_path = Ok (Some content) /\
    Z.of_nat (length content) = 20 /\
    content !! 11%nat = Some None /\
    buffer_string content = Fault IndeterminateUse.
Proof.
  apply (read_file_short _ _ config_cut).
  - reflexivity.
  - by vm_compute.
  - apply (bool_decide_unpack _). by vm_compute.
Defined.

(** ** Construction that does not start *)

(** X9: when the driver reports a failure ([mysql_init], [mysql_real_connect],
    [mysql_query] or [mysql_store_result]) or the structure itself cannot be
    allocated, [execute_mysql_query] returns NULL and the blocks of the
    program itself, those it has from malloc() and strdup(), are as they
    were: none was added, none was freed.  The handles of the driver are
    no such blocks, and nothing is said of them here. *)
Theorem execute_mysql_query_nothing_built (alloc_ok : nat -> bool) (conn : MYSQL)
    (m : mem) :
  mysql_init conn = false \/ mysql_real_connect conn = false \/
  mysql_query conn = false \/ mysql_store_result conn = None \/
  alloc_ok (allocs m) = false ->
  exists m', execute_mysql_query alloc_ok conn m = Ok (Vnull, m') /\
             heap m' = heap m.
Proof.
  intros Hfailure. unfold execute_mysql_query.
  destruct (mysql_init conn); [| by exists m].
  destruct (mysql_real_connect conn); [| by exists m].
  destruct (mysql_query conn); [| by exists m].
  destruct (mysql_store_result conn) as [res |]; [| by exists m].
  destruct Hfailure as [? | [? | [? | [? | Hok]]]]; try discriminate.
  cbn [negb]. unfold bind, alloc. rewrite Hok. cbn [is_null].
  by eexists.
Qed.

Lemma execute_mysql_query_nothing_built_witness :
  exists m', execute_mysql_query (failing 0) (answering two_by_two) empty_mem
             = Ok (Vnull, m') /\
             heap m' = heap empty_mem.
Proof. apply execute_mysql_query_nothing_built. repeat right. reflexivity. Defined.

(** ** TypeMapper, the names *)

(** X18: every tag the switch names gets a name of its own kind: "UNKNOWN" is the
    name of the unlisted tags only; and the native name decides the portable
    type, so two columns with the same native name never show different
    portable types. *)
Theorem type_names_consistent :
  (forall t, mysql_type (mysql_type_to_c_type t) = "UNKNOWN" <->
             exists code, t = MYSQL_TYPE_unlisted code) /\
  (forall a b, mysql_type (mysql_type_to_c_type a) = mysql_type (mysql_type_to_c_type b) ->
               mysql_type_to_c_type a = mysql_type_to_c_type b).
Proof.
  split.
  - intros t. split.
    + destruct t; try discriminate. by eexists.
    + by intros [code ->].
  - intros a b. destruct a, b; simpl; intros Hname; try reflexivity; discriminate.
Qed.

(** ** Renderer: the columns on display *)

Global Instance Header_inj : Inj (=) (=) Header.
Proof. by intros i j [= ->]. Qed.

(** Which columns a table row shows. *)
Lemma table_row_elem (cols j : Z) (column : Z -> ft_arg) (marker : ft_arg) :
  Inj (=) (=) column -> (forall k, column k <> marker) ->
  column j ∈ table_row cols column marker <->
  (0 <= j < 3 /\ j < cols) \/ (4 < cols /\ cols - 4 <= j < cols).
Proof.
  intros Hinj Hmarker. unfold table_row, head_columns, tail_columns.
  change (map column (seqZ 0 (Z.min 3 cols))) with (column <$> seqZ 0 (Z.min 3 cols)).
  change (map column (if cols >? 4 then seqZ (cols - 4) 4 else []))
    with (column <$> (if cols >? 4 then seqZ (cols - 4) 4 else [])).
  rewrite !elem_of_app, !(list_elem_of_fmap_inj column), elem_of_seqZ.
  assert (column j ∈ (if hidden_columns cols >? 0 then [marker] else []) <-> False)
    as ->.
  { destruct (hidden_columns cols >? 0); rewrite ?elem_of_cons, elem_of_nil;
      [| done]. split; [| done]. intros [Heq | []]. by destruct (Hmarker j). }
  destruct (Z.gtb_spec cols 4); rewrite ?elem_of_seqZ, ?elem_of_nil; lia.
Qed.

(** X19: column [j] is on display exactly when it is one of the first three or,
    with more than 4 columns, one of the last four; the data rows show the
    same columns as the header row. *)
Theorem displayed_columns (cols j : Z) :
  (Header j ∈ header_row cols <->
   (0 <= j < 3 /\ j < cols) \/ (4 < cols /\ cols - 4 <= j < cols)) /\
  (forall i, Cell i j ∈ data_row cols i <-> Header j ∈ header_row cols).
Proof.
  split.
  - apply table_row_elem; [apply _ | discriminate].
  - intros i. unfold data_row, header_row.
    rewrite !table_row_elem; try done; try apply _.
    by intros a b [= ->].
Qed.

(** X20: unless there are exactly 4 columns, the number on the marker counts the
    columns that are not on display: they are the columns from 3 on, as many
    as the marker says (none when there is no marker). *)
Theorem marker_counts_hidden (cols j : Z) :
  cols <> 4 ->
  0 <= j < cols ->
  (Header j ∉ header_row cols <-> 3 <= j < 3 + hidden_columns cols).
Proof.
  intros Hcols Hj.
  unfold header_row. rewrite table_row_elem; [| apply _ | discriminate].
  unfold hidden_columns. destruct (Z.gtb_spec cols 7); lia.
Qed.

Lemma marker_counts_hidden_witness :
  Header 4 ∉ header_row 9 <-> 3 <= 4 < 3 + hidden_columns 9.
Proof. apply marker_counts_hidden; lia. Defined.

(** X21: a column is shown twice exactly when there are 5 or 6 columns. *)
Theorem columns_shown_once (cols : Z) :
  NoDup (header_row cols) <-> ~ (5 <= cols <= 6).
Proof.
  destruct (Z.leb_spec cols 3) as [Hle | Hgt].
  { unfold header_row. rewrite table_row_shape.
    replace (cols <=? 3) with true by lia.
    split; [lia | intros _]. apply (NoDup_fmap_2 _), NoDup_seqZ. }
  destruct (Z.leb_spec cols 7) as [H7 | H7].
  { assert (cols = 4 \/ cols = 5 \/ cols = 6 \/ cols = 7)
      as [-> | [-> | [-> | ->]]] by lia.
    - split; [lia | intros _]. by apply (bool_decide_unpack _).
    - split; [| lia]. intros Hnodup. by apply (bool_decide_pack _) in Hnodup.
    - split; [| lia]. intros Hnodup. by apply (bool_decide_pack _) in Hnodup.
    - split; [lia | intros _]. by apply (bool_decide_unpack _). }
  split; [lia | intros _].
  unfold header_row. rewrite table_row_marker by done.
  apply NoDup_app. split_and!.
  - by apply (bool_decide_unpack _).
  - intros x Hx Hin. apply list_elem_of_fmap in Hin as (k & -> & Hk).
    apply elem_of_seqZ in Hk.
    rewrite !elem_of_cons, elem_of_nil in Hx.
    destruct Hx as [[= ->] | [[= ->] | [[= ->] | [| []]]]]; (lia || discriminate).
  - apply (NoDup_fmap_2 _), NoDup_seqZ.
Qed.

(** X22: the table never has more than 12 rows of 8 cells, however large the
    result: the header row, and one row per result row up to 10 rows, 11 rows
    beyond. *)
Theorem table_is_bounded (rows_shown cols : Z) :
  exists calls,
    table_calls rows_shown cols = Some calls /\
    length calls = S (if rows_shown >? 10 then 11 else Z.to_nat rows_shown) /\
    (length calls <= 12)%nat /\
    Forall (fun row => (length row <= 8)%nat) calls.
Proof.
  eexists. split; [apply table_calls_shape |].
  split_and!.
  - destruct (rows_shown >? 10); simpl;
      rewrite ?length_app, ?length_fmap, ?length_seqZ; simpl; lia.
  - destruct (Z.gtb_spec rows_shown 10); simpl;
      rewrite ?length_app, ?length_fmap, ?length_seqZ; simpl; lia.
  - constructor; [apply table_row_length |].
    destruct (rows_shown >? 10);
      rewrite ?Forall_app, ?Forall_fmap; split_and?;
      try (apply Forall_forall; intros i _; apply table_row_length).
    constructor; [apply table_row_length | constructor].
Qed.

(** ** Ownership *)

(** Writing the next slot of an array. *)
Lemma array_block_store (ps : list nat) (n b : nat) :
  (length ps < n)%nat ->
  <[length ps := Vptr b]> ((Vptr <$> ps) ++ replicate (n - length ps) Vundef) =
  (Vptr <$> (ps ++ [b])) ++ replicate (n - length (ps ++ [b])) Vundef.
Proof.
  intros Hroom.
  rewrite insert_app_r_alt by (rewrite length_fmap; lia).
  rewrite length_fmap, Nat.sub_diag, length_app, fmap_app, <- app_assoc. simpl.
  replace (n - length ps)%nat with (S (n - (length ps + 1))) by lia.
  reflexivity.
Qed.

(** Storing one more string in array [j] adds its address to the strings. *)
Lemma strings_of_store (arrays : list array_layout) (j : nat) (x : array_layout)
    (b : nat) :
  arrays !! j = Some x ->
  strings_of (<[j := mkArray (array_at x) (stored x ++ [b]) (slots_n x)]> arrays)
    ≡ₚ b :: strings_of arrays.
Proof.
  unfold strings_of. revert j.
  induction arrays as [| y arrays IH]; intros [| j] Hj; try done; simpl in *.
  - injection Hj as ->. rewrite <- app_assoc. simpl.
    by rewrite <- Permutation_middle.
  - rewrite (IH j Hj). by rewrite <- Permutation_middle.
Qed.

Lemma array_at_store (arrays : list array_layout) (j : nat) (x : array_layout)
    (ps : list nat) :
  arrays !! j = Some x ->
  array_at <$> <[j := mkArray (array_at x) ps (slots_n x)]> arrays = array_at <$> arrays.
Proof.
  intros Hj. rewrite list_fmap_insert. simpl.
  apply list_insert_id. by rewrite list_lookup_fmap, Hj.
Qed.

Lemma owned_store (a0 : nat) (arrays : list array_layout) (j : nat)
    (x : array_layout) (b : nat) :
  arrays !! j = Some x ->
  owned a0 (<[j := mkArray (array_at x) (stored x ++ [b]) (slots_n x)]> arrays)
    ≡ₚ b :: owned a0 arrays.
Proof.
  intros Hj. unfold owned.
  rewrite (array_at_store _ _ _ _ Hj), (strings_of_store _ _ _ _ Hj).
  rewrite <- Permutation_middle. apply perm_swap.
Qed.

Lemma owned_array (a0 : nat) (arrays : list array_layout) (j : nat) (x : array_layout) :
  arrays !! j = Some x -> array_at x ∈ owned a0 arrays.
Proof.
  intros Hj. unfold owned. rewrite elem_of_cons, elem_of_app. right. left.
  apply list_elem_of_fmap. exists x. split; [done |]. by eapply list_elem_of_lookup_2.
Qed.

Lemma owned_store_set (a0 : nat) (arrays : list array_layout) (j : nat)
    (x : array_layout) (b : nat) :
  arrays !! j = Some x ->
  (list_to_set
     (owned a0 (<[j := mkArray (array_at x) (stored x ++ [b]) (slots_n x)]> arrays))
   : gset nat)
  = {[b]} ∪ list_to_set (owned a0 arrays).
Proof.
  intros Hj. apply set_eq. intros k.
  rewrite elem_of_union, !elem_of_list_to_set, (owned_store _ _ _ _ _ Hj).
  by rewrite elem_of_cons, elem_of_singleton.
Qed.

(** What is owned is allocated. *)
Lemma owned_live (m0 m : mem) (own : list nat) (k : nat) :
  grown m0 m own -> k ∈ own -> is_Some (heap m !! k).
Proof.
  intros (_ & Hdom & _) Hk. apply elem_of_dom. rewrite Hdom.
  by apply elem_of_union_r, elem_of_list_to_set.
Qed.

(** One more string: duplicated into a fresh block, and stored in the next
    free slot of array [j]. *)
Lemma slot_stored (alloc_ok : nat -> bool) (m0 m : mem) (a0 : nat) (r : QueryResult)
    (arrays : list array_layout) (j : nat) (x : array_layout) (s : string) :
  laid_out m a0 r arrays ->
  grown m0 m (owned a0 arrays) ->
  arrays !! j = Some x ->
  (length (stored x) < slots_n x)%nat ->
  alloc_ok (allocs m) = true ->
  exists b m1 m2,
    strdup alloc_ok s m = Ok (Vptr b, m1) /\
    store_slot (Vptr (array_at x)) (Z.of_nat (length (stored x))) (Vptr b) m1
      = Ok (tt, m2) /\
    allocs m2 = S (allocs m) /\
    laid_out m2 a0 r (<[j := mkArray (array_at x) (stored x ++ [b]) (slots_n x)]> arrays) /\
    grown m0 m2 (owned a0 (<[j := mkArray (array_at x) (stored x ++ [b]) (slots_n x)]>
                             arrays)).
Proof.
  intros (Hstruct & Hfields & Harrays & Hstrings & Hdistinct)
    (Hsub & Hdom & Hfresh) Hj Hroom Hok.
  set (b := fresh (dom (heap m))).
  assert (heap m !! b = None) as Hb by (apply not_elem_of_dom, is_fresh).
  assert (b ∉ owned a0 arrays) as Hnew.
  { intros Hin. apply (owned_live m0 m) in Hin as [? Hlive]; [| done]. congruence. }
  pose proof (owned_array a0 _ _ _ Hj) as Hx_owned.
  assert (array_at x <> b) as Hxb by (intros Heq; by rewrite Heq in Hx_owned).
  rewrite Forall_lookup in Harrays. destruct (Harrays j x Hj) as [Hblock _].
  set (x' := mkArray (array_at x) (stored x ++ [b]) (slots_n x)).
  set (h2 := <[array_at x := array_block x']> (<[b := Bstr s]> (heap m))).
  exists b, (mkMem (<[b := Bstr s]> (heap m)) (S (allocs m))), (mkMem h2 (S (allocs m))).
  split.
  { unfold strdup, alloc. by rewrite Hok. }
  split.
  { unfold store_slot. simpl. rewrite lookup_insert_ne by done. rewrite Hblock.
    unfold array_block.
    rewrite length_app, length_fmap, length_replicate.
    destruct (Z.ltb_spec (Z.of_nat (length (stored x))) 0); [lia |].
    destruct (Z.leb_spec (Z.of_nat (length (stored x) + (slots_n x - length (stored x))))
                (Z.of_nat (length (stored x)))); [lia |].
    simpl. rewrite Nat2Z.id, array_block_store by done. reflexivity. }
  split; [done |].
  assert (forall k blk, heap m !! k = Some blk -> k <> array_at x -> h2 !! k = Some blk)
    as Hkeep.
  { intros k blk Hk Hne. unfold h2.
    rewrite !lookup_insert_ne; [done | congruence | done]. }
  split.
  - (* the layout *)
    unfold laid_out. cbn [heap]. split_and!.
    + apply Hkeep; [done |]. intros ->.
      apply NoDup_cons in Hdistinct as [Hnot _]. apply Hnot.
      rewrite elem_of_app. left. apply list_elem_of_fmap. exists x.
      split; [done |]. by eapply list_elem_of_lookup_2.
    + by rewrite (array_at_store _ _ _ _ Hj).
    + apply Forall_lookup. intros i y Hi.
      apply list_lookup_insert_Some in Hi as [(-> & <- & _) | (Hne & Hi)].
      * simpl. split; [| rewrite length_app; simpl; lia].
        unfold h2. by rewrite lookup_insert_eq.
      * destruct (Harrays i y Hi) as [Hy Hlen]. split; [| done].
        apply Hkeep; [done |]. intros Heq.
        apply NoDup_cons in Hdistinct as [_ Hdistinct].
        apply NoDup_app in Hdistinct as (Hats & _ & _).
        apply Hne.
        apply (NoDup_lookup _ _ _ (array_at x) Hats).
        -- by rewrite list_lookup_fmap, Hj.
        -- rewrite list_lookup_fmap, Hi. simpl. by rewrite Heq.
    + rewrite (strings_of_store _ _ _ _ Hj). constructor.
      * exists s. unfold h2. by rewrite lookup_insert_ne, lookup_insert_eq.
      * eapply Forall_impl; [exact Hstrings |]. intros p [t Hp]. exists t.
        apply Hkeep; [done |]. intros ->. rewrite Hblock in Hp. discriminate.
    + rewrite (owned_store _ _ _ _ _ Hj). by constructor.
  - (* the frame *)
    unfold grown. cbn [heap]. split_and!.
    + unfold h2. apply insert_subseteq_r.
      * rewrite Forall_forall in Hfresh. by apply Hfresh.
      * apply insert_subseteq_r; [| done]. by eapply lookup_weaken_None.
    + unfold h2, x'. rewrite !dom_insert_L, Hdom, (owned_store_set _ _ _ _ _ Hj).
      assert (array_at x ∈ (list_to_set (owned a0 arrays) : gset nat)) as Hin
        by (by apply elem_of_list_to_set).
      apply set_eq. intros k. rewrite !elem_of_union, !elem_of_singleton.
      split; [intros [-> | [Hk | [Hk | Hk]]] | intros [Hk | [Hk | Hk]]]; auto.
    + rewrite (owned_store _ _ _ _ _ Hj). constructor; [| done].
      by eapply lookup_weaken_None.
Qed.

Lemma bind_ok {S A B : Type} (c : M S A) (k : A -> M S B) (s s1 : S) (a : A) :
  c s = Ok (a, s1) -> bind c k s = k a s1.
Proof. intros Hc. unfold bind. by rewrite Hc. Qed.

Lemma index_lookup {A : Type} (l : list A) (k : nat) (a : A) :
  l !! k = Some a -> index l (Z.of_nat k) = Ok a.
Proof.
  intros Hk. unfold index.
  destruct (Z.ltb_spec (Z.of_nat k) 0); [lia |]. by rewrite Nat2Z.id, Hk.
Qed.

Section Ownership.

Variable alloc_ok : nat -> bool.
Variable m0 : mem.
Variable a0 a1 a2 a3 a4 : nat.
Variable r : QueryResult.
Variable cells_n cols_n : nat.

Lemma laid_out_fields (m : mem) (cps hps tps qps : list nat) :
  laid_out m a0 r (arrays_with a1 a2 a3 a4 cells_n cols_n cps hps tps qps) ->
  rows r = Vptr a1 /\ headers r = Vptr a2 /\ mysql_types r = Vptr a3 /\
  c_types r = Vptr a4.
Proof. intros (_ & Hfields & _). by injection Hfields as <- <- <- <-. Qed.

(** One round of the column loop when allocation succeeds. *)
Lemma column_stored (res : MYSQL_RES) (m : mem) (cps hps tps qps : list nat)
    (f : MYSQL_FIELD) :
  laid_out m a0 r (arrays_with a1 a2 a3 a4 cells_n cols_n cps hps tps qps) ->
  grown m0 m (owned a0 (arrays_with a1 a2 a3 a4 cells_n cols_n cps hps tps qps)) ->
  length tps = length hps -> length qps = length hps ->
  (length hps < cols_n)%nat ->
  fields res !! length hps = Some f ->
  (forall k, (allocs m <= k < allocs m + 3)%nat -> alloc_ok k = true) ->
  exists bh bt bq m',
    fill_column alloc_ok (Vptr a0) r res (Z.of_nat (length hps)) m = Ok (true, m') /\
    allocs m' = (allocs m + 3)%nat /\
    laid_out m' a0 r
      (arrays_with a1 a2 a3 a4 cells_n cols_n cps (hps ++ [bh]) (tps ++ [bt])
         (qps ++ [bq])) /\
    grown m0 m'
      (owned a0 (arrays_with a1 a2 a3 a4 cells_n cols_n cps (hps ++ [bh]) (tps ++ [bt])
                   (qps ++ [bq]))).
Proof.
  intros Hlaid Hgrown Ht Hq Hroom Hfield Hok.
  destruct (laid_out_fields _ _ _ _ _ Hlaid) as (_ & Hh & Hmt & Hct).
  unfold arrays_with in *.
  destruct (slot_stored alloc_ok m0 m a0 r _ 1 (mkArray a2 hps cols_n) (name f)
              Hlaid Hgrown eq_refl Hroom)
    as (bh & m1 & m2 & Hdup1 & Hstore1 & Hallocs2 & Hlaid2 & Hgrown2);
    [apply Hok; lia |].
  cbn [stored array_at slots_n list_insert] in *.
  destruct (slot_stored alloc_ok m0 m2 a0 r _ 2 (mkArray a3 tps cols_n)
              (mysql_type (mysql_type_to_c_type (type f)))
              Hlaid2 Hgrown2 eq_refl)
    as (bt & m3 & m4 & Hdup2 & Hstore2 & Hallocs4 & Hlaid4 & Hgrown4);
    [simpl; lia | apply Hok; lia |].
  cbn [stored array_at slots_n list_insert] in *.
  destruct (slot_stored alloc_ok m0 m4 a0 r _ 3 (mkArray a4 qps cols_n)
              (c_type (mysql_type_to_c_type (type f)))
              Hlaid4 Hgrown4 eq_refl)
    as (bq & m5 & m6 & Hdup3 & Hstore3 & Hallocs6 & Hlaid6 & Hgrown6);
    [simpl; lia | apply Hok; lia |].
  cbn [stored array_at slots_n list_insert] in *.
  exists bh, bt, bq, m6.
  split.
  { unfold fill_column.
    rewrite (bind_ok _ _ m m f) by (by rewrite (index_lookup _ _ _ Hfield)).
    rewrite Ht in Hstore2. rewrite Hq in Hstore3.
    rewrite (bind_ok _ _ _ _ _ Hdup1), Hh, (bind_ok _ _ _ _ _ Hstore1).
    rewrite (bind_ok _ _ _ _ _ Hdup2), Hmt, (bind_ok _ _ _ _ _ Hstore2).
    rewrite (bind_ok _ _ _ _ _ Hdup3), Hct, (bind_ok _ _ _ _ _ Hstore3).
    reflexivity. }
  split; [lia |]. by split.
Qed.

(** The column loop when allocation succeeds. *)
Lemma columns_stored (res : MYSQL_RES) (todo : list MYSQL_FIELD) :
  forall (done : list MYSQL_FIELD) (m : mem) (cps hps tps qps : list nat),
    fields res = done ++ todo ->
    cols_n = length (fields res) ->
    length hps = length done -> length tps = length done -> length qps = length done ->
    laid_out m a0 r (arrays_with a1 a2 a3 a4 cells_n cols_n cps hps tps qps) ->
    grown m0 m (owned a0 (arrays_with a1 a2 a3 a4 cells_n cols_n cps hps tps qps)) ->
    (forall k, (allocs m <= k < allocs m + 3 * length todo)%nat -> alloc_ok k = true) ->
    exists hps' tps' qps' m',
      for_until (seqZ (Z.of_nat (length done)) (Z.of_nat (length todo)))
        (fill_column alloc_ok (Vptr a0) r res) m = Ok (true, m') /\
      allocs m' = (allocs m + 3 * length todo)%nat /\
      length hps' = cols_n /\ length tps' = cols_n /\ length qps' = cols_n /\
      laid_out m' a0 r (arrays_with a1 a2 a3 a4 cells_n cols_n cps hps' tps' qps') /\
      grown m0 m' (owned a0 (arrays_with a1 a2 a3 a4 cells_n cols_n cps hps' tps' qps')).
Proof.
  induction todo as [| f todo IH];
    intros done m cps hps tps qps Hfields Hcols Hh Ht Hq Hlaid Hgrown Hok.
  - rewrite app_nil_r in Hfields. exists hps, tps, qps, m.
    split_and!; try done; try congruence; simpl; lia.
  - destruct (column_stored res m cps hps tps qps f Hlaid Hgrown)
      as (bh & bt & bq & m1 & Hstep & Hallocs & Hlaid1 & Hgrown1).
    + congruence.
    + congruence.
    + rewrite Hcols, Hfields, length_app, Hh. simpl. lia.
    + by rewrite Hh, Hfields, list_lookup_middle.
    + intros k Hk. apply Hok. simpl. lia.
    + destruct (IH (done ++ [f]) m1 cps (hps ++ [bh]) (tps ++ [bt]) (qps ++ [bq]))
        as (hps' & tps' & qps' & m' & Hloop & Hallocs' & Hh' & Ht' & Hq' & Hlaid' & Hgrown');
        try done.
      * by rewrite <- app_assoc.
      * rewrite !length_app. simpl. lia.
      * rewrite !length_app. simpl. lia.
      * rewrite !length_app. simpl. lia.
      * intros k Hk. apply Hok. simpl. lia.
      * exists hps', tps', qps', m'. split_and!; try done.
        -- rewrite seqZ_cons by (simpl; lia). cbn [for_until].
           rewrite <- Hh, (bind_ok _ _ _ _ _ Hstep).
           rewrite length_app in Hloop. simpl length in Hloop.
           replace (Z.succ (Z.of_nat (length hps)))
             with (Z.of_nat (length done + 1)) by lia.
           replace (Z.pred (Z.of_nat (length (f :: todo))))
             with (Z.of_nat (length todo)) by (simpl; lia).
           exact Hloop.
        -- simpl. lia.
Qed.

(** One round of the cell loop when allocation succeeds. *)
Lemma cell_stored (m : mem) (cps hps tps qps : list nat) (row : MYSQL_ROW)
    (row_index : Z) (j : nat) (v : option string) :
  laid_out m a0 r (arrays_with a1 a2 a3 a4 cells_n cols_n cps hps tps qps) ->
  grown m0 m (owned a0 (arrays_with a1 a2 a3 a4 cells_n cols_n cps hps tps qps)) ->
  (length cps < cells_n)%nat ->
  row !! j = Some v ->
  int_wrap (row_index * cols_count r + Z.of_nat j) = Z.of_nat (length cps) ->
  alloc_ok (allocs m) = true ->
  exists b m',
    fill_cell alloc_ok (Vptr a0) r row row_index (Z.of_nat j) m = Ok (true, m') /\
    allocs m' = S (allocs m) /\
    laid_out m' a0 r (arrays_with a1 a2 a3 a4 cells_n cols_n (cps ++ [b]) hps tps qps) /\
    grown m0 m' (owned a0 (arrays_with a1 a2 a3 a4 cells_n cols_n (cps ++ [b]) hps tps qps)).
Proof.
  intros Hlaid Hgrown Hroom Hv Hindex Hok.
  destruct (laid_out_fields _ _ _ _ _ Hlaid) as (Hr & _).
  unfold arrays_with in *.
  destruct (slot_stored alloc_ok m0 m a0 r _ 0 (mkArray a1 cps cells_n) (cell_text v)
              Hlaid Hgrown eq_refl Hroom Hok)
    as (b & m1 & m2 & Hdup & Hstore & Hallocs & Hlaid2 & Hgrown2).
  cbn [stored array_at slots_n list_insert] in *.
  exists b, m2. split; [| by split].
  unfold fill_cell.
  rewrite (bind_ok _ _ m m v) by (by rewrite (index_lookup _ _ _ Hv)).
  rewrite (bind_ok _ _ _ _ _ Hdup), Hr, Hindex, (bind_ok _ _ _ _ _ Hstore).
  reflexivity.
Qed.

(** The cell loop over one fetched row when allocation succeeds. *)
Lemma row_stored (hps tps qps : list nat) (row : MYSQL_ROW) (row_index : Z)
    (todo : list (option string)) :
  forall (done : list (option string)) (m : mem) (cps : list nat),
    row = done ++ todo ->
    row_index * cols_count r + Z.of_nat (length done) = Z.of_nat (length cps) ->
    (length cps + length todo <= cells_n)%nat ->
    Z.of_nat cells_n < 2 ^ 31 ->
    laid_out m a0 r (arrays_with a1 a2 a3 a4 cells_n cols_n cps hps tps qps) ->
    grown m0 m (owned a0 (arrays_with a1 a2 a3 a4 cells_n cols_n cps hps tps qps)) ->
    (forall k, (allocs m <= k < allocs m + length todo)%nat -> alloc_ok k = true) ->
    exists cps' m',
      for_until (seqZ (Z.of_nat (length done)) (Z.of_nat (length todo)))
        (fill_cell alloc_ok (Vptr a0) r row row_index) m = Ok (true, m') /\
      allocs m' = (allocs m + length todo)%nat /\
      length cps' = (length cps + length todo)%nat /\
      laid_out m' a0 r (arrays_with a1 a2 a3 a4 cells_n cols_n cps' hps tps qps) /\
      grown m0 m' (owned a0 (arrays_with a1 a2 a3 a4 cells_n cols_n cps' hps tps qps)).
Proof.
  induction todo as [| v todo IH];
    intros done m cps Hrow Hindex Hroom Hsmall Hlaid Hgrown Hok.
  - exists cps, m. split_and!; try done; simpl; lia.
  - simpl length in Hroom.
    destruct (cell_stored m cps hps tps qps row row_index (length done) v Hlaid Hgrown)
      as (b & m1 & Hstep & Hallocs & Hlaid1 & Hgrown1).
    + lia.
    + rewrite Hrow. by apply list_lookup_middle.
    + rewrite Hindex. apply int_wrap_id. lia.
    + apply Hok. simpl. lia.
    + destruct (IH (done ++ [v]) m1 (cps ++ [b]))
        as (cps' & m' & Hloop & Hallocs' & Hlen' & Hlaid' & Hgrown'); try done.
      * by rewrite <- app_assoc.
      * rewrite !length_app. simpl. lia.
      * rewrite length_app. simpl. lia.
      * intros k Hk. apply Hok. simpl. lia.
      * exists cps', m'. split_and!; try done.
        -- rewrite seqZ_cons by (simpl; lia). cbn [for_until].
           rewrite (bind_ok _ _ _ _ _ Hstep).
           rewrite length_app in Hloop. simpl length in Hloop.
           replace (Z.succ (Z.of_nat (length done)))
             with (Z.of_nat (length done + 1)) by lia.
           replace (Z.pred (Z.of_nat (length (v :: todo))))
             with (Z.of_nat (length todo)) by (simpl; lia).
           exact Hloop.
        -- simpl. lia.
        -- rewrite Hlen', length_app. simpl. lia.
Qed.

(** The fetch loop when allocation succeeds. *)
Lemma rows_stored (hps tps qps : list nat) (cursor : list MYSQL_ROW) :
  forall (row_index : Z) (m : mem) (cps : list nat),
    Forall (fun row => Z.of_nat (length row) = cols_count r) cursor ->
    0 <= row_index ->
    row_index * cols_count r = Z.of_nat (length cps) ->
    (length cps + length (concat cursor) <= cells_n)%nat ->
    Z.of_nat cells_n < 2 ^ 31 ->
    row_index + Z.of_nat (length cursor) < 2 ^ 31 ->
    laid_out m a0 r (arrays_with a1 a2 a3 a4 cells_n cols_n cps hps tps qps) ->
    grown m0 m (owned a0 (arrays_with a1 a2 a3 a4 cells_n cols_n cps hps tps qps)) ->
    (forall k, (allocs m <= k < allocs m + length (concat cursor))%nat ->
               alloc_ok k = true) ->
    exists cps' m',
      fetch_rows alloc_ok (Vptr a0) r cursor row_index m = Ok (true, m') /\
      allocs m' = (allocs m + length (concat cursor))%nat /\
      length cps' = (length cps + length (concat cursor))%nat /\
      laid_out m' a0 r (arrays_with a1 a2 a3 a4 cells_n cols_n cps' hps tps qps) /\
      grown m0 m' (owned a0 (arrays_with a1 a2 a3 a4 cells_n cols_n cps' hps tps qps)).
Proof.
  induction cursor as [| row cursor IH];
    intros row_index m cps Hwide Hpos Hindex Hroom Hsmall Hrows Hlaid Hgrown Hok.
  - exists cps, m. split_and!; try done; simpl; lia.
  - apply Forall_cons in Hwide as [Hrow Hwide].
    simpl concat in *. rewrite length_app in Hroom, Hok. simpl length in Hrows.
    destruct (row_stored hps tps qps row row_index row [] m cps)
      as (cps1 & m1 & Hloop & Hallocs1 & Hlen1 & Hlaid1 & Hgrown1); try done.
    + simpl. lia.
    + lia.
    + intros k Hk. apply Hok. lia.
    + destruct (IH (row_index + 1) m1 cps1)
        as (cps' & m' & Hrest & Hallocs' & Hlen' & Hlaid' & Hgrown'); try done.
      * lia.
      * rewrite Hlen1. nia.
      * lia.
      * lia.
      * intros k Hk. apply Hok. lia.
      * exists cps', m'. split_and!; try done.
        -- cbn [fetch_rows]. rewrite <- Hrow.
           rewrite (bind_ok _ _ _ _ _ Hloop).
           by rewrite int_wrap_id by lia.
        -- rewrite length_app. lia.
        -- rewrite length_app. lia.
Qed.

End Ownership.

(** ** Teardown of a complete result set *)

Lemma without_nothing (m : mem) : without [] m m.
Proof. split; [done |]. intros k. by rewrite decide_False by apply not_elem_of_nil. Qed.

Lemma without_app (l1 l2 : list nat) (m m1 m2 : mem) :
  without l1 m m1 -> without l2 m1 m2 -> without (l1 ++ l2) m m2.
Proof.
  intros [Ha1 H1] [Ha2 H2]. split; [congruence |]. intros k.
  rewrite H2, H1.
  destruct (decide (k ∈ l2)), (decide (k ∈ l1)), (decide (k ∈ l1 ++ l2)) as [Hin | Hout];
    try done; rewrite ?elem_of_app in *; tauto.
Qed.

Lemma without_perm (l l' : list nat) (m m' : mem) :
  l ≡ₚ l' -> without l m m' -> without l' m m'.
Proof.
  intros Hperm [Ha H]. split; [done |]. intros k. rewrite H.
  destruct (decide (k ∈ l)) as [Hin | Hout], (decide (k ∈ l')) as [Hin' | Hout'];
    try done; rewrite Hperm in *; done.
Qed.

(** What is not released is still there. *)
Lemma without_keeps (l : list nat) (m m' : mem) (k : nat) :
  without l m m' -> k ∉ l -> heap m' !! k = heap m !! k.
Proof. intros [_ H] Hk. by rewrite H, decide_False. Qed.

(** free() of a live block releases that block and nothing else. *)
Lemma free_live (m : mem) (p : nat) :
  is_Some (heap m !! p) ->
  exists m', free (Vptr p) m = Ok (tt, m') /\ without [p] m m'.
Proof.
  intros [blk Hp]. unfold free. rewrite Hp. eexists. split; [reflexivity |].
  split; [done |]. intros k. simpl.
  destruct (decide (k ∈ [p])) as [Hin | Hout].
  - apply list_elem_of_singleton in Hin as ->. apply lookup_delete_eq.
  - apply lookup_delete_ne. intros ->. apply Hout. by apply list_elem_of_singleton.
Qed.

(** Reading a written slot. *)
Lemma load_slot_stored (m : mem) (a : nat) (done todo : list nat) (p : nat) :
  heap m !! a = Some (Bptrs (Vptr <$> (done ++ p :: todo))) ->
  load_slot (Vptr a) (Z.of_nat (length done)) m = Ok (Vptr p, m).
Proof.
  intros Ha. unfold load_slot, peek_slot, deref, obind. rewrite Ha.
  destruct (Z.ltb_spec (Z.of_nat (length done)) 0); [lia |].
  by rewrite Nat2Z.id, list_lookup_fmap, list_lookup_middle.
Qed.

(** The loop over the cells frees every string the grid points to. *)
Lemma cells_released (a : nat) (todo : list nat) :
  forall (done : list nat) (m : mem),
    heap m !! a = Some (Bptrs (Vptr <$> (done ++ todo))) ->
    Forall (fun p => is_Some (heap m !! p)) todo ->
    NoDup (a :: todo) ->
    exists m',
      for_each (seqZ (Z.of_nat (length done)) (Z.of_nat (length todo)))
        (fun i => p <- load_slot (Vptr a) i ;; free p)%cmd m = Ok (tt, m') /\
      without todo m m'.
Proof.
  induction todo as [| p todo IH]; intros done m Ha Hlive Hdistinct.
  - exists m. split; [done | apply without_nothing].
  - apply Forall_cons in Hlive as [Hp Hlive].
    apply NoDup_cons in Hdistinct as [Ha_out Hdistinct].
    apply NoDup_cons in Hdistinct as [Hp_out Hdistinct].
    apply not_elem_of_cons in Ha_out as [Hap Ha_out].
    destruct (free_live m p Hp) as (m1 & Hfree & Hwithout1).
    destruct (IH (done ++ [p]) m1) as (m' & Hloop & Hwithout).
    + rewrite (without_keeps _ _ _ _ Hwithout1), <- app_assoc; [done |].
      by rewrite list_elem_of_singleton.
    + rewrite Forall_forall in Hlive. apply Forall_forall. intros q Hq.
      rewrite (without_keeps _ _ _ _ Hwithout1); [by apply Hlive |].
      rewrite list_elem_of_singleton. by intros ->.
    + by constructor.
    + exists m'. split; [| by apply (without_app [p] todo m m1 m')].
      rewrite seqZ_cons by (simpl; lia). cbn [for_each].
      assert ((p0 <- load_slot (Vptr a) (Z.of_nat (length done)) ;; free p0)%cmd m
              = Ok (tt, m1)) as Hbody
        by (by rewrite (bind_ok _ _ _ _ _ (load_slot_stored _ _ _ _ _ Ha))).
      rewrite (bind_ok _ _ _ _ _ Hbody).
      rewrite length_app in Hloop. simpl length in Hloop.
      replace (Z.succ (Z.of_nat (length done)))
        with (Z.of_nat (length done + 1)) by lia.
      replace (Z.pred (Z.of_nat (length (p :: todo))))
        with (Z.of_nat (length todo)) by (simpl; lia).
      exact Hloop.
Qed.

Lemma without_live (l : list nat) (m m' : mem) (k : nat) :
  without l m m' -> k ∉ l -> is_Some (heap m !! k) -> is_Some (heap m' !! k).
Proof. intros Hw Hk Hlive. by rewrite (without_keeps _ _ _ _ Hw Hk). Qed.

(** The loop over the columns frees the header and the two type names of
    every column. *)
Lemma columns_released (a2 a3 a4 : nat) (todo_h : list nat) :
  forall (todo_t todo_q done_h done_t done_q : list nat) (m : mem),
    length done_t = length done_h -> length done_q = length done_h ->
    length todo_t = length todo_h -> length todo_q = length todo_h ->
    heap m !! a2 = Some (Bptrs (Vptr <$> (done_h ++ todo_h))) ->
    heap m !! a3 = Some (Bptrs (Vptr <$> (done_t ++ todo_t))) ->
    heap m !! a4 = Some (Bptrs (Vptr <$> (done_q ++ todo_q))) ->
    Forall (fun p => is_Some (heap m !! p)) (todo_h ++ todo_t ++ todo_q) ->
    NoDup (a2 :: a3 :: a4 :: todo_h ++ todo_t ++ todo_q) ->
    exists m',
      for_each (seqZ (Z.of_nat (length done_h)) (Z.of_nat (length todo_h)))
        (fun i =>
           h <- load_slot (Vptr a2) i ;; free h ;;
           t <- load_slot (Vptr a3) i ;; free t ;;
           c <- load_slot (Vptr a4) i ;; free c)%cmd m = Ok (tt, m') /\
      without (todo_h ++ todo_t ++ todo_q) m m'.
Proof.
  induction todo_h as [| h hs IH];
    intros [| t ts] [| q qs] done_h done_t done_q m Hdt Hdq Htt Htq Ha2 Ha3 Ha4
      Hlive Hdistinct; try discriminate.
  - exists m. split; [done | apply without_nothing].
  - assert ((h :: hs) ++ (t :: ts) ++ (q :: qs) ≡ₚ [h; t; q] ++ (hs ++ ts ++ qs))
      as Hperm.
    { simpl. constructor. rewrite <- Permutation_middle. constructor.
      rewrite (app_assoc hs), <- Permutation_middle, <- app_assoc. done. }
    rewrite Hperm in Hlive, Hdistinct.
    apply Forall_app in Hlive as [Hlive3 Hlive].
    apply Forall_cons in Hlive3 as [Hh Hlive3].
    apply Forall_cons in Hlive3 as [Ht Hlive3].
    apply Forall_cons in Hlive3 as [Hq _].
    simpl in Hdistinct.
    apply NoDup_cons in Hdistinct as [Hout2 Hdistinct].
    apply NoDup_cons in Hdistinct as [Hout3 Hdistinct].
    apply NoDup_cons in Hdistinct as [Hout4 Hdistinct].
    apply NoDup_cons in Hdistinct as [Hh_out Hdistinct].
    apply NoDup_cons in Hdistinct as [Ht_out Hdistinct].
    apply NoDup_cons in Hdistinct as [Hq_out Hrest].
    rewrite !not_elem_of_cons in Hout2.
    rewrite !not_elem_of_cons in Hout3.
    rewrite !not_elem_of_cons in Hout4.
    rewrite !not_elem_of_cons in Hh_out.
    rewrite !not_elem_of_cons in Ht_out.
    destruct Hout2 as (Ha23 & Ha24 & Ha2h & Ha2t & Ha2q & Hout2).
    destruct Hout3 as (Ha34 & Ha3h & Ha3t & Ha3q & Hout3).
    destruct Hout4 as (Ha4h & Ha4t & Ha4q & Hout4).
    destruct Hh_out as (Hht & Hhq & Hh_out).
    destruct Ht_out as (Htq' & Ht_out).
    destruct (free_live m h Hh) as (m1 & Hfree1 & Hw1).
    assert (forall k, k <> h -> k ∉ [h]) as Hnot1
      by (intros k Hk; by rewrite list_elem_of_singleton).
    destruct (free_live m1 t) as (m2 & Hfree2 & Hw2).
    { apply (without_live _ _ _ _ Hw1); [apply Hnot1; congruence | done]. }
    assert (forall k, k <> t -> k ∉ [t]) as Hnot2
      by (intros k Hk; by rewrite list_elem_of_singleton).
    destruct (free_live m2 q) as (m3 & Hfree3 & Hw3).
    { apply (without_live _ _ _ _ Hw2); [apply Hnot2; congruence |].
      apply (without_live _ _ _ _ Hw1); [apply Hnot1; congruence | done]. }
    pose proof (without_app _ _ _ _ _ Hw1 (without_app _ _ _ _ _ Hw2 Hw3)) as Hw.
    simpl in Hw.
    assert (forall k, k ∉ [h; t; q] -> heap m3 !! k = heap m !! k) as Hkeep
      by (intros k Hk; by apply (without_keeps _ _ _ _ Hw)).
    assert ((a2 ∉ [h; t; q]) /\ (a3 ∉ [h; t; q]) /\ (a4 ∉ [h; t; q])) as (Hk2 & Hk3 & Hk4)
      by (rewrite !not_elem_of_cons; repeat split; try congruence; apply not_elem_of_nil).
    destruct (IH ts qs (done_h ++ [h]) (done_t ++ [t]) (done_q ++ [q]) m3)
      as (m' & Hloop & Hwithout).
    + rewrite !length_app. cbn [length]. by rewrite Hdt.
    + rewrite !length_app. cbn [length]. by rewrite Hdq.
    + by injection Htt.
    + by injection Htq.
    + by rewrite Hkeep, <- app_assoc.
    + by rewrite Hkeep, <- app_assoc.
    + by rewrite Hkeep, <- app_assoc.
    + rewrite Forall_forall in Hlive. apply Forall_forall. intros k Hk.
      rewrite Hkeep; [by apply Hlive |].
      rewrite !not_elem_of_cons. repeat split; try apply not_elem_of_nil;
        intros Heq; by rewrite Heq in Hk.
    + repeat (apply NoDup_cons; split); try done;
        rewrite !not_elem_of_cons; repeat split; congruence.
    + exists m'. split.
      * rewrite seqZ_cons by (clear; cbn [length]; lia). cbn [for_each].
        assert ((h' <- load_slot (Vptr a2) (Z.of_nat (length done_h)) ;; free h' ;;
                 t' <- load_slot (Vptr a3) (Z.of_nat (length done_h)) ;; free t' ;;
                 c' <- load_slot (Vptr a4) (Z.of_nat (length done_h)) ;; free c')%cmd m
                = Ok (tt, m3)) as Hbody.
        { assert (load_slot (Vptr a3) (Z.of_nat (length done_h)) m1 = Ok (Vptr t, m1))
            as Hload3.
          { rewrite <- Hdt. apply (load_slot_stored m1 a3 done_t ts t).
            rewrite (without_keeps _ _ _ _ Hw1); [done | apply Hnot1; congruence]. }
          assert (load_slot (Vptr a4) (Z.of_nat (length done_h)) m2 = Ok (Vptr q, m2))
            as Hload4.
          { rewrite <- Hdq. apply (load_slot_stored m2 a4 done_q qs q).
            rewrite (without_keeps _ _ _ _ Hw2); [| apply Hnot2; congruence].
            rewrite (without_keeps _ _ _ _ Hw1); [done | apply Hnot1; congruence]. }
          rewrite (bind_ok _ _ _ _ _ (load_slot_stored _ _ _ _ _ Ha2)).
          rewrite (bind_ok _ _ _ _ _ Hfree1).
          rewrite (bind_ok _ _ _ _ _ Hload3).
          rewrite (bind_ok _ _ _ _ _ Hfree2).
          by rewrite (bind_ok _ _ _ _ _ Hload4). }
        rewrite (bind_ok _ _ _ _ _ Hbody).
        rewrite length_app in Hloop. simpl length in Hloop.
        replace (Z.succ (Z.of_nat (length done_h)))
          with (Z.of_nat (length done_h + 1)) by (clear; lia).
        replace (Z.pred (Z.of_nat (length (h :: hs))))
          with (Z.of_nat (length hs)) by (clear; cbn [length]; lia).
        exact Hloop.
      * apply (without_perm ([h; t; q] ++ hs ++ ts ++ qs)); [by symmetry |].
        by apply (without_app _ _ m m3 m').
Qed.

Lemma releases_seq (c1 c2 : M mem unit) (l1 l2 : list nat) (m : mem) :
  releases c1 l1 m ->
  (forall m1, without l1 m m1 -> releases c2 l2 m1) ->
  releases (c1 ;; c2)%cmd (l1 ++ l2) m.
Proof.
  intros (m1 & Hc1 & Hw1) Hnext. destruct (Hnext m1 Hw1) as (m2 & Hc2 & Hw2).
  exists m2. split; [by rewrite (bind_ok _ _ _ _ _ Hc1) | by apply (without_app _ _ m m1 m2)].
Qed.

Lemma releases_perm (c : M mem unit) (l l' : list nat) (m : mem) :
  l ≡ₚ l' -> releases c l m -> releases c l' m.
Proof.
  intros Hperm (m' & Hc & Hw). exists m'. split; [done | by apply (without_perm l)].
Qed.

Lemma releases_read {A : Type} (c : M mem A) (k : A -> M mem unit) (a : A)
    (l : list nat) (m : mem) :
  c m = Ok (a, m) -> releases (k a) l m -> releases (x <- c ;; k x)%cmd l m.
Proof.
  intros Hc (m' & Hk & Hw). exists m'. split; [by rewrite (bind_ok _ _ _ _ _ Hc) | done].
Qed.

Lemma releases_free (p : nat) (m : mem) :
  is_Some (heap m !! p) -> releases (free (Vptr p)) [p] m.
Proof. apply free_live. Qed.

Lemma array_block_full (x : array_layout) :
  length (stored x) = slots_n x -> array_block x = Bptrs (Vptr <$> stored x).
Proof.
  intros Hfull. unfold array_block. by rewrite Hfull, Nat.sub_diag, app_nil_r.
Qed.

(** The teardown once the loop over the cells has released the cell
    strings: the header and type-name strings, the four arrays and the
    structure follow. *)
Lemma teardown_after_cells (m : mem) (r : QueryResult) (a0 a1 a2 a3 a4 : nat)
    (cs hs ts qs : list nat) :
  heap m !! a0 = Some (Bstruct r) ->
  rows r = Vptr a1 -> headers r = Vptr a2 -> mysql_types r = Vptr a3 ->
  c_types r = Vptr a4 ->
  is_Some (heap m !! a1) ->
  heap m !! a2 = Some (Bptrs (Vptr <$> hs)) ->
  heap m !! a3 = Some (Bptrs (Vptr <$> ts)) ->
  heap m !! a4 = Some (Bptrs (Vptr <$> qs)) ->
  cols_count r = Z.of_nat (length hs) ->
  length ts = length hs -> length qs = length hs ->
  Forall (fun p => is_Some (heap m !! p)) (cs ++ hs ++ ts ++ qs) ->
  NoDup (a0 :: a1 :: a2 :: a3 :: a4 :: cs ++ hs ++ ts ++ qs) ->
  releases (for_each (seqZ 0 (int_wrap (rows_count r * cols_count r)))
              (fun i => p <- load_slot (Vptr a1) i ;; free p)%cmd) cs m ->
  releases (free_query_result (Vptr a0)) (a0 :: [a1; a2; a3; a4] ++ cs ++ hs ++ ts ++ qs) m.
Proof.
  intros Hstruct Hrows Hheaders Htypes Hctypes Hb1 Hb2 Hb3 Hb4 Hcols Hlt Hlq Hlive
    Hdistinct Hcells_loop.
  set (names := hs ++ ts ++ qs) in *.
  apply Forall_app in Hlive as [Hlive_cells Hlive_names].
  apply NoDup_cons in Hdistinct as [Hout0 Hdistinct].
  apply NoDup_cons in Hdistinct as [Hout1 Hdistinct].
  apply NoDup_cons in Hdistinct as [Hout2 Hdistinct].
  apply NoDup_cons in Hdistinct as [Hout3 Hdistinct].
  apply NoDup_cons in Hdistinct as [Hout4 Hdistinct].
  apply NoDup_app in Hdistinct as (Hcells & Hapart & Hnames).
  rewrite !not_elem_of_cons, not_elem_of_app in Hout0.
  rewrite !not_elem_of_cons, not_elem_of_app in Hout1.
  rewrite !not_elem_of_cons, not_elem_of_app in Hout2.
  rewrite !not_elem_of_cons, not_elem_of_app in Hout3.
  rewrite not_elem_of_app in Hout4.
  destruct Hout0 as (H01 & H02 & H03 & H04 & H0c & H0n).
  destruct Hout1 as (H12 & H13 & H14 & H1c & H1n).
  destruct Hout2 as (H23 & H24 & H2c & H2n).
  destruct Hout3 as (H34 & H3c & H3n).
  destruct Hout4 as (H4c & H4n).
  assert (forall k p : nat, k <> p -> k ∉ [p]) as Hother
    by (intros k p Hk; by rewrite list_elem_of_singleton).
  apply (releases_perm _ (cs ++ names ++ [a1] ++ [a2] ++ [a3] ++ [a4] ++ [a0])).
  { cbn [app]. rewrite (app_assoc cs names), Permutation_app_comm.
    symmetry. apply (Permutation_middle [a1; a2; a3; a4]). }
  unfold free_query_result. cbn [is_null].
  assert (load_struct (Vptr a0) m = Ok (r, m)) as Hload
    by (unfold load_struct, peek_struct, deref, obind, lift; by rewrite Hstruct).
  apply (releases_read _ _ _ _ _ Hload).
  rewrite Hrows, Hheaders, Htypes, Hctypes, Hcols. rewrite Hcols in Hcells_loop.
  apply releases_seq; [exact Hcells_loop |].
  intros m1 Hw1. apply releases_seq.
  { assert (forall k, k ∉ cs -> heap m1 !! k = heap m !! k) as Hkeep
      by (intros k Hk; by apply (without_keeps _ _ _ _ Hw1)).
    apply (columns_released a2 a3 a4 hs ts qs [] [] [] m1); try done.
    - by rewrite Hkeep.
    - by rewrite Hkeep.
    - by rewrite Hkeep.
    - rewrite Forall_forall in Hlive_names. apply Forall_forall. intros k Hk.
      rewrite Hkeep; [by apply Hlive_names |]. intros Hin. by apply (Hapart k).
    - repeat (apply NoDup_cons; split); try done;
        rewrite !not_elem_of_cons; repeat split; done. }
  intros m2 Hw2.
  pose proof (without_app _ _ _ _ _ Hw1 Hw2) as Hw12.
  assert (forall k, k ∉ cs -> k ∉ names -> is_Some (heap m !! k) ->
                    is_Some (heap m2 !! k)) as Hlive2.
  { intros k Hc Hn. apply (without_live _ _ _ _ Hw12). rewrite not_elem_of_app. by split. }
  apply releases_seq.
  { apply releases_free, Hlive2; [done | done | done]. }
  intros m3 Hw3. apply releases_seq.
  { apply releases_free, (without_live _ _ _ _ Hw3); [by apply Hother; congruence |].
    apply Hlive2; [done | done | by rewrite Hb2]. }
  intros m4 Hw4. apply releases_seq.
  { apply releases_free, (without_live _ _ _ _ Hw4); [by apply Hother; congruence |].
    apply (without_live _ _ _ _ Hw3); [by apply Hother; congruence |].
    apply Hlive2; [done | done | by rewrite Hb3]. }
  intros m5 Hw5. apply releases_seq.
  { apply releases_free, (without_live _ _ _ _ Hw5); [by apply Hother; congruence |].
    apply (without_live _ _ _ _ Hw4); [by apply Hother; congruence |].
    apply (without_live _ _ _ _ Hw3); [by apply Hother; congruence |].
    apply Hlive2; [done | done | by rewrite Hb4]. }
  intros m6 Hw6.
  apply releases_free, (without_live _ _ _ _ Hw6); [by apply Hother; congruence |].
  apply (without_live _ _ _ _ Hw5); [by apply Hother; congruence |].
  apply (without_live _ _ _ _ Hw4); [by apply Hother; congruence |].
  apply (without_live _ _ _ _ Hw3); [by apply Hother; congruence |].
  apply Hlive2; [done | done | by rewrite Hstruct].
Qed.

(** Teardown of a complete result set: every cell string, every header and
    type name, the four arrays and the structure are released, in that
    order, and nothing else is. *)
Lemma free_query_result_releases (m : mem) (result : val) (r : QueryResult) (a0 : nat)
    (arrays : list array_layout) :
  complete m result r a0 arrays ->
  releases (free_query_result result) (owned a0 arrays) m.
Proof.
  intros (-> & (Hstruct & Hfields & Harrays & Hstrings & Hdistinct) & Hfull & Hsizes).
  destruct arrays as [| x1 [| x2 [| x3 [| x4 [| ? ?]]]]]; try discriminate.
  injection Hfields as Hrows Hheaders Htypes Hctypes.
  injection Hsizes as Hn1 Hn2 Hn3 Hn4.
  apply Forall_cons in Hfull as [Hf1 Hfull].
  apply Forall_cons in Hfull as [Hf2 Hfull].
  apply Forall_cons in Hfull as [Hf3 Hfull].
  apply Forall_cons in Hfull as [Hf4 _].
  apply Forall_cons in Harrays as [[Hb1 _] Harrays].
  apply Forall_cons in Harrays as [[Hb2 _] Harrays].
  apply Forall_cons in Harrays as [[Hb3 _] Harrays].
  apply Forall_cons in Harrays as [[Hb4 _] _].
  rewrite array_block_full in Hb1, Hb2, Hb3, Hb4 by done.
  destruct x1 as [a1 cs n1], x2 as [a2 hs n2], x3 as [a3 ts n3], x4 as [a4 qs n4].
  unfold owned, strings_of in *.
  cbn [fmap list_fmap array_at stored slots_n concat] in *.
  rewrite app_nil_r in *.
  assert (Forall (fun p => is_Some (heap m !! p)) (cs ++ hs ++ ts ++ qs)) as Hlive.
  { eapply Forall_impl; [exact Hstrings |]. intros p [s Hp]. by rewrite Hp. }
  apply (teardown_after_cells m r a0 a1 a2 a3 a4 cs hs ts qs); try done.
  - by rewrite <- Hn2, Hf2.
  - apply Nat2Z.inj. by rewrite Hf2, Hf3, Hn2, Hn3.
  - apply Nat2Z.inj. by rewrite Hf2, Hf4, Hn2, Hn4.
  - rewrite <- Hn1, <- Hf1. apply (cells_released a1 cs [] m); [done | |].
    + by apply Forall_app in Hlive as [? _].
    + cbn [app] in Hdistinct. apply NoDup_cons in Hdistinct as [_ Hdistinct].
      apply NoDup_cons in Hdistinct as [Hout1 Hdistinct].
      do 3 apply NoDup_cons in Hdistinct as [_ Hdistinct].
      apply NoDup_app in Hdistinct as (Hcells & _).
      rewrite !not_elem_of_cons, not_elem_of_app in Hout1.
      apply NoDup_cons. split; [| done]. by destruct Hout1 as (_ & _ & _ & ? & _).
Qed.

(** ** Construction when allocation succeeds *)

Lemma grown_nothing (m0 : mem) : grown m0 m0 [].
Proof.
  split_and!; [done | | done]. simpl. apply set_eq. intros k.
  rewrite elem_of_union, elem_of_empty. tauto.
Qed.

(** A successful allocation returns a block that nothing owns yet. *)
Lemma alloc_fresh (alloc_ok : nat -> bool) (b : block) (m0 m : mem) (own : list nat) :
  grown m0 m own ->
  alloc_ok (allocs m) = true ->
  exists a,
    alloc alloc_ok b m = Ok (Vptr a, mkMem (<[a := b]> (heap m)) (S (allocs m))) /\
    (a ∉ own) /\ heap m !! a = None /\
    grown m0 (mkMem (<[a := b]> (heap m)) (S (allocs m))) (own ++ [a]).
Proof.
  intros (Hsub & Hdom & Hfresh) Hok.
  set (a := fresh (dom (heap m))).
  assert (heap m !! a = None) as Ha by (apply not_elem_of_dom, is_fresh).
  exists a. split; [unfold alloc; by rewrite Hok |].
  split.
  { intros Hin. apply (owned_live m0 m) in Hin as [? Hlive]; [congruence | done]. }
  split; [done |].
  unfold grown. cbn [heap]. split_and!.
  - apply insert_subseteq_r; [by eapply lookup_weaken_None | done].
  - rewrite dom_insert_L, Hdom. apply set_eq. intros k.
    rewrite !elem_of_union, !elem_of_list_to_set, elem_of_app, list_elem_of_singleton,
      elem_of_singleton. tauto.
  - apply Forall_app. split; [done |]. constructor; [| done].
    by eapply lookup_weaken_None.
Qed.

(** The prelude of the construction when its five allocation calls find
    memory: the structure and the four arrays are laid out, no slot is
    written yet, and the two loops remain to be run. *)
Lemma prelude_built (alloc_ok : nat -> bool) (conn : MYSQL) (res : MYSQL_RES) (m0 : mem) :
  mysql_init conn = true ->
  mysql_real_connect conn = true ->
  mysql_query conn = true ->
  mysql_store_result conn = Some res ->
  Z.of_nat (length (data res)) < 2 ^ 31 ->
  Z.of_nat (length (fields res)) < 2 ^ 31 ->
  Z.of_nat (length (data res)) * Z.of_nat (length (fields res)) < 2 ^ 31 ->
  (forall k, (allocs m0 <= k < allocs m0 + 5)%nat -> alloc_ok k = true) ->
  exists a0 a1 a2 a3 a4 m,
    let r := mkQueryResult (Vptr a1) (Vptr a2) (Vptr a3) (Vptr a4)
               (Z.of_nat (length (data res))) (Z.of_nat (length (fields res))) in
    let cells_n := (length (data res) * length (fields res))%nat in
    let cols_n := length (fields res) in
    execute_mysql_query alloc_ok conn m0 =
      (named <- for_until (seqZ 0 (Z.of_nat (length (fields res))))
                  (fill_column alloc_ok (Vptr a0) r res) ;;
       if named : bool
       then fetched <- fetch_rows alloc_ok (Vptr a0) r (data res) 0 ;;
            if fetched : bool then ret (Vptr a0) else ret Vnull
       else ret Vnull)%cmd m /\
    laid_out m a0 r (arrays_with a1 a2 a3 a4 cells_n cols_n [] [] [] []) /\
    grown m0 m (owned a0 (arrays_with a1 a2 a3 a4 cells_n cols_n [] [] [] [])) /\
    allocs m = (allocs m0 + 5)%nat.
Proof.
  intros Hinit Hconnect Hquery Hres Hrows Hcols Hcells Hok.
  set (R := length (data res)) in *. set (C := length (fields res)) in *.
  set (r0 := Bstruct uninitialised).
  set (grid := Bptrs (replicate (R * C) Vundef)).
  set (column := Bptrs (replicate C Vundef)).
  destruct (alloc_fresh alloc_ok r0 m0 m0 [] (grown_nothing m0))
    as (a0 & Halloc0 & _ & Hnew0 & Hgrown0); [apply Hok; lia |].
  set (m1 := mkMem (<[a0 := r0]> (heap m0)) (S (allocs m0))) in *.
  destruct (alloc_fresh alloc_ok grid m0 m1 _ Hgrown0)
    as (a1 & Halloc1 & Hout1 & Hnew1 & Hgrown1); [apply Hok; simpl; lia |].
  set (m2 := mkMem (<[a1 := grid]> (heap m1)) (S (allocs m1))) in *.
  destruct (alloc_fresh alloc_ok column m0 m2 _ Hgrown1)
    as (a2 & Halloc2 & Hout2 & Hnew2 & Hgrown2); [apply Hok; simpl; lia |].
  set (m3 := mkMem (<[a2 := column]> (heap m2)) (S (allocs m2))) in *.
  destruct (alloc_fresh alloc_ok column m0 m3 _ Hgrown2)
    as (a3 & Halloc3 & Hout3 & Hnew3 & Hgrown3); [apply Hok; simpl; lia |].
  set (m4 := mkMem (<[a3 := column]> (heap m3)) (S (allocs m3))) in *.
  destruct (alloc_fresh alloc_ok column m0 m4 _ Hgrown3)
    as (a4 & Halloc4 & Hout4 & Hnew4 & Hgrown4); [apply Hok; simpl; lia |].
  set (m5 := mkMem (<[a4 := column]> (heap m4)) (S (allocs m4))) in *.
  set (r := mkQueryResult (Vptr a1) (Vptr a2) (Vptr a3) (Vptr a4)
              (Z.of_nat R) (Z.of_nat C)).
  set (m6 := mkMem (<[a0 := Bstruct r]> (heap m5)) (allocs m5)).
  cbn [app] in *.
  rewrite !not_elem_of_cons in Hout1.
  rewrite !not_elem_of_cons in Hout2.
  rewrite !not_elem_of_cons in Hout3.
  rewrite !not_elem_of_cons in Hout4.
  destruct Hout1 as (H10 & _).
  destruct Hout2 as (H20 & H21 & _).
  destruct Hout3 as (H30 & H31 & H32 & _).
  destruct Hout4 as (H40 & H41 & H42 & H43 & _).
  exists a0, a1, a2, a3, a4, m6. cbv zeta. fold r. split_and!.
  - unfold execute_mysql_query. rewrite Hinit, Hconnect, Hquery, Hres. cbn [negb].
    cbv zeta. fold R C.
    rewrite (int_wrap_id (Z.of_nat R)) by lia.
    rewrite (int_wrap_id (Z.of_nat C)) by lia.
    rewrite (int_wrap_id (Z.of_nat R * Z.of_nat C)) by lia.
    rewrite !size_wrap_id by (unfold sizeof_ptr; lia).
    unfold malloc_ptrs, sizeof_ptr. rewrite !Z.div_mul by lia.
    rewrite <- Nat2Z.inj_mul, !Nat2Z.id.
    rewrite (bind_ok _ _ _ _ _ Halloc0). cbn [is_null].
    rewrite (bind_ok _ _ _ _ _ Halloc1).
    rewrite (bind_ok _ _ _ _ _ Halloc2).
    rewrite (bind_ok _ _ _ _ _ Halloc3).
    rewrite (bind_ok _ _ _ _ _ Halloc4).
    assert (store_struct (Vptr a0) r m5 = Ok (tt, m6)) as Hstore.
    { unfold store_struct. cbn [heap m5 m4 m3 m2 m1].
      rewrite !lookup_insert_ne by congruence. by rewrite lookup_insert_eq. }
    etrans; [apply (bind_ok _ _ _ _ _ Hstore) |]. reflexivity.
  - unfold laid_out, arrays_with. cbn [heap m6 m5 m4 m3 m2 m1]. split_and!.
    + by rewrite lookup_insert_eq.
    + reflexivity.
    + repeat (apply Forall_cons; split); try apply Forall_nil_2;
        unfold array_block; cbn [stored slots_n array_at fmap list_fmap length app];
        rewrite Nat.sub_0_r; (split; [| lia]);
        rewrite !lookup_insert_ne by congruence; by rewrite lookup_insert_eq.
    + apply Forall_nil_2.
    + unfold owned, strings_of. cbn [fmap list_fmap array_at stored concat app].
      repeat (apply NoDup_cons; split); try apply NoDup_nil_2;
        rewrite ?not_elem_of_cons; repeat split; try congruence; apply not_elem_of_nil.
  - destruct Hgrown4 as (Hsub & Hdom & Hfresh). unfold grown. cbn [heap m6]. split_and!.
    + apply insert_subseteq_r; [done | done].
    + rewrite dom_insert_L, Hdom. apply set_eq. intros k.
      rewrite !elem_of_union, elem_of_singleton, !elem_of_list_to_set.
      unfold owned, strings_of, arrays_with.
      cbn [fmap list_fmap array_at stored concat app].
      rewrite !elem_of_cons. tauto.
    + exact Hfresh.
  - cbn [allocs m6 m5 m4 m3 m2 m1]. lia.
Qed.

(** The construction when the server answers and every allocation call
    finds memory: the prelude allocates the structure and the four arrays,
    the column loop 3 strings per column, the row loop one string per
    cell. *)
Lemma execute_mysql_query_builds (alloc_ok : nat -> bool) (conn : MYSQL)
    (res : MYSQL_RES) (m0 : mem) :
  mysql_init conn = true ->
  mysql_real_connect conn = true ->
  mysql_query conn = true ->
  mysql_store_result conn = Some res ->
  Forall (fun row => length row = length (fields res)) (data res) ->
  Z.of_nat (length (data res)) < 2 ^ 31 ->
  Z.of_nat (length (fields res)) < 2 ^ 31 ->
  Z.of_nat (length (data res)) * Z.of_nat (length (fields res)) < 2 ^ 31 ->
  (forall k, (allocs m0 <= k < allocs m0 + 5 + 3 * length (fields res)
                               + length (data res) * length (fields res))%nat ->
             alloc_ok k = true) ->
  exists a0 r arrays m,
    execute_mysql_query alloc_ok conn m0 = Ok (Vptr a0, m) /\
    complete m (Vptr a0) r a0 arrays /\
    rows_count r = Z.of_nat (length (data res)) /\
    cols_count r = Z.of_nat (length (fields res)) /\
    grown m0 m (owned a0 arrays) /\
    allocs m = (allocs m0 + 5 + 3 * length (fields res)
                + length (data res) * length (fields res))%nat.
Proof.
  intros Hinit Hconnect Hquery Hres Hwide Hrows Hcols Hcells Hok.
  destruct (prelude_built alloc_ok conn res m0)
    as (a0 & a1 & a2 & a3 & a4 & m6 & Hrun & Hlaid & Hgrown & Hallocs6); try done.
  { intros k Hk. apply Hok. unfold MYSQL_ROW in *. nia. }
  cbv zeta in Hrun, Hlaid, Hgrown.
  set (R := length (data res)) in *. set (C := length (fields res)) in *.
  set (r := mkQueryResult (Vptr a1) (Vptr a2) (Vptr a3) (Vptr a4)
              (Z.of_nat R) (Z.of_nat C)) in *.
  destruct (columns_stored alloc_ok m0 a0 a1 a2 a3 a4 r (R * C) C res (fields res) []
              m6 [] [] [] [])
    as (hps & tps & qps & m7 & Hnamed & Hallocs7 & Hh & Ht & Hq & Hlaid7 & Hgrown7);
    try done.
  { intros k Hk. apply Hok. fold C in Hk. subst R C. unfold MYSQL_ROW in *. nia. }
  destruct (rows_stored alloc_ok m0 a0 a1 a2 a3 a4 r (R * C) C hps tps qps (data res) 0
              m7 [])
    as (cps & m8 & Hfetched & Hallocs8 & Hc & Hlaid8 & Hgrown8); try done.
  { eapply Forall_impl; [exact Hwide |]. intros row Hrow. cbn [r cols_count].
    by rewrite Hrow. }
  { cbn [length]. rewrite (concat_uniform_length _ C) by done. exact (Nat.le_refl _). }
  { lia. }
  { intros k Hk. apply Hok. rewrite Hallocs7, Hallocs6 in Hk.
    rewrite (concat_uniform_length _ C) in Hk by done.
    clear -Hk. subst R C. unfold MYSQL_ROW in *. lia. }
  rewrite (concat_uniform_length _ C) in Hallocs8, Hc by done. fold R in Hallocs8, Hc.
  exists a0, r, (arrays_with a1 a2 a3 a4 (R * C) C cps hps tps qps), m8.
  split_and!; try done.
  - rewrite Hrun, (bind_ok _ _ _ _ _ Hnamed). by rewrite (bind_ok _ _ _ _ _ Hfetched).
  - split_and!; try done.
    + unfold arrays_with. by repeat (apply Forall_cons; split).
    + unfold arrays_with. cbn [fmap list_fmap slots_n r rows_count cols_count].
      rewrite int_wrap_id by (clear -Hcells; lia). by rewrite Nat2Z.inj_mul.
  - rewrite Hallocs8, Hallocs7, Hallocs6.
    clear. subst R C. unfold MYSQL_ROW. lia.
Qed.

(** ** The life of a result set *)

(** What is left after releasing what was added is what there was before. *)
Lemma grown_without (m0 m m' : mem) (own : list nat) :
  grown m0 m own -> without own m m' -> heap m' = heap m0.
Proof.
  intros (Hsub & Hdom & Hfresh) [_ Hgone]. apply map_eq. intros k. rewrite Hgone.
  destruct (decide (k ∈ own)) as [Hin | Hout].
  - rewrite Forall_forall in Hfresh. symmetry. by apply Hfresh.
  - destruct (heap m0 !! k) as [blk |] eqn:Hk.
    + by apply (lookup_weaken _ _ _ _ Hk).
    + apply not_elem_of_dom. rewrite Hdom, elem_of_union, elem_of_list_to_set.
      intros [Hold | Hnew]; [| done]. by apply not_elem_of_dom in Hk.
Qed.

(** X10: when the server answers with rows as wide as the field list, the counts
    fit an int, and each of the 5 + 3 * columns + rows * columns allocation
    calls of the construction finds memory, execute_mysql_query returns a
    non-NULL result set after exactly that many allocation calls, and every
    block allocated before is still there, unchanged. *)
Theorem construction_succeeds (alloc_ok : nat -> bool) (conn : MYSQL)
    (res : MYSQL_RES) (m0 : mem) :
  mysql_init conn = true ->
  mysql_real_connect conn = true ->
  mysql_query conn = true ->
  mysql_store_result conn = Some res ->
  Forall (fun row => length row = length (fields res)) (data res) ->
  Z.of_nat (length (data res)) < 2 ^ 31 ->
  Z.of_nat (length (fields res)) < 2 ^ 31 ->
  Z.of_nat (length (data res)) * Z.of_nat (length (fields res)) < 2 ^ 31 ->
  (forall k, (allocs m0 <= k < allocs m0 + 5 + 3 * length (fields res)
                               + length (data res) * length (fields res))%nat ->
             alloc_ok k = true) ->
  exists result m,
    execute_mysql_query alloc_ok conn m0 = Ok (result, m) /\
    result <> Vnull /\
    allocs m = (allocs m0 + 5 + 3 * length (fields res)
                + length (data res) * length (fields res))%nat /\
    heap m0 ⊆ heap m.
Proof.
  intros Hinit Hconnect Hquery Hres Hwide Hrows Hcols Hcells Hok.
  destruct (execute_mysql_query_builds alloc_ok conn res m0)
    as (a0 & r & arrays & m & Hrun & _ & _ & _ & (Hsub & _) & Hallocs); try done.
  by exists (Vptr a0), m.
Qed.

Lemma construction_succeeds_witness :
  exists result m,
    execute_mysql_query always (answering two_by_two) empty_mem = Ok (result, m) /\
    result <> Vnull /\
    allocs m = 15%nat /\
    heap empty_mem ⊆ heap m.
Proof.
  apply (construction_succeeds always (answering two_by_two) two_by_two empty_mem);
    try reflexivity.
  repeat constructor.
Defined.

(** X15: teardown of a complete result set returns without a fault, frees every
    block the result set owns exactly once (the cell strings, the headers
    and type names, the four arrays, the structure), and leaves every other
    block and the allocation counter as they were. *)
Theorem teardown_releases_result (m : mem) (result : val) (r : QueryResult)
    (a0 : nat) (arrays : list array_layout) :
  complete m result r a0 arrays ->
  exists m',
    free_query_result result m = Ok (tt, m') /\
    allocs m' = allocs m /\
    (forall k, k ∈ owned a0 arrays -> heap m' !! k = None) /\
    (forall k, k ∉ owned a0 arrays -> heap m' !! k = heap m !! k).
Proof.
  intros Hcomplete.
  destruct (free_query_result_releases _ _ _ _ _ Hcomplete) as (m' & Hfree & Hallocs & Hgone).
  exists m'. split_and!; [done | done | |].
  - intros k Hk. by rewrite Hgone, decide_True.
  - intros k Hk. by rewrite Hgone, decide_False.
Qed.

Lemma teardown_releases_result_witness :
  exists m',
    free_query_result (Vptr 0) one_cell = Ok (tt, m') /\
    allocs m' = allocs one_cell /\
    (forall k, k ∈ owned 0 one_cell_arrays -> heap m' !! k = None) /\
    (forall k, k ∉ owned 0 one_cell_arrays -> heap m' !! k = heap one_cell !! k).
Proof.
  apply (teardown_releases_result one_cell (Vptr 0) one_cell_struct 0 one_cell_arrays).
  unfold complete, laid_out. split_and!; try reflexivity.
  - repeat constructor; vm_compute; lia.
  - repeat constructor; eexists; reflexivity.
  - apply (bool_decide_unpack _). vm_compute. exact I.
  - by repeat constructor.
Defined.

(** X17: construction followed by teardown leaks nothing: after execute_mysql_query
    has built a result set and free_query_result has released it, the heap
    is the heap from before the query. *)
Theorem construction_then_teardown (alloc_ok : nat -> bool) (conn : MYSQL)
    (res : MYSQL_RES) (m0 : mem) :
  mysql_init conn = true ->
  mysql_real_connect conn = true ->
  mysql_query conn = true ->
  mysql_store_result conn = Some res ->
  Forall (fun row => length row = length (fields res)) (data res) ->
  Z.of_nat (length (data res)) < 2 ^ 31 ->
  Z.of_nat (length (fields res)) < 2 ^ 31 ->
  Z.of_nat (length (data res)) * Z.of_nat (length (fields res)) < 2 ^ 31 ->
  (forall k, (allocs m0 <= k < allocs m0 + 5 + 3 * length (fields res)
                               + length (data res) * length (fields res))%nat ->
             alloc_ok k = true) ->
  exists m',
    (result <- execute_mysql_query alloc_ok conn ;; free_query_result result)%cmd m0
      = Ok (tt, m') /\
    heap m' = heap m0.
Proof.
  intros Hinit Hconnect Hquery Hres Hwide Hrows Hcols Hcells Hok.
  destruct (execute_mysql_query_builds alloc_ok conn res m0)
    as (a0 & r & arrays & m & Hrun & Hcomplete & _ & _ & Hgrown & _); try done.
  destruct (free_query_result_releases _ _ _ _ _ Hcomplete) as (m' & Hfree & Hgone).
  exists m'. split.
  - by rewrite (bind_ok _ _ _ _ _ Hrun).
  - by apply (grown_without m0 m m' (owned a0 arrays)).
Qed.

Lemma construction_then_teardown_witness :
  exists m',
    (result <- execute_mysql_query always (answering two_by_two) ;;
     free_query_result result)%cmd empty_mem = Ok (tt, m') /\
    heap m' = heap empty_mem.
Proof.
  apply (construction_then_teardown always (answering two_by_two) two_by_two empty_mem);
    try reflexivity.
  repeat constructor.
Defined.

(** ** The cell buffer, in general *)

Lemma cell_within_budget_witness :
  exists dest', safe_strncpy "Paris" 9 (replicate 10 None) = Ok (tt, dest') /\
                buffer_string dest' = Ok "Paris".
Proof.
  apply (cell_within_budget "Paris" 9 (replicate 10 None)).
  - vm_compute. discriminate.
  - reflexivity.
  - apply (bool_decide_unpack _). vm_compute. exact I.
Defined.

Lemma safe_strncpy_overrun_witness :
  safe_strncpy fifty 9 (buffer_with "Amsterdam" (Z.to_nat (9 + 1))) = Fault OutOfBounds.
Proof.
  apply (safe_strncpy_overrun fifty "Amsterdam" 9).
  - lia.
  - vm_compute. reflexivity.
  - vm_compute. split; [reflexivity | discriminate].
  - apply (bool_decide_unpack _). vm_compute. exact I.
  - apply (bool_decide_unpack _). vm_compute. exact I.
Defined.

Lemma safe_strncpy_cut_witness :
  safe_strncpy fifty 9 (buffer_with "Paris" (Z.to_nat (9 + 1))) =
  Ok (tt, map Some (take (Z.to_nat (9 - 3)) (list_ascii_of_string fifty)
                    ++ list_ascii_of_string "...") ++ [Some NUL]).
Proof.
  apply (safe_strncpy_cut fifty "Paris" 9).
  - lia.
  - vm_compute. reflexivity.
  - vm_compute. discriminate.
  - apply (bool_decide_unpack _). vm_compute. exact I.
Defined.

(** X28: a budget of less than 3 characters (no displayed header longer than 2)
    and a cell over the budget: [n - 3] wraps to a count of nearly 2^64
    bytes, and strncpy() writes past the end of the buffer. *)
Theorem safe_strncpy_short_budget (src : string) (n : Z) (dest : buffer) :
  0 <= n < 3 ->
  n < strlen src ->
  Z.of_nat (length dest) < 2 ^ 64 - 3 ->
  safe_strncpy src n dest = Fault OutOfBounds.
Proof.
  intros Hn Hlong Hdest. unfold safe_strncpy.
  destruct (Z.gtb_spec (strlen src) n); [| lia].
  unfold bind, strncpy, size_wrap.
  replace ((n - 3) mod 2 ^ 64) with (2 ^ 64 + (n - 3)).
  - destruct (Z.ltb_spec (Z.of_nat (length dest)) (2 ^ 64 + (n - 3))); [done | lia].
  - apply (Z.mod_unique _ _ (-1)); lia.
Qed.

Lemma safe_strncpy_short_budget_witness :
  safe_strncpy "1234" 2 (replicate 3 None) = Fault OutOfBounds.
Proof.
  apply (safe_strncpy_short_budget "1234" 2 (replicate 3 None)).
  - lia.
  - vm_compute. reflexivity.
  - vm_compute. reflexivity.
Defined.

(** ** The program, past the configuration *)

(** What is left of [main] once the configuration is read and the preset is
    found. *)
Lemma main_with_preset (alloc_ok : nat -> bool)
    (fopen : string -> option string) (cJSON_Parse : string -> option cJSON)
    (server : option string -> option string -> option string -> option string ->
              string -> MYSQL)
    (prog preset_name query content : string) (json preset : cJSON) (m : mem) :
  fopen config_path = Some content ->
  alloc_ok (allocs m) = true ->
  cJSON_Parse content = Some json ->
  get_db_preset json preset_name = Some preset ->
  main alloc_ok fopen cJSON_Parse server [prog; preset_name; query] m =
  (host <- lift (valuestring_of (cJSON_GetObjectItem (Some preset) "host")) ;;
   user <- lift (valuestring_of (cJSON_GetObjectItem (Some preset) "username")) ;;
   password <- lift (valuestring_of (cJSON_GetObjectItem (Some preset) "password")) ;;
   database <- lift (valuestring_of (cJSON_GetObjectItem (Some preset) "database")) ;;
   result <- execute_mysql_query alloc_ok
               (server host user password database query) ;;
   (if negb (is_null result)
    then (fun m => lift (print_query_result m result) m) ;;
         free_query_result result
    else ret tt) ;;
   free (Vptr (fresh (dom (heap m)))) ;;
   ret EXIT_SUCCESS)%cmd
    (mkMem (<[fresh (dom (heap m)) := Bstr content]> (heap m)) (S (allocs m))).
Proof.
  intros Hfile Hok Hparse Hpreset.
  unfold main, read_file, alloc.
  change (negb (Z.of_nat (length [prog; preset_name; query]) =? 3)) with false.
  cbv iota.
  change (index [prog; preset_name; query] 1) with (Ok preset_name).
  change (index [prog; preset_name; query] 2) with (Ok query).
  unfold bind at 1. cbn [lift]. unfold bind at 1. cbn [lift].
  unfold bind at 1. rewrite Hfile, Hok. cbn [is_null].
  unfold bind at 1. unfold peek_str, obind, deref. cbn [heap lift].
  rewrite lookup_insert_eq. cbn [lift]. by rewrite Hparse, Hpreset.
Qed.

(** X4: [main] reads the four keys of the preset without checking that they are
    there: a preset that lacks [host], [username], [password] or [database]
    makes it dereference NULL, before any query is sent. *)
Theorem main_preset_incomplete (alloc_ok : nat -> bool)
    (fopen : string -> option string) (cJSON_Parse : string -> option cJSON)
    (server : option string -> option string -> option string -> option string ->
              string -> MYSQL)
    (prog preset_name query content : string) (json preset : cJSON) (m : mem) :
  fopen config_path = Some content ->
  alloc_ok (allocs m) = true ->
  cJSON_Parse content = Some json ->
  get_db_preset json preset_name = Some preset ->
  cJSON_GetObjectItem (Some preset) "host" = None \/
  cJSON_GetObjectItem (Some preset) "username" = None \/
  cJSON_GetObjectItem (Some preset) "password" = None \/
  cJSON_GetObjectItem (Some preset) "database" = None ->
  main alloc_ok fopen cJSON_Parse server [prog; preset_name; query] m = Fault NullDeref.
Proof.
  intros Hfile Hok Hparse Hpreset Hkeys.
  rewrite (main_with_preset _ _ _ _ _ _ _ content json preset) by done.
  set (host := cJSON_GetObjectItem (Some preset) "host") in *.
  set (user := cJSON_GetObjectItem (Some preset) "username") in *.
  set (password := cJSON_GetObjectItem (Some preset) "password") in *.
  set (database := cJSON_GetObjectItem (Some preset) "database") in *.
  clearbody host user password database. unfold bind.
  destruct host as [[] |], user as [[] |], password as [[] |], database as [[] |];
    try reflexivity; destruct Hkeys as [? | [? | [? | ?]]]; congruence.
Qed.

Lemma main_preset_incomplete_witness :
  main always one_file hostless_parser unreachable_server
       ["rgwml_cli"; "prod"; "SELECT 1"] empty_mem = Fault NullDeref.
Proof.
  apply (main_preset_incomplete always one_file hostless_parser unreachable_server
           "rgwml_cli" "prod" "SELECT 1" config_text hostless_tree
           (cJSON_Object [("name", cJSON_String "prod");
                          ("username", cJSON_String "reader");
                          ("password", cJSON_String "secret");
                          ("database", cJSON_String "sales")]));
    try reflexivity.
  left. reflexivity.
Defined.

(** X5: a run that goes well ends with the heap it started from: when the
    configuration is read, the preset has its four keys, the server answers,
    every allocation call finds memory and printing does not crash, [main]
    exits with EXIT_SUCCESS after releasing the result set and the
    configuration text. *)
Theorem main_releases_everything (alloc_ok : nat -> bool)
    (fopen : string -> option string) (cJSON_Parse : string -> option cJSON)
    (server : option string -> option string -> option string -> option string ->
              string -> MYSQL)
    (prog preset_name query content : string) (json preset : cJSON)
    (host user password database : option string) (res : MYSQL_RES) (m : mem) :
  fopen config_path = Some content ->
  cJSON_Parse content = Some json ->
  get_db_preset json preset_name = Some preset ->
  valuestring_of (cJSON_GetObjectItem (Some preset) "host") = Ok host ->
  valuestring_of (cJSON_GetObjectItem (Some preset) "username") = Ok user ->
  valuestring_of (cJSON_GetObjectItem (Some preset) "password") = Ok password ->
  valuestring_of (cJSON_GetObjectItem (Some preset) "database") = Ok database ->
  mysql_init (server host user password database query) = true ->
  mysql_real_connect (server host user password database query) = true ->
  mysql_query (server host user password database query) = true ->
  mysql_store_result (server host user password database query) = Some res ->
  Forall (fun row => length row = length (fields res)) (data res) ->
  Z.of_nat (length (data res)) < 2 ^ 31 ->
  Z.of_nat (length (fields res)) < 2 ^ 31 ->
  Z.of_nat (length (data res)) * Z.of_nat (length (fields res)) < 2 ^ 31 ->
  (forall k, (allocs m <= k < allocs m + 6 + 3 * length (fields res)
                              + length (data res) * length (fields res))%nat ->
             alloc_ok k = true) ->
  (forall result m1,
     execute_mysql_query alloc_ok (server host user password database query)
       (mkMem (<[fresh (dom (heap m)) := Bstr content]> (heap m)) (S (allocs m)))
     = Ok (result, m1) ->
     exists shown, print_query_result m1 result = Ok shown) ->
  exists m',
    main alloc_ok fopen cJSON_Parse server [prog; preset_name; query] m
      = Ok (EXIT_SUCCESS, m') /\
    heap m' = heap m.
Proof.
  intros Hfile Hparse Hpreset Hhost Huser Hpassword Hdatabase Hinit Hconnect Hquery
    Hres Hwide Hrows Hcols Hcells Hok Hprint.
  rewrite (main_with_preset _ _ _ _ _ _ _ content json preset); try done.
  2:{ apply Hok. lia. }
  rewrite Hhost, Huser, Hpassword, Hdatabase.
  set (config := fresh (dom (heap m))) in *.
  assert (heap m !! config = None) as Hnew by (apply not_elem_of_dom, is_fresh).
  set (m1 := mkMem (<[config := Bstr content]> (heap m)) (S (allocs m))) in *.
  unfold bind at 1. cbn [lift]. unfold bind at 1. cbn [lift].
  unfold bind at 1. cbn [lift]. unfold bind at 1. cbn [lift].
  destruct (execute_mysql_query_builds alloc_ok _ res m1 Hinit Hconnect Hquery Hres Hwide
              Hrows Hcols Hcells)
    as (a0 & r & arrays & m2 & Hrun & Hcomplete & _ & _ & Hgrown & _).
  { intros k Hk. apply Hok. cbn [allocs m1] in Hk. lia. }
  destruct (Hprint _ _ Hrun) as [shown Hshown].
  destruct (free_query_result_releases _ _ _ _ _ Hcomplete) as (m3 & Hfree & Hgone).
  pose proof (grown_without _ _ _ _ Hgrown Hgone) as Hback.
  rewrite (bind_ok _ _ _ _ _ Hrun). cbn [is_null negb].
  assert (((fun m => lift (print_query_result m (Vptr a0)) m) ;;
           free_query_result (Vptr a0))%cmd m2 = Ok (tt, m3)) as Hshow.
  { unfold bind at 1. by rewrite Hshown. }
  rewrite (bind_ok _ _ _ _ _ Hshow).
  unfold bind, free, ret. rewrite Hback. cbn [heap m1]. rewrite lookup_insert_eq.
  eexists. split; [reflexivity |]. cbn [heap m1]. by rewrite delete_insert_id.
Qed.

Lemma main_releases_everything_witness :
  exists m',
    main always one_file parser (answering_server two_by_two)
         ["rgwml_cli"; "prod"; "SELECT id, name FROM people"] empty_mem
      = Ok (EXIT_SUCCESS, m') /\
    heap m' = heap empty_mem.
Proof.
  apply (main_releases_everything always one_file parser (answering_server two_by_two)
           "rgwml_cli" "prod" "SELECT id, name FROM people" config_text config_tree
           (cJSON_Object [("name", cJSON_String "prod");
                          ("host", cJSON_String "db.example.org");
                          ("username", cJSON_String "reader");
                          ("password", cJSON_String "secret");
                          ("database", cJSON_String "sales")])
           (Some "db.example.org") (Some "reader") (Some "secret") (Some "sales")
           two_by_two);
    try reflexivity.
  - repeat constructor.
  - intros result m1 Hrun. vm_compute in Hrun. injection Hrun as <- <-.
    eexists. vm_compute. reflexivity.
Defined.

(** ** Rollback over arrays that were never written *)

Lemma bind_fault {S A B : Type} (c : M S A) (k : A -> M S B) (s : S) (e : fault) :
  c s = Fault e -> bind c k s = Fault e.
Proof. intros Hc. unfold bind. by rewrite Hc. Qed.

(** Freeing the first string of such an array is a fault. *)
Lemma first_slot_unwritten (m : mem) (arr : val) :
  unwritten m arr ->
  exists e, (p <- load_slot arr 0 ;; free p)%cmd m = Fault e.
Proof.
  intros [-> | (a & n & -> & Ha)].
  - by exists NullDeref.
  - unfold bind, load_slot, peek_slot, deref, obind. rewrite Ha. simpl.
    destruct n as [| n]; simpl; eauto.
Qed.

Lemma for_each_first_fault {S : Type} (n lo : Z) (body : Z -> M S unit) (s : S)
    (e : fault) :
  0 < n -> body lo s = Fault e -> for_each (seqZ lo n) body s = Fault e.
Proof.
  intros Hn Hbody. rewrite seqZ_cons by done. simpl. by apply bind_fault.
Qed.

(** The teardown of a result with at least one column whose cell array and
    header array were never written does not return. *)
Lemma teardown_of_unwritten (m : mem) (result : val) (r : QueryResult) :
  peek_struct m result = Ok r ->
  0 < cols_count r ->
  unwritten m (rows r) ->
  unwritten m (headers r) ->
  exists e, free_query_result result m = Fault e.
Proof.
  intros Hr Hcols Hrows Hheaders. unfold free_query_result.
  destruct result as [| | a0]; try discriminate. cbn [is_null].
  assert (load_struct (Vptr a0) m = Ok (r, m)) as Hload
    by (unfold load_struct; by rewrite Hr).
  rewrite (bind_ok _ _ _ _ _ Hload).
  destruct (Z.lt_ge_cases 0 (int_wrap (rows_count r * cols_count r))) as [Hcells | Hnone].
  - destruct (first_slot_unwritten m (rows r) Hrows) as [e He]. exists e.
    apply bind_fault. by apply for_each_first_fault.
  - assert (seqZ 0 (int_wrap (rows_count r * cols_count r)) = []) as ->
      by (apply seqZ_nil; lia).
    cbn [for_each]. unfold bind at 1. cbn [ret].
    destruct (first_slot_unwritten m (headers r) Hheaders) as [e He]. exists e.
    apply bind_fault, for_each_first_fault; [done |].
    unfold bind in *. destruct (load_slot (headers r) 0 m) as [[p m1] |]; [| done].
    by rewrite He.
Qed.

(** What an allocation call does, whether it finds memory or not: the
    blocks there are stay as they are, and the block returned is new. *)
Lemma alloc_outcome (alloc_ok : nat -> bool) (b : block) (m : mem) :
  exists v m',
    alloc alloc_ok b m = Ok (v, m') /\
    allocs m' = S (allocs m) /\
    (forall k blk, heap m !! k = Some blk -> heap m' !! k = Some blk) /\
    (v = Vnull /\ alloc_ok (allocs m) = false \/
     exists a, v = Vptr a /\ alloc_ok (allocs m) = true /\
               heap m !! a = None /\ heap m' !! a = Some b).
Proof.
  unfold alloc. destruct (alloc_ok (allocs m)) eqn:Hok.
  - set (a := fresh (dom (heap m))).
    assert (heap m !! a = None) as Ha by (apply not_elem_of_dom, is_fresh).
    eexists _, _. split_and!; [reflexivity | done | |].
    + intros k blk Hk. cbn [heap]. rewrite lookup_insert_ne; [done |].
      intros <-. congruence.
    + right. exists a. cbn [heap]. by rewrite lookup_insert_eq.
  - eexists _, _. split_and!; [reflexivity | done | done |]. by left.
Qed.

Lemma alloc_unwritten (alloc_ok : nat -> bool) (n : nat) (m m' : mem) (v : val) :
  alloc alloc_ok (Bptrs (replicate n Vundef)) m = Ok (v, m') ->
  unwritten m' v.
Proof.
  intros Halloc.
  destruct (alloc_outcome alloc_ok (Bptrs (replicate n Vundef)) m)
    as (v' & m'' & Halloc' & _ & _ & [[-> _] | (a & -> & _ & _ & Ha)]);
    rewrite Halloc in Halloc'; injection Halloc' as -> ->.
  - by left.
  - right. by exists a, n.
Qed.

Lemma unwritten_kept (m m' : mem) (arr : val) :
  (forall k blk, heap m !! k = Some blk -> heap m' !! k = Some blk) ->
  unwritten m arr -> unwritten m' arr.
Proof.
  intros Hkeep [-> | (a & n & -> & Ha)]; [by left |].
  right. exists a, n. split; [done |]. by apply Hkeep.
Qed.

(** X11: when the structure is allocated and one of the four array allocations
    fails, the rollback of execute_mysql_query runs the teardown over arrays
    that were never written: for an answer with at least one column the
    function does not return NULL, it crashes. *)
Theorem array_allocation_failure (alloc_ok : nat -> bool) (conn : MYSQL)
    (res : MYSQL_RES) (m0 : mem) :
  mysql_init conn = true ->
  mysql_real_connect conn = true ->
  mysql_query conn = true ->
  mysql_store_result conn = Some res ->
  0 < Z.of_nat (length (fields res)) < 2 ^ 31 ->
  alloc_ok (allocs m0) = true ->
  alloc_ok (1 + allocs m0)%nat = false \/ alloc_ok (2 + allocs m0)%nat = false \/
  alloc_ok (3 + allocs m0)%nat = false \/ alloc_ok (4 + allocs m0)%nat = false ->
  exists e, execute_mysql_query alloc_ok conn m0 = Fault e.
Proof.
  intros Hinit Hconnect Hquery Hres Hcols Hok Hfails.
  unfold execute_mysql_query. rewrite Hinit, Hconnect, Hquery, Hres. cbn [negb].
  cbv zeta. rewrite (int_wrap_id (Z.of_nat (length (fields res)))) by lia.
  set (R := int_wrap (Z.of_nat (length (data res)))).
  set (C := Z.of_nat (length (fields res))) in *.
  unfold malloc_ptrs.
  set (grid := Bptrs (replicate (Z.to_nat (size_wrap (int_wrap (R * C) * sizeof_ptr)
                                           / sizeof_ptr)) Vundef)).
  set (column := Bptrs (replicate (Z.to_nat (size_wrap (C * sizeof_ptr) / sizeof_ptr))
                          Vundef)).
  destruct (alloc_outcome alloc_ok (Bstruct uninitialised) m0)
    as (v0 & m1 & Halloc0 & Hn1 & Hkeep1 & [[_ Hno] | (a0 & -> & _ & Hnew0 & Ha0)]);
    [congruence |].
  destruct (alloc_outcome alloc_ok grid m1) as (v1 & m2 & Halloc1 & Hn2 & Hkeep2 & Hv1).
  destruct (alloc_outcome alloc_ok column m2) as (v2 & m3 & Halloc2 & Hn3 & Hkeep3 & Hv2).
  destruct (alloc_outcome alloc_ok column m3) as (v3 & m4 & Halloc3 & Hn4 & Hkeep4 & Hv3).
  destruct (alloc_outcome alloc_ok column m4) as (v4 & m5 & Halloc4 & Hn5 & Hkeep5 & Hv4).
  rewrite (bind_ok _ _ _ _ _ Halloc0). cbn [is_null].
  rewrite (bind_ok _ _ _ _ _ Halloc1).
  rewrite (bind_ok _ _ _ _ _ Halloc2).
  rewrite (bind_ok _ _ _ _ _ Halloc3).
  rewrite (bind_ok _ _ _ _ _ Halloc4).
  set (r := mkQueryResult v1 v2 v3 v4 R C).
  set (m6 := mkMem (<[a0 := Bstruct r]> (heap m5)) (allocs m5)).
  assert (store_struct (Vptr a0) r m5 = Ok (tt, m6)) as Hstore.
  { unfold store_struct. by rewrite (Hkeep5 _ _ (Hkeep4 _ _ (Hkeep3 _ _ (Hkeep2 _ _ Ha0)))). }
  rewrite (bind_ok _ _ _ _ _ Hstore).
  assert (is_null v1 || is_null v2 || is_null v3 || is_null v4 = true) as ->.
  { rewrite Hn1 in Hv1. rewrite Hn2, Hn1 in Hv2. rewrite Hn3, Hn2, Hn1 in Hv3.
    rewrite Hn4, Hn3, Hn2, Hn1 in Hv4.
    destruct Hv1 as [[-> _] | (? & -> & Hok1 & _)]; [done |].
    destruct Hv2 as [[-> _] | (? & -> & Hok2 & _)]; [done |].
    destruct Hv3 as [[-> _] | (? & -> & Hok3 & _)]; [done |].
    destruct Hv4 as [[-> _] | (? & -> & Hok4 & _)]; [done |].
    cbn [Nat.add] in Hfails. destruct Hfails as [? | [? | [? | ?]]]; congruence. }
  assert (forall k blk, k <> a0 -> heap m5 !! k = Some blk -> heap m6 !! k = Some blk)
    as Hkeep6 by (intros k blk Hk Hblk; cbn [heap m6]; by rewrite lookup_insert_ne).
  assert (forall arr, unwritten m5 arr -> unwritten m6 arr) as Hstill.
  { intros arr [-> | (a & n & -> & Ha)]; [by left |].
    right. exists a, n. split; [done |]. apply Hkeep6; [| done].
    intros ->. rewrite (Hkeep5 _ _ (Hkeep4 _ _ (Hkeep3 _ _ (Hkeep2 _ _ Ha0)))) in Ha.
    discriminate. }
  destruct (teardown_of_unwritten m6 (Vptr a0) r) as [e He].
  - unfold peek_struct, deref, obind. cbn [heap m6]. by rewrite lookup_insert_eq.
  - cbn [r cols_count]. lia.
  - apply Hstill. cbn [r rows].
    apply (unwritten_kept m2); [| by eapply alloc_unwritten].
    intros k blk Hk. by apply Hkeep5, Hkeep4, Hkeep3.
  - apply Hstill. cbn [r headers].
    apply (unwritten_kept m3); [| by eapply alloc_unwritten].
    intros k blk Hk. by apply Hkeep5, Hkeep4.
  - exists e. by rewrite (bind_fault _ _ _ _ He).
Qed.

Lemma array_allocation_failure_witness :
  exists e, execute_mysql_query (failing 3) (answering two_by_two) empty_mem = Fault e.
Proof.
  apply (array_allocation_failure (failing 3) (answering two_by_two) two_by_two empty_mem);
    try reflexivity.
  - split; reflexivity.
  - right. right. left. reflexivity.
Defined.

(** ** The cell budget *)

Lemma widest_header_spec (m : mem) (r : QueryResult) (columns : list Z) :
  forall (b w : Z),
    widest_header m r columns b = Ok w ->
    b <= w /\
    (forall j h, j ∈ columns -> text_at m (headers r) j = Ok h -> strlen h <= w) /\
    (w = b \/ exists j h, j ∈ columns /\ text_at m (headers r) j = Ok h /\ strlen h = w).
Proof.
  induction columns as [| i columns IH]; intros b w Hw; simpl in Hw.
  - injection Hw as <-. split_and!; [lia | | by left].
    intros j h Hj. by apply elem_of_nil in Hj.
  - unfold obind in Hw. destruct (text_at m (headers r) i) as [h |] eqn:Hh; [| done].
    apply IH in Hw as (Hle & Hall & Hmax).
    destruct (Z.gtb_spec (strlen h) b) as [Hlong | Hshort].
    + split_and!; [lia | |].
      * intros j h' Hj Hh'. apply elem_of_cons in Hj as [-> | Hj]; [| by eapply Hall].
        rewrite Hh in Hh'. injection Hh' as <-. done.
      * right. destruct Hmax as [-> | (j & h' & Hj & Hh' & Hlen)].
        -- exists i, h. split_and!; [apply elem_of_cons; by left | done | done].
        -- exists j, h'. split_and!; [apply elem_of_cons; by right | done | done].
    + split_and!; [done | |].
      * intros j h' Hj Hh'. apply elem_of_cons in Hj as [-> | Hj]; [| by eapply Hall].
        rewrite Hh in Hh'. injection Hh' as <-. lia.
      * destruct Hmax as [-> | (j & h' & Hj & Hh' & Hlen)]; [by left |].
        right. exists j, h'. split_and!; [apply elem_of_cons; by right | done | done].
Qed.

(** X23: the room a cell gets is set by the headers on display, never by the
    cells: the buffer has one byte more than the longest header among the
    columns shown (2 bytes when every such header is empty), so a cell may
    take as many characters as that header and no more. *)
Theorem buffer_size_spec (m : mem) (r : QueryResult) (b : Z) :
  buffer_size m r = Ok b ->
  2 <= b /\
  (forall j h, j ∈ head_columns (cols_count r) ++ tail_columns (cols_count r) ->
               text_at m (headers r) j = Ok h -> strlen h <= b - 1) /\
  (b = 2 \/
   exists j h, j ∈ head_columns (cols_count r) ++ tail_columns (cols_count r) /\
               text_at m (headers r) j = Ok h /\ strlen h = b - 1).
Proof.
  unfold buffer_size, obind. intros Hb.
  destruct (widest_header m r (head_columns (cols_count r)) 1) as [w1 |] eqn:Hw1; [| done].
  destruct (widest_header m r (tail_columns (cols_count r)) w1) as [w2 |] eqn:Hw2; [| done].
  injection Hb as <-.
  apply widest_header_spec in Hw1 as (Hle1 & Hall1 & Hmax1).
  apply widest_header_spec in Hw2 as (Hle2 & Hall2 & Hmax2).
  replace (w2 + 1 - 1) with w2 by lia.
  split_and!; [lia | |].
  - intros j h Hj Hh. apply elem_of_app in Hj as [Hj | Hj]; [| by eapply Hall2].
    specialize (Hall1 j h Hj Hh). lia.
  - destruct Hmax2 as [-> | (j & h & Hj & Hh & Hlen)].
    + destruct Hmax1 as [-> | (j & h & Hj & Hh & Hlen)]; [by left |].
      right. exists j, h. split_and!; [apply elem_of_app; by left | done | done].
    + right. exists j, h. split_and!; [apply elem_of_app; by right | done | done].
Qed.

Lemma buffer_size_spec_witness :
  2 <= 5 /\
  (forall j h, j ∈ head_columns (cols_count two_by_two_struct)
                   ++ tail_columns (cols_count two_by_two_struct) ->
               text_at two_by_two_mem (headers two_by_two_struct) j = Ok h ->
               strlen h <= 5 - 1) /\
  (5 = 2 \/
   exists j h, j ∈ head_columns (cols_count two_by_two_struct)
                   ++ tail_columns (cols_count two_by_two_struct) /\
               text_at two_by_two_mem (headers two_by_two_struct) j = Ok h /\
               strlen h = 5 - 1).
Proof.
  apply (buffer_size_spec two_by_two_mem two_by_two_struct 5). by vm_compute.
Defined.

(** ** Printing cells that fit *)

Lemma length_buffer_with (s : string) (size : nat) : length (buffer_with s size) = size.
Proof.
  unfold buffer_with. rewrite length_take, length_app, length_replicate. lia.
Qed.

Lemma table_row_Forall {A : Type} (P : A -> Prop) (cols : Z) (column : Z -> A)
    (marker : A) :
  (forall j, 0 <= j < cols -> P (column j)) -> P marker ->
  Forall P (table_row cols column marker).
Proof.
  intros Hcolumn Hmarker. unfold table_row, head_columns, tail_columns.
  rewrite !Forall_app. split_and!.
  - apply Forall_forall. intros a Ha. apply list_elem_of_In, in_map_iff in Ha
      as (j & <- & Hj). apply list_elem_of_In, elem_of_seqZ in Hj. apply Hcolumn. lia.
  - destruct (hidden_columns cols >? 0); by repeat constructor.
  - apply Forall_forall. intros a Ha. apply list_elem_of_In, in_map_iff in Ha
      as (j & <- & Hj). apply list_elem_of_In in Hj.
    destruct (Z.gtb_spec cols 4); [| by apply elem_of_nil in Hj].
    apply elem_of_seqZ in Hj. apply Hcolumn. lia.
Qed.

(** Every call of the table reads inside the result. *)
Lemma table_calls_in_range (rows cols : Z) (calls : list (list ft_arg)) :
  0 <= rows ->
  table_calls rows cols = Some calls ->
  Forall (Forall (in_range rows cols)) calls.
Proof.
  intros Hrows. rewrite table_calls_shape. intros [= <-].
  assert (forall i, 0 <= i < rows -> Forall (in_range rows cols) (data_row cols i))
    as Hdata by (intros i Hi; by apply table_row_Forall).
  assert (forall lo n, 0 <= lo -> lo + n <= rows ->
            Forall (Forall (in_range rows cols)) (data_row cols <$> seqZ lo n)) as Hrange.
  { intros lo n Hlo Hn. apply Forall_fmap, Forall_forall. intros i Hi.
    apply elem_of_seqZ in Hi. apply Hdata. lia. }
  constructor; [by apply table_row_Forall |].
  destruct (Z.gtb_spec rows 10).
  - repeat constructor; try (apply Hdata; lia). by apply table_row_Forall.
  - apply Hrange; lia.
Qed.

(** A loop that collects, under an invariant of the state. *)
Lemma for_collect_invariant {S A B : Type} (P : S -> Prop) (Q : A -> Prop)
    (body : A -> M S B) (f : A -> B) (l : list A) :
  (forall a s, Q a -> P s -> exists s', body a s = Ok (f a, s') /\ P s') ->
  Forall Q l ->
  forall s, P s -> exists s', for_collect l body s = Ok (f <$> l, s') /\ P s'.
Proof.
  intros Hbody. induction 1 as [| a l Ha _ IH]; intros s Hs.
  - by exists s.
  - destruct (Hbody a s Ha Hs) as (s1 & Hrun & Hs1).
    destruct (IH s1 Hs1) as (s2 & Hrest & Hs2).
    exists s2. split; [| done]. cbn [for_collect].
    rewrite (bind_ok _ _ _ _ _ Hrun), (bind_ok _ _ _ _ _ Hrest). done.
Qed.

(** A text that fits, written in the buffer and read back. *)
Lemma buffer_string_with (s : string) (size : nat) :
  (String.length s < size)%nat ->
  NUL ∉ list_ascii_of_string s ->
  buffer_string (buffer_with s size) = Ok s.
Proof.
  intros Hfit Hnul. rewrite buffer_with_fits by done.
  rewrite buffer_string_padded by (done || lia).
  by rewrite string_of_list_ascii_of_string.
Qed.

Section Fitting.

Variable m : mem.
Variable r : QueryResult.
Variable cells : list string.
Variable columns : list (string * string * string).
Variable b : Z.

Hypothesis cells_read :
  forall (k : nat) s, cells !! k = Some s -> text_at m (rows r) (Z.of_nat k) = Ok s.
Hypothesis columns_read :
  forall (j : nat) c, columns !! j = Some c ->
    text_at m (headers r) (Z.of_nat j) = Ok c.1.1 /\
    text_at m (mysql_types r) (Z.of_nat j) = Ok c.1.2 /\
    text_at m (c_types r) (Z.of_nat j) = Ok c.2.
Hypothesis cells_count : rows_count r * cols_count r = Z.of_nat (length cells).
Hypothesis columns_count : cols_count r = Z.of_nat (length columns).
Hypothesis cells_small : Z.of_nat (length cells) < 2 ^ 31.
Hypothesis cells_fit :
  Forall (fun s => strlen s <= b - 1 /\ NUL ∉ list_ascii_of_string s) cells.

(** One call of the table, on a buffer of [b] bytes. *)
Lemma written_fits (a : ft_arg) (dest : buffer) :
  in_range (rows_count r) (cols_count r) a ->
  Z.of_nat (length dest) = b ->
  exists dest',
    written m r b a dest = Ok (shown_text cells columns (cols_count r) a, dest') /\
    Z.of_nat (length dest') = b.
Proof.
  intros Ha Hdest. destruct a as [j | | | i j]; cbn [written shown_text in_range] in *.
  - destruct (lookup_lt_is_Some_2 columns (Z.to_nat j)) as [c Hc]; [lia |].
    destruct (columns_read _ _ Hc) as (Hh & _). rewrite Z2Nat.id in Hh by lia.
    exists dest. rewrite Hc, Hh. done.
  - by exists dest.
  - by exists dest.
  - assert (0 <= i * cols_count r + j < Z.of_nat (length cells)) as Hk by nia.
    destruct (lookup_lt_is_Some_2 cells (Z.to_nat (i * cols_count r + j))) as [s Hs];
      [lia |].
    pose proof (cells_read _ _ Hs) as Hread. rewrite Z2Nat.id in Hread by lia.
    rewrite Forall_lookup in cells_fit. destruct (cells_fit _ _ Hs) as [Hfit Hnul].
    rewrite int_wrap_id by lia. rewrite Hs, Hread. cbn [default].
    exists (buffer_with s (length dest)). split; [| by rewrite length_buffer_with].
    unfold bind at 1. cbn [lift].
    rewrite (bind_ok _ _ _ _ _ (safe_strncpy_fits s (b - 1) dest Hfit ltac:(lia))).
    rewrite buffer_string_with; [done | | done]. unfold strlen in Hfit. lia.
Qed.

(** The whole table. *)
Lemma render_table_fits (calls : list (list ft_arg)) :
  0 <= rows_count r ->
  buffer_size m r = Ok b ->
  table_calls (rows_count r) (cols_count r) = Some calls ->
  render_table m r =
  Ok ((fun row : list ft_arg => shown_text cells columns (cols_count r) <$> row) <$> calls).
Proof.
  intros Hrows Hb Hcalls. unfold render_table. rewrite Hb. cbn [obind]. rewrite Hcalls.
  assert (2 <= b) as Hb2.
  { unfold buffer_size, obind in Hb.
    destruct (widest_header m r (head_columns (cols_count r)) 1) as [w1 |] eqn:Hw1;
      [| done].
    destruct (widest_header m r (tail_columns (cols_count r)) w1) as [w2 |] eqn:Hw2;
      [| done].
    injection Hb as <-.
    apply widest_header_spec in Hw1 as (? & _). apply widest_header_spec in Hw2 as (? & _).
    lia. }
  destruct (for_collect_invariant
              (fun dest : buffer => Z.of_nat (length dest) = b)
              (Forall (in_range (rows_count r) (cols_count r)))
              (fun row => for_collect row (written m r b))
              (fun row : list ft_arg => shown_text cells columns (cols_count r) <$> row)
              calls) with (s := replicate (Z.to_nat b) (None : option ascii))
    as (dest' & -> & _); try done.
  - intros row dest Hrow Hdest.
    apply (for_collect_invariant _ (in_range (rows_count r) (cols_count r))); try done.
    intros a dest0. apply written_fits.
  - by apply table_calls_in_range.
  - rewrite length_replicate. lia.
Qed.

End Fitting.

(** The legend lists the columns, all of them, in order. *)
Lemma legend_columns (m : mem) (r : QueryResult)
    (columns : list (string * string * string)) :
  (forall (j : nat) c, columns !! j = Some c ->
     text_at m (headers r) (Z.of_nat j) = Ok c.1.1 /\
     text_at m (mysql_types r) (Z.of_nat j) = Ok c.1.2 /\
     text_at m (c_types r) (Z.of_nat j) = Ok c.2) ->
  cols_count r = Z.of_nat (length columns) ->
  legend m r = Ok columns.
Proof.
  intros columns_read columns_count. unfold legend. rewrite columns_count.
  assert (forall (todo : list (string * string * string)) (k : nat),
            (forall (i : nat) c, todo !! i = Some c -> columns !! (k + i)%nat = Some c) ->
            for_collect (seqZ (Z.of_nat k) (Z.of_nat (length todo)))
              (fun i => h <- lift (text_at m (headers r) i) ;;
                        t <- lift (text_at m (mysql_types r) i) ;;
                        c <- lift (text_at m (c_types r) i) ;;
                        ret (h, t, c))%cmd tt = Ok (todo, tt)) as Hloop.
  { induction todo as [| c todo IH]; intros k Hk; [done |].
    rewrite seqZ_cons by (simpl; lia). cbn [for_collect].
    pose proof (Hk 0%nat c eq_refl) as Hc. rewrite Nat.add_0_r in Hc.
    destruct (columns_read _ _ Hc) as (Hh & Ht & Hq).
    replace (Z.succ (Z.of_nat k)) with (Z.of_nat (S k)) by lia.
    replace (Z.pred (Z.of_nat (length (c :: todo)))) with (Z.of_nat (length todo))
      by (simpl; lia).
    unfold bind at 1. unfold bind at 1. rewrite Hh. cbn [lift].
    unfold bind at 1. rewrite Ht. cbn [lift]. unfold bind at 1. rewrite Hq. cbn [lift ret].
    assert (forall (i : nat) c', todo !! i = Some c' -> columns !! (S k + i)%nat = Some c')
      as Hrest.
    { intros i c' Hi. replace (S k + i)%nat with (k + S i)%nat by lia. by apply Hk. }
    rewrite (bind_ok _ _ _ _ _ (IH (S k) Hrest)).
    by destruct c as [[h t] q]. }
  pose proof (Hloop columns 0%nat (fun i c Hi => Hi)) as Hall.
  change (Z.of_nat 0) with 0 in Hall. by rewrite Hall.
Qed.


(** X24: printing is safe when the cells fit: for a complete result set in which
    no cell is longer than the longest header on display, print_query_result
    returns, the table shows every displayed cell as the server sent it
    (nothing is cut), and the legend lists every column. *)
Theorem print_within_budget (m : mem) (result : val) (r : QueryResult)
    (cells : list string) (columns : list (string * string * string)) (b : Z) :
  partial m result r (length cells) (length columns) cells columns ->
  0 <= rows_count r ->
  rows_count r * cols_count r = Z.of_nat (length cells) ->
  cols_count r = Z.of_nat (length columns) ->
  Z.of_nat (length cells) < 2 ^ 31 ->
  estimated_footprint (rows_count r) (cols_count r) cells columns < 2 ^ 64 ->
  buffer_size m r = Ok b ->
  Forall (fun s => strlen s <= b - 1 /\ NUL ∉ list_ascii_of_string s) cells ->
  exists calls rep,
    table_calls (rows_count r) (cols_count r) = Some calls /\
    print_query_result m result = Ok (Some rep) /\
    shown rep =
      (fun row : list ft_arg => shown_text cells columns (cols_count r) <$> row)
        <$> calls /\
    column_types rep = columns.
Proof.
  intros Hpartial Hrows Hcells Hcols Hsmall Hsize Hb Hfit.
  pose proof (footprint_estimate m result r cells columns Hpartial Hcells Hcols Hsmall
                Hsize) as Hfootprint.
  destruct Hpartial as (Hstruct & _ & Hgrid & Hheaders & Htypes & Hctypes).
  assert (forall (k : nat) s, cells !! k = Some s ->
                              text_at m (rows r) (Z.of_nat k) = Ok s) as Hread
    by (intros k s Hk; by eapply holds_text_at).
  assert (forall (j : nat) c, columns !! j = Some c ->
            text_at m (headers r) (Z.of_nat j) = Ok c.1.1 /\
            text_at m (mysql_types r) (Z.of_nat j) = Ok c.1.2 /\
            text_at m (c_types r) (Z.of_nat j) = Ok c.2) as Hcolumns.
  { intros j c Hj. split_and!; (eapply holds_text_at; [done |]);
      by rewrite list_lookup_fmap, Hj. }
  eexists _, _. split; [apply table_calls_shape |].
  unfold print_query_result.
  destruct result as [| | a0]; try discriminate. cbn [is_null]. rewrite Hstruct.
  cbn [obind].
  rewrite (render_table_fits m r cells columns b Hread Hcolumns Hcells Hcols Hsmall Hfit
             _ Hrows Hb (table_calls_shape _ _)).
  cbn [obind]. rewrite Hfootprint. cbn [obind].
  rewrite (legend_columns m r columns Hcolumns Hcols). cbn [obind].
  split_and!; reflexivity.
Qed.

Lemma print_within_budget_witness :
  exists calls rep,
    table_calls 2 2 = Some calls /\
    print_query_result fitting_mem (Vptr 0) = Ok (Some rep) /\
    shown rep =
      (fun row : list ft_arg =>
         shown_text ["1"; "Bob"; "2"; "NULL"]
           [("id", "INT", "int32_t"); ("name", "VARCHAR", "char*")] 2 <$> row)
        <$> calls /\
    column_types rep = [("id", "INT", "int32_t"); ("name", "VARCHAR", "char*")].
Proof.
  destruct (execute_mysql_query_complete always (answering fitting) fitting
              empty_mem fitting_mem (Vptr 0))
    as (r & _ & _ & Hpartial).
  - reflexivity.
  - repeat constructor.
  - by vm_compute.
  - by vm_compute.
  - by vm_compute.
  - by vm_compute.
  - discriminate.
  - assert (r = two_by_two_struct) as ->.
    { destruct Hpartial as (Hstruct & _).
      assert (peek_struct fitting_mem (Vptr 0) = Ok two_by_two_struct) as Hread
        by (by vm_compute).
      congruence. }
    apply (print_within_budget fitting_mem (Vptr 0) two_by_two_struct
             ["1"; "Bob"; "2"; "NULL"]
             [("id", "INT", "int32_t"); ("name", "VARCHAR", "char*")] 5).
    + exact Hpartial.
    + by vm_compute.
    + reflexivity.
    + reflexivity.
    + by vm_compute.
    + by vm_compute.
    + by vm_compute.
    + repeat constructor; try (by vm_compute);
        apply (bool_decide_unpack _); by vm_compute.
Defined.

(** ** Teardown of a grid with a slot that was never written *)

Lemma free_cell_keeps (a : nat) (slots : list val) (i : Z) (m m' : mem) :
  grid_or_gone a slots m ->
  (p <- load_slot (Vptr a) i ;; free p)%cmd m = Ok (tt, m') ->
  grid_or_gone a slots m'.
Proof.
  intros Hgrid Hbody. apply bind_inv in Hbody as (p & m1 & Hload & Hfree).
  unfold load_slot in Hload. apply lift_inv in Hload as [_ ->].
  destruct p as [| | x]; simpl in Hfree; [by injection Hfree as <- | done |].
  destruct (heap m !! x); [| done]. injection Hfree as <-.
  unfold grid_or_gone. cbn [heap]. destruct (decide (x = a)) as [-> | Hne].
  - left. by rewrite lookup_delete_eq.
  - by rewrite lookup_delete_ne.
Qed.

Lemma free_unwritten_cell (a : nat) (slots : list val) (k : Z) (m : mem) :
  grid_or_gone a slots m ->
  0 <= k -> slots !! Z.to_nat k = Some Vundef ->
  exists e, (p <- load_slot (Vptr a) k ;; free p)%cmd m = Fault e.
Proof.
  intros [Hgone | Hgrid] Hk Hslot;
    unfold bind, load_slot, peek_slot, deref, obind.
  - rewrite Hgone. by eexists.
  - rewrite Hgrid. destruct (Z.ltb_spec k 0); [lia |]. rewrite Hslot. by eexists.
Qed.

Lemma cells_loop_faults (a : nat) (slots : list val) (k : Z) (range : list Z) :
  0 <= k -> slots !! Z.to_nat k = Some Vundef -> k ∈ range ->
  forall m, grid_or_gone a slots m ->
    exists e, for_each range (fun i => p <- load_slot (Vptr a) i ;; free p)%cmd m
              = Fault e.
Proof.
  intros Hk Hslot. induction range as [| i range IH]; intros Hin m Hgrid.
  - by apply elem_of_nil in Hin.
  - cbn [for_each]. unfold bind at 1.
    destruct ((p <- load_slot (Vptr a) i ;; free p)%cmd m) as [[[] m'] | e] eqn:Hbody;
      [| by eexists].
    apply elem_of_cons in Hin as [<- | Hin].
    + destruct (free_unwritten_cell a slots k m Hgrid Hk Hslot) as [e He]. congruence.
    + apply IH; [done |]. by eapply free_cell_keeps.
Qed.

(** X16: free_query_result is safe only on a grid whose every slot was written:
    if one of the slots the counts cover still holds what malloc() left
    there, the teardown does not return. *)
Theorem teardown_unwritten_cell (m : mem) (result : val) (r : QueryResult) (a : nat)
    (slots : list val) (k : Z) :
  peek_struct m result = Ok r ->
  rows r = Vptr a ->
  heap m !! a = Some (Bptrs slots) ->
  0 <= k < int_wrap (rows_count r * cols_count r) ->
  slots !! Z.to_nat k = Some Vundef ->
  exists e, free_query_result result m = Fault e.
Proof.
  intros Hr Hrows Hgrid Hk Hslot. unfold free_query_result.
  destruct result as [| | a0]; try discriminate. cbn [is_null].
  assert (load_struct (Vptr a0) m = Ok (r, m)) as Hload
    by (unfold load_struct; by rewrite Hr).
  rewrite (bind_ok _ _ _ _ _ Hload), Hrows.
  destruct (cells_loop_faults a slots k (seqZ 0 (int_wrap (rows_count r * cols_count r))))
    with (m := m) as [e He]; [lia | done | apply elem_of_seqZ; lia | by right |].
  exists e. by apply bind_fault.
Qed.

Lemma teardown_unwritten_cell_witness :
  exists e, free_query_result (Vptr 0) half_written = Fault e.
Proof.
  apply (teardown_unwritten_cell half_written (Vptr 0)
           (mkQueryResult (Vptr 1) (Vptr 2) (Vptr 3) (Vptr 4) 1 2) 1
           [Vptr 11; Vundef] 1); try reflexivity.
  by vm_compute.
Defined.

(** ** NULL cells *)

Lemma for_until_ext {S : Type} (range : list Z) (body body' : Z -> M S bool) (s : S) :
  (forall i s', body i s' = body' i s') ->
  for_until range body s = for_until range body' s.
Proof.
  intros Hbody. revert s. induction range as [| i range IH]; intros s; [done |].
  cbn [for_until]. unfold bind. rewrite Hbody.
  destruct (body' i s) as [[[] s'] |]; by rewrite ?IH.
Qed.

Lemma fill_cell_spelled_out (alloc_ok : nat -> bool) (result : val) (r : QueryResult)
    (row : MYSQL_ROW) (row_index i : Z) (m : mem) :
  fill_cell alloc_ok result r (map (fun v => Some (cell_text v)) row) row_index i m =
  fill_cell alloc_ok result r row row_index i m.
Proof.
  unfold fill_cell, bind, index. destruct (i <? 0); [done |].
  change (map (fun v => Some (cell_text v)) row)
    with ((fun v => Some (cell_text v)) <$> row).
  rewrite list_lookup_fmap. unfold MYSQL_ROW in *.
  by destruct (row !! Z.to_nat i) as [[s |] |].
Qed.

Lemma fetch_rows_spelled_out (alloc_ok : nat -> bool) (result : val) (r : QueryResult)
    (cursor : list MYSQL_ROW) :
  forall (row_index : Z) (m : mem),
    fetch_rows alloc_ok result r (map (map (fun v => Some (cell_text v))) cursor)
      row_index m =
    fetch_rows alloc_ok result r cursor row_index m.
Proof.
  induction cursor as [| row cursor IH]; intros row_index m; [done |].
  cbn [map fetch_rows]. unfold bind.
  rewrite (for_until_ext _ _ (fill_cell alloc_ok result r row row_index))
    by (intros; apply fill_cell_spelled_out).
  destruct (for_until _ _ m) as [[[] m'] |]; by rewrite ?IH.
Qed.

(** X14: the result set cannot tell a NULL cell from a cell that holds the text
    NULL: the two answers are built into the same memory, byte for byte. *)
Theorem null_cells_spelled_out (alloc_ok : nat -> bool) (res : MYSQL_RES) (m : mem) :
  execute_mysql_query alloc_ok (answering (spelled_out res)) m =
  execute_mysql_query alloc_ok (answering res) m.
Proof.
  unfold execute_mysql_query, answering, spelled_out.
  cbn [mysql_init mysql_real_connect mysql_query mysql_store_result negb fields data].
  rewrite List.length_map. unfold bind.
  repeat match goal with
         | |- match for_until ?l ?b ?s with _ => _ end
              = match for_until ?l ?b' ?s with _ => _ end =>
             rewrite (for_until_ext l b b' s) by reflexivity
         | |- match fetch_rows _ _ _ _ _ _ with _ => _ end = _ =>
             rewrite fetch_rows_spelled_out
         | |- match ?c with _ => _ end = match ?d with _ => _ end =>
             change d with c; destruct c as [[? ?] |]; try reflexivity
         | |- (if ?c then _ else _) _ = (if ?c then _ else _) _ =>
             destruct c; try reflexivity
         | |- (if ?c then _ else _) = (if ?c then _ else _) =>
             destruct c; try reflexivity
         end.
Qed.

(** ** Allocation failures, in general *)

Lemma store_slot_allocs (arr : val) (i : Z) (v : val) (m m' : mem) :
  store_slot arr i v m = Ok (tt, m') -> allocs m' = allocs m.
Proof.
  unfold store_slot. destruct arr as [| | a]; try discriminate.
  destruct (heap m !! a) as [[s | slots | r] |]; try discriminate.
  destruct ((i <? 0) || (Z.of_nat (length slots) <=? i)); [discriminate |].
  by intros [= <-].
Qed.

Section Rollback.

Variable alloc_ok : nat -> bool.
Variable a0 a1 a2 a3 a4 : nat.
Variable r : QueryResult.
Variable n : nat.

Hypothesis grid_at : rows r = Vptr a1.
Hypothesis headers_at : headers r = Vptr a2.
Hypothesis types_at : mysql_types r = Vptr a3.
Hypothesis c_types_at : c_types r = Vptr a4.
Hypothesis apart : a1 <> a0 /\ Forall (fun a => a <> a0 /\ a <> a1) [a2; a3; a4].
Hypothesis cells_n : int_wrap (rows_count r * cols_count r) = Z.of_nat n.

(** A rollback while a slot of the grid is unwritten does not return. *)
Lemma rollback_faults (m : mem) (c : nat) :
  grid_written_to m a0 a1 r n c -> (c < n)%nat ->
  exists e, free_query_result (Vptr a0) m = Fault e.
Proof.
  intros (Hstruct & slots & Hgrid & Hlen & Hrest) Hc.
  unfold free_query_result. cbn [is_null].
  assert (load_struct (Vptr a0) m = Ok (r, m)) as Hload
    by (unfold load_struct, peek_struct, deref, obind; by rewrite Hstruct).
  rewrite (bind_ok _ _ _ _ _ Hload), grid_at, cells_n.
  destruct (cells_loop_faults a1 slots (Z.of_nat c) (seqZ 0 (Z.of_nat n)))
    with (m := m) as [e He]; [lia | | apply elem_of_seqZ; lia | by right |].
  - rewrite Nat2Z.id. apply Hrest. lia.
  - exists e. by apply bind_fault.
Qed.

Lemma alloc_keeps_grid (b : block) (m m' : mem) (v : val) (c : nat) :
  alloc alloc_ok b m = Ok (v, m') ->
  grid_written_to m a0 a1 r n c -> grid_written_to m' a0 a1 r n c.
Proof.
  intros Halloc (Hstruct & slots & Hgrid & Hrest).
  destruct (alloc_outcome alloc_ok b m) as (v' & m'' & Halloc' & _ & Hkeep & _).
  rewrite Halloc in Halloc'. injection Halloc' as <- <-.
  split; [by apply Hkeep |]. exists slots. split; [by apply Hkeep | done].
Qed.

Lemma store_keeps_grid (a : nat) (i : Z) (v : val) (m m' : mem) (c : nat) :
  a <> a0 -> a <> a1 ->
  store_slot (Vptr a) i v m = Ok (tt, m') ->
  grid_written_to m a0 a1 r n c -> grid_written_to m' a0 a1 r n c.
Proof.
  intros Ha0 Ha1 Hstore (Hstruct & slots & Hgrid & Hrest).
  apply store_slot_inv in Hstore as (a' & slots' & [= <-] & _ & _ & Hheap).
  unfold grid_written_to. rewrite Hheap.
  split; [by rewrite lookup_insert_ne |]. exists slots. by rewrite lookup_insert_ne.
Qed.

Lemma store_in_grid (v : val) (m m' : mem) (c : nat) :
  store_slot (Vptr a1) (Z.of_nat c) v m = Ok (tt, m') ->
  grid_written_to m a0 a1 r n c -> grid_written_to m' a0 a1 r n (S c).
Proof.
  intros Hstore (Hstruct & slots & Hgrid & Hlen & Hrest). destruct apart as [Ha _].
  apply store_slot_inv in Hstore as (a' & slots' & [= <-] & Hgrid' & _ & Hheap).
  rewrite Hgrid in Hgrid'. injection Hgrid' as <-.
  unfold grid_written_to. rewrite Hheap.
  split; [by rewrite lookup_insert_ne |].
  exists (<[c := v]> slots). rewrite lookup_insert_eq, Nat2Z.id, length_insert.
  split_and!; [done | done |]. intros i Hi.
  rewrite list_lookup_insert_ne by lia. apply Hrest. lia.
Qed.

(** One round of the column loop: it crashes, or it went on after three
    allocation calls that all found memory. *)
Lemma fill_column_outcome (res : MYSQL_RES) (i : Z) (m : mem) :
  (0 < n)%nat ->
  grid_written_to m a0 a1 r n 0 ->
  crashed_or (fill_column alloc_ok (Vptr a0) r res i m)
    (fun m' => grid_written_to m' a0 a1 r n 0 /\
               allocs m' = (allocs m + 3)%nat /\
               forall k, (allocs m <= k < allocs m + 3)%nat -> alloc_ok k = true)
    False.
Proof.
  intros Hn Hgrid. unfold fill_column.
  destruct apart as (_ & Hapart).
  apply Forall_cons in Hapart as [[H20 H21] Hapart].
  apply Forall_cons in Hapart as [[H30 H31] Hapart].
  apply Forall_cons in Hapart as [[H40 H41] _].
  rewrite headers_at, types_at, c_types_at.
  destruct (index (fields res) i) as [f | e] eqn:Hf; [| left; by exists e].
  unfold bind at 1. cbn [lift].
  destruct (alloc_outcome alloc_ok (Bstr (name f)) m)
    as (h & m1 & Hh & Hn1 & _ & Hv1).
  unfold strdup. rewrite (bind_ok _ _ _ _ _ Hh).
  pose proof (alloc_keeps_grid _ _ _ _ _ Hh Hgrid) as Hgrid1.
  destruct (store_slot (Vptr a2) i h m1) as [[[] m2] | e] eqn:Hs1;
    [| left; exists e; by apply bind_fault].
  rewrite (bind_ok _ _ _ _ _ Hs1).
  pose proof (store_keeps_grid _ _ _ _ _ _ H20 H21 Hs1 Hgrid1) as Hgrid2.
  pose proof (store_slot_allocs _ _ _ _ _ Hs1) as Hn2.
  cbv zeta.
  destruct (alloc_outcome alloc_ok
              (Bstr (mysql_type (mysql_type_to_c_type (type f)))) m2)
    as (t & m3 & Ht & Hn3 & _ & Hv3).
  rewrite (bind_ok _ _ _ _ _ Ht).
  pose proof (alloc_keeps_grid _ _ _ _ _ Ht Hgrid2) as Hgrid3.
  destruct (store_slot (Vptr a3) i t m3) as [[[] m4] | e] eqn:Hs2;
    [| left; exists e; by apply bind_fault].
  rewrite (bind_ok _ _ _ _ _ Hs2).
  pose proof (store_keeps_grid _ _ _ _ _ _ H30 H31 Hs2 Hgrid3) as Hgrid4.
  pose proof (store_slot_allocs _ _ _ _ _ Hs2) as Hn4.
  destruct (alloc_outcome alloc_ok
              (Bstr (c_type (mysql_type_to_c_type (type f)))) m4)
    as (q & m5 & Hq & Hn5 & _ & Hv5).
  rewrite (bind_ok _ _ _ _ _ Hq).
  pose proof (alloc_keeps_grid _ _ _ _ _ Hq Hgrid4) as Hgrid5.
  destruct (store_slot (Vptr a4) i q m5) as [[[] m6] | e] eqn:Hs3;
    [| left; exists e; by apply bind_fault].
  rewrite (bind_ok _ _ _ _ _ Hs3).
  pose proof (store_keeps_grid _ _ _ _ _ _ H40 H41 Hs3 Hgrid5) as Hgrid6.
  pose proof (store_slot_allocs _ _ _ _ _ Hs3) as Hn6.
  destruct (is_null h || is_null t || is_null q) eqn:Hnull.
  - left. destruct (rollback_faults m6 0 Hgrid6 Hn) as [e He].
    exists e. by apply bind_fault.
  - right. left. exists m6. split_and!; [reflexivity | exact Hgrid6 | lia |].
    apply orb_false_elim in Hnull as [Hnull Hq0].
    apply orb_false_elim in Hnull as [Hh0 Ht0].
    destruct Hv1 as [[-> _] | (? & _ & Hok1 & _)]; [done |].
    destruct Hv3 as [[-> _] | (? & _ & Hok3 & _)]; [done |].
    destruct Hv5 as [[-> _] | (? & _ & Hok5 & _)]; [done |].
    intros k Hk.
    assert (k = allocs m \/ k = allocs m2 \/ k = allocs m4) as [-> | [-> | ->]] by lia;
      done.
Qed.

(** The column loop, over any range. *)
Lemma columns_outcome (res : MYSQL_RES) (range : list Z) :
  (0 < n)%nat ->
  forall m, grid_written_to m a0 a1 r n 0 ->
    crashed_or (for_until range (fill_column alloc_ok (Vptr a0) r res) m)
      (fun m' => grid_written_to m' a0 a1 r n 0 /\
                 allocs m' = (allocs m + 3 * length range)%nat /\
                 forall k, (allocs m <= k < allocs m + 3 * length range)%nat ->
                           alloc_ok k = true)
      False.
Proof.
  intros Hn. induction range as [| i range IH]; intros m Hgrid.
  - right. left. exists m. split_and!; [done | done | simpl; lia | simpl; lia].
  - cbn [for_until].
    destruct (fill_column_outcome res i m Hn Hgrid)
      as [[e He] | [(m1 & Hrun & Hgrid1 & Hn1 & Hok1) | []]].
    + left. exists e. by apply bind_fault.
    + rewrite (bind_ok _ _ _ _ _ Hrun).
      destruct (IH m1 Hgrid1) as [[e He] | [(m2 & Hrest & Hgrid2 & Hn2 & Hok2) | []]].
      * left. by exists e.
      * right. left. exists m2. split_and!; [done | done | simpl; lia |].
        intros k Hk. destruct (decide (k < allocs m + 3)%nat).
        -- apply Hok1. lia.
        -- apply Hok2. simpl in Hk. lia.
Qed.

(** One round of the cell loop: it crashes, or it went on after an
    allocation call that found memory, or it was filling the last cell. *)
Lemma fill_cell_outcome (row : MYSQL_ROW) (row_index i : Z) (m : mem) (c : nat) :
  int_wrap (row_index * cols_count r + i) = Z.of_nat c ->
  (c < n)%nat ->
  grid_written_to m a0 a1 r n c ->
  crashed_or (fill_cell alloc_ok (Vptr a0) r row row_index i m)
    (fun m' => grid_written_to m' a0 a1 r n (S c) /\
               allocs m' = S (allocs m) /\ alloc_ok (allocs m) = true)
    (S c = n).
Proof.
  intros Hindex Hc Hgrid. unfold fill_cell. rewrite grid_at, Hindex.
  destruct (index row i) as [v | e] eqn:Hv; [| left; by exists e].
  unfold bind at 1. cbn [lift].
  destruct (alloc_outcome alloc_ok (Bstr (cell_text v)) m)
    as (p & m1 & Hp & Hn1 & _ & Hv1).
  unfold strdup. rewrite (bind_ok _ _ _ _ _ Hp).
  pose proof (alloc_keeps_grid _ _ _ _ _ Hp Hgrid) as Hgrid1.
  destruct (store_slot (Vptr a1) (Z.of_nat c) p m1) as [[[] m2] | e] eqn:Hs;
    [| left; exists e; by apply bind_fault].
  rewrite (bind_ok _ _ _ _ _ Hs).
  pose proof (store_in_grid _ _ _ _ Hs Hgrid1) as Hgrid2.
  pose proof (store_slot_allocs _ _ _ _ _ Hs) as Hn2.
  destruct (is_null p) eqn:Hnull.
  - destruct (decide (S c < n)%nat) as [Hmore | Hlast]; [| right; right; lia].
    left. destruct (rollback_faults m2 (S c) Hgrid2 Hmore) as [e He].
    exists e. by apply bind_fault.
  - right. left. exists m2. split_and!; [reflexivity | exact Hgrid2 | lia |].
    by destruct Hv1 as [[-> _] | (? & _ & Hok & _)].
Qed.

(** The cells of one row. *)
Lemma row_outcome (row : MYSQL_ROW) (row_index : Z) (len : nat) :
  Z.of_nat n < 2 ^ 31 ->
  forall (i : Z) (c : nat) (m : mem),
    row_index * cols_count r + i = Z.of_nat c ->
    (c + len <= n)%nat ->
    grid_written_to m a0 a1 r n c ->
    crashed_or (for_until (seqZ i (Z.of_nat len))
                  (fill_cell alloc_ok (Vptr a0) r row row_index) m)
      (fun m' => grid_written_to m' a0 a1 r n (c + len) /\
                 allocs m' = (allocs m + len)%nat /\
                 forall k, (allocs m <= k < allocs m + len)%nat -> alloc_ok k = true)
      (ok_until_last_cell alloc_ok n m c).
Proof.
  intros Hsmall. induction len as [| len IH]; intros i c m Hindex Hroom Hgrid.
  - right. left. exists m. rewrite !Nat.add_0_r. split_and!; [done | done | done |]. lia.
  - rewrite seqZ_cons by lia. cbn [for_until].
    destruct (fill_cell_outcome row row_index i m c)
      as [[e He] | [(m1 & Hrun & Hgrid1 & Hn1 & Hok1) | Hlast]]; try done.
    + rewrite Hindex. apply int_wrap_id. lia.
    + lia.
    + left. exists e. by apply bind_fault.
    + rewrite (bind_ok _ _ _ _ _ Hrun).
      replace (Z.pred (Z.of_nat (S len))) with (Z.of_nat len) by lia.
      destruct (IH (Z.succ i) (S c) m1)
        as [[e He] | [(m2 & Hrest & Hgrid2 & Hn2 & Hok2) | Hlast]]; try done.
      * lia.
      * lia.
      * left. by exists e.
      * right. left. exists m2.
        replace (c + S len)%nat with (S c + len)%nat by lia.
        split_and!; [done | done | lia |].
        intros k Hk. destruct (decide (k = allocs m)) as [-> | Hne]; [done |].
        apply Hok2. lia.
      * right. right. intros k Hk.
        destruct (decide (k = allocs m)) as [-> | Hne]; [done |].
        apply Hlast. lia.
    + right. right. intros k Hk. lia.
Qed.

(** The row loop. *)
Lemma fetch_outcome (cols : nat) (cursor : list MYSQL_ROW) :
  cols_count r = Z.of_nat cols ->
  Z.of_nat n < 2 ^ 31 ->
  forall (row_index : Z) (c : nat) (m : mem),
    0 <= row_index ->
    row_index + Z.of_nat (length cursor) < 2 ^ 31 ->
    row_index * cols_count r = Z.of_nat c ->
    (c + length cursor * cols <= n)%nat ->
    grid_written_to m a0 a1 r n c ->
    crashed_or (fetch_rows alloc_ok (Vptr a0) r cursor row_index m)
      (fun m' => forall k, (allocs m <= k < allocs m + length cursor * cols)%nat ->
                           alloc_ok k = true)
      (ok_until_last_cell alloc_ok n m c).
Proof.
  intros Hcols Hsmall.
  induction cursor as [| row cursor IH]; intros row_index c m Hpos Hrows Hindex Hroom Hgrid.
  - right. left. exists m. split; [done |]. simpl. lia.
  - cbn [fetch_rows]. rewrite Hcols. cbn [length] in Hrows, Hroom.
    destruct (row_outcome row row_index cols Hsmall 0 c m)
      as [[e He] | [(m1 & Hrun & Hgrid1 & Hn1 & Hok1) | Hlast]]; try done.
    + lia.
    + lia.
    + left. exists e. by apply bind_fault.
    + rewrite (bind_ok _ _ _ _ _ Hrun).
      rewrite (int_wrap_id (row_index + 1)) by lia.
      destruct (IH (row_index + 1) (c + cols)%nat m1)
        as [[e He] | [(m2 & Hrest & Hok2) | Hlast]]; try done.
      * lia.
      * lia.
      * lia.
      * lia.
      * left. by exists e.
      * right. left. exists m2. split; [done |]. intros k Hk.
        destruct (decide (k < allocs m + cols)%nat); [apply Hok1; lia |].
        apply Hok2. cbn [length] in Hk. lia.
      * right. right. intros k Hk.
        destruct (decide (k < allocs m + cols)%nat); [apply Hok1; lia |].
        apply Hlast. lia.
    + by right; right.
Qed.

End Rollback.

(** X12: a failed strdup() crashes the construction, unless it is the very last
    one: when the structure and the four arrays are allocated and the answer
    has at least one row and one column, a failure of any allocation call
    for a header, a type name or a cell, other than the call for the last
    cell, makes execute_mysql_query run its rollback over slots that were
    never written, and the function does not return. *)
Theorem string_allocation_failure (alloc_ok : nat -> bool) (conn : MYSQL)
    (res : MYSQL_RES) (m0 : mem) (j : nat) :
  mysql_init conn = true ->
  mysql_real_connect conn = true ->
  mysql_query conn = true ->
  mysql_store_result conn = Some res ->
  0 < Z.of_nat (length (data res)) < 2 ^ 31 ->
  0 < Z.of_nat (length (fields res)) < 2 ^ 31 ->
  Z.of_nat (length (data res)) * Z.of_nat (length (fields res)) < 2 ^ 31 ->
  (forall k, (k < 5)%nat -> alloc_ok (k + allocs m0)%nat = true) ->
  (5 <= j < 4 + 3 * length (fields res) + length (data res) * length (fields res))%nat ->
  alloc_ok (j + allocs m0)%nat = false ->
  exists e, execute_mysql_query alloc_ok conn m0 = Fault e.
Proof.
  intros Hinit Hconnect Hquery Hres Hrows Hcols Hcells Hfirst Hj Hfail.
  pose proof (Hfirst 0%nat ltac:(lia)) as Hok.
  pose proof (Hfirst 1%nat ltac:(lia)) as Hok1.
  pose proof (Hfirst 2%nat ltac:(lia)) as Hok2.
  pose proof (Hfirst 3%nat ltac:(lia)) as Hok3.
  pose proof (Hfirst 4%nat ltac:(lia)) as Hok4.
  cbn [Nat.add] in Hok, Hok1, Hok2, Hok3, Hok4. clear Hfirst.
  unfold execute_mysql_query. rewrite Hinit, Hconnect, Hquery, Hres. cbn [negb].
  cbv zeta.
  set (R := length (data res)) in *. set (C := length (fields res)) in *.
  rewrite (int_wrap_id (Z.of_nat R)) by lia.
  rewrite (int_wrap_id (Z.of_nat C)) by lia.
  rewrite (int_wrap_id (Z.of_nat R * Z.of_nat C)) by lia.
  rewrite !size_wrap_id by (unfold sizeof_ptr; lia).
  unfold malloc_ptrs, sizeof_ptr. rewrite !Z.div_mul by lia.
  rewrite <- Nat2Z.inj_mul, !Nat2Z.id.
  set (grid := Bptrs (replicate (R * C) Vundef)).
  set (column := Bptrs (replicate C Vundef)).
  destruct (alloc_outcome alloc_ok (Bstruct uninitialised) m0)
    as (v0 & m1 & Halloc0 & Hn1 & Hkeep1 & [[_ Hno] | (a0 & -> & _ & Hnew0 & Ha0)]);
    [congruence |].
  destruct (alloc_outcome alloc_ok grid m1)
    as (v1 & m2 & Halloc1 & Hn2 & Hkeep2 & [[_ Hno] | (a1 & -> & _ & Hnew1 & Ha1)]);
    [rewrite Hn1 in Hno; cbn [Nat.add] in *; congruence |].
  destruct (alloc_outcome alloc_ok column m2)
    as (v2 & m3 & Halloc2 & Hn3 & Hkeep3 & [[_ Hno] | (a2 & -> & _ & Hnew2 & Ha2)]);
    [rewrite Hn2, Hn1 in Hno; cbn [Nat.add] in *; congruence |].
  destruct (alloc_outcome alloc_ok column m3)
    as (v3 & m4 & Halloc3 & Hn4 & Hkeep4 & [[_ Hno] | (a3 & -> & _ & Hnew3 & Ha3)]);
    [rewrite Hn3, Hn2, Hn1 in Hno; cbn [Nat.add] in *; congruence |].
  destruct (alloc_outcome alloc_ok column m4)
    as (v4 & m5 & Halloc4 & Hn5 & Hkeep5 & [[_ Hno] | (a4 & -> & _ & Hnew4 & Ha4)]);
    [rewrite Hn4, Hn3, Hn2, Hn1 in Hno; cbn [Nat.add] in *; congruence |].
  rewrite (bind_ok _ _ _ _ _ Halloc0). cbn [is_null].
  rewrite (bind_ok _ _ _ _ _ Halloc1).
  rewrite (bind_ok _ _ _ _ _ Halloc2).
  rewrite (bind_ok _ _ _ _ _ Halloc3).
  rewrite (bind_ok _ _ _ _ _ Halloc4).
  set (r := mkQueryResult (Vptr a1) (Vptr a2) (Vptr a3) (Vptr a4)
              (Z.of_nat R) (Z.of_nat C)).
  set (m6 := mkMem (<[a0 := Bstruct r]> (heap m5)) (allocs m5)).
  assert (heap m5 !! a0 = Some (Bstruct uninitialised)) as Hstruct5
    by (by apply Hkeep5, Hkeep4, Hkeep3, Hkeep2).
  assert (store_struct (Vptr a0) r m5 = Ok (tt, m6)) as Hstore
    by (unfold store_struct; by rewrite Hstruct5).
  rewrite (bind_ok _ _ _ _ _ Hstore). cbn [is_null orb].
  assert (a1 <> a0) as H10 by (intros ->; congruence).
  assert (a2 <> a0 /\ a2 <> a1) as [H20 H21].
  { split; intros ->; [rewrite (Hkeep2 _ _ Ha0) in Hnew2 | rewrite Ha1 in Hnew2];
      discriminate. }
  assert (a3 <> a0 /\ a3 <> a1) as [H30 H31].
  { split; intros ->;
      [rewrite (Hkeep3 _ _ (Hkeep2 _ _ Ha0)) in Hnew3 | rewrite (Hkeep3 _ _ Ha1) in Hnew3];
      discriminate. }
  assert (a4 <> a0 /\ a4 <> a1) as [H40 H41].
  { split; intros ->;
      [rewrite (Hkeep4 _ _ (Hkeep3 _ _ (Hkeep2 _ _ Ha0))) in Hnew4
      | rewrite (Hkeep4 _ _ (Hkeep3 _ _ Ha1)) in Hnew4];
      discriminate. }
  assert (grid_written_to m6 a0 a1 r (R * C) 0) as Hgrid.
  { split; [cbn [heap m6]; by rewrite lookup_insert_eq |].
    exists (replicate (R * C) Vundef). split_and!.
    - cbn [heap m6]. rewrite lookup_insert_ne by done.
      by apply Hkeep5, Hkeep4, Hkeep3.
    - apply length_replicate.
    - intros i Hi. apply lookup_replicate_2. lia. }
  assert (a1 <> a0 /\ Forall (fun a => a <> a0 /\ a <> a1) [a2; a3; a4]) as Hapart
    by (split; [done | by repeat constructor]).
  assert (int_wrap (rows_count r * cols_count r) = Z.of_nat (R * C)) as Hcount
    by (cbn [r rows_count cols_count]; rewrite int_wrap_id by lia; lia).
  assert (allocs m6 = (5 + allocs m0)%nat) as Hn6 by (cbn [allocs m6]; lia).
  destruct (columns_outcome alloc_ok a0 a1 a2 a3 a4 r (R * C) eq_refl eq_refl eq_refl
              eq_refl Hapart Hcount res (seqZ 0 (Z.of_nat C)) ltac:(nia) m6 Hgrid)
    as [[e He] | [(m7 & Hnamed & Hgrid7 & Hn7 & Hok7) | []]].
  { exists e. by apply bind_fault. }
  rewrite (bind_ok _ _ _ _ _ Hnamed).
  rewrite length_seqZ, Nat2Z.id in Hn7, Hok7.
  destruct (fetch_outcome alloc_ok a0 a1 a2 a3 a4 r (R * C) eq_refl Hapart Hcount C
              (data res) eq_refl ltac:(lia) 0 0%nat m7)
    as [[e He] | [(m8 & Hfetched & Hok8) | Hlast]]; try done.
  - exact (proj2 Hrows).
  - exists e. by apply bind_fault.
  - fold R in Hok8.
    assert (alloc_ok (j + allocs m0)%nat = true) as Hyes; [| congruence].
    destruct (decide (j < 5 + 3 * C)%nat); [apply Hok7 | apply Hok8]; lia.
  - assert (alloc_ok (j + allocs m0)%nat = true) as Hyes; [| congruence].
    destruct (decide (j < 5 + 3 * C)%nat); [apply Hok7 | apply Hlast]; lia.
Qed.

Lemma string_allocation_failure_witness :
  exists e, execute_mysql_query (failing 7) (answering two_by_two) empty_mem = Fault e.
Proof.
  apply (string_allocation_failure (failing 7) (answering two_by_two) two_by_two
           empty_mem 7); try reflexivity.
  - split; reflexivity.
  - split; reflexivity.
  - intros k Hk. do 5 (destruct k as [| k]; [reflexivity |]). lia.
  - simpl. lia.
Defined.

(** ** The last allocation call *)

Lemma for_each_app {S : Type} (l1 l2 : list Z) (body : Z -> M S unit) (s : S) :
  for_each (l1 ++ l2) body s = (for_each l1 body ;; for_each l2 body)%cmd s.
Proof.
  revert s. induction l1 as [| i l1 IH]; intros s; [done |].
  cbn [app for_each]. unfold bind.
  destruct (body i s) as [[[] s1] |]; [| done]. rewrite IH. by unfold bind.
Qed.

Lemma for_until_app {S : Type} (l1 l2 : list Z) (body : Z -> M S bool) (s : S) :
  for_until (l1 ++ l2) body s =
  (continue <- for_until l1 body ;;
   if continue : bool then for_until l2 body else ret false)%cmd s.
Proof.
  revert s. induction l1 as [| i l1 IH]; intros s; [done |].
  cbn [app for_until]. unfold bind.
  destruct (body i s) as [[[] s1] |]; [| done | done]. rewrite IH. by unfold bind.
Qed.

Lemma fetch_rows_app (alloc_ok : nat -> bool) (result : val) (r : QueryResult)
    (l1 l2 : list MYSQL_ROW) :
  forall (row_index : Z) (m : mem),
    0 <= row_index -> row_index + Z.of_nat (length l1) < 2 ^ 31 ->
    fetch_rows alloc_ok result r (l1 ++ l2) row_index m =
    (fetched <- fetch_rows alloc_ok result r l1 row_index ;;
     if fetched : bool
     then fetch_rows alloc_ok result r l2 (row_index + Z.of_nat (length l1))
     else ret false)%cmd m.
Proof.
  induction l1 as [| row l1 IH]; intros row_index m Hpos Hsmall.
  - cbn [app fetch_rows length]. by rewrite Z.add_0_r.
  - cbn [app fetch_rows]. cbn [length] in Hsmall. unfold bind.
    destruct (for_until _ _ m) as [[[] m1] |]; [| done | done].
    rewrite (int_wrap_id (row_index + 1)) by lia.
    rewrite IH by lia. unfold bind. cbn [length].
    by replace (row_index + 1 + Z.of_nat (length l1))
      with (row_index + Z.of_nat (S (length l1))) by lia.
Qed.

Lemma load_slot_at (m : mem) (a : nat) (slots : list val) (i : nat) (v : val) :
  heap m !! a = Some (Bptrs slots) -> slots !! i = Some v ->
  load_slot (Vptr a) (Z.of_nat i) m = Ok (v, m).
Proof.
  intros Ha Hi. unfold load_slot, peek_slot, deref, obind. rewrite Ha.
  destruct (Z.ltb_spec (Z.of_nat i) 0); [lia |]. by rewrite Nat2Z.id, Hi.
Qed.

(** The loop over the cells, over the slots that hold a string. *)
Lemma cells_released_before (a : nat) (rest : list val) (todo : list nat) :
  forall (done : list nat) (m : mem),
    heap m !! a = Some (Bptrs ((Vptr <$> (done ++ todo)) ++ rest)) ->
    Forall (fun p => is_Some (heap m !! p)) todo ->
    NoDup (a :: todo) ->
    exists m',
      for_each (seqZ (Z.of_nat (length done)) (Z.of_nat (length todo)))
        (fun i => p <- load_slot (Vptr a) i ;; free p)%cmd m = Ok (tt, m') /\
      without todo m m' /\
      heap m' !! a = Some (Bptrs ((Vptr <$> (done ++ todo)) ++ rest)).
Proof.
  induction todo as [| p todo IH]; intros done m Ha Hlive Hdistinct.
  - exists m. split; [done |]. split; [apply without_nothing | done].
  - apply Forall_cons in Hlive as [Hp Hlive].
    apply NoDup_cons in Hdistinct as [Ha_out Hdistinct].
    apply NoDup_cons in Hdistinct as [Hp_out Hdistinct].
    apply not_elem_of_cons in Ha_out as [Hap Ha_out].
    destruct (free_live m p Hp) as (m1 & Hfree & Hwithout1).
    assert (heap m1 !! a = heap m !! a) as Hkept
      by (apply (without_keeps _ _ _ _ Hwithout1); by rewrite list_elem_of_singleton).
    destruct (IH (done ++ [p]) m1) as (m' & Hloop & Hwithout & Ha').
    + by rewrite Hkept, <- app_assoc.
    + rewrite Forall_forall in Hlive. apply Forall_forall. intros q Hq.
      rewrite (without_keeps _ _ _ _ Hwithout1); [by apply Hlive |].
      rewrite list_elem_of_singleton. by intros ->.
    + by constructor.
    + exists m'. split_and!; [| by apply (without_app [p] todo m m1 m') |].
      * rewrite seqZ_cons by (simpl; lia). cbn [for_each].
        assert ((p0 <- load_slot (Vptr a) (Z.of_nat (length done)) ;; free p0)%cmd m
                = Ok (tt, m1)) as Hbody.
        { assert (((Vptr <$> done ++ p :: todo) ++ rest) !! length done = Some (Vptr p))
            as Hslot.
          { rewrite fmap_app, <- app_assoc, lookup_app_r by (by rewrite length_fmap).
            by rewrite length_fmap, Nat.sub_diag. }
          by rewrite (bind_ok _ _ _ _ _ (load_slot_at _ _ _ _ _ Ha Hslot)). }
        rewrite (bind_ok _ _ _ _ _ Hbody).
        rewrite length_app in Hloop. simpl length in Hloop.
        replace (Z.succ (Z.of_nat (length done)))
          with (Z.of_nat (length done + 1)) by lia.
        replace (Z.pred (Z.of_nat (length (p :: todo))))
          with (Z.of_nat (length todo)) by (simpl; lia).
        exact Hloop.
      * by rewrite <- app_assoc in Ha'.
Qed.

(** The loop over the cells when the last slot holds NULL: free(NULL) does
    nothing. *)
Lemma cells_then_null (a : nat) (cs : list nat) (m : mem) :
  heap m !! a = Some (Bptrs ((Vptr <$> cs) ++ [Vnull])) ->
  Forall (fun p => is_Some (heap m !! p)) cs ->
  NoDup (a :: cs) ->
  releases (for_each (seqZ 0 (Z.of_nat (length cs + 1)))
              (fun i => p <- load_slot (Vptr a) i ;; free p)%cmd) cs m.
Proof.
  intros Ha Hlive Hdistinct.
  destruct (cells_released_before a [Vnull] cs [] m Ha Hlive Hdistinct)
    as (m1 & Hloop & Hwithout & Ha1).
  exists m1. split; [| done].
  rewrite Nat2Z.inj_add, seqZ_app by lia. rewrite for_each_app.
  change (Z.of_nat (length [])) with 0 in Hloop.
  rewrite (bind_ok _ _ _ _ _ Hloop). cbn [seqZ]. rewrite seqZ_cons by lia.
  cbn [for_each]. rewrite Z.add_0_l.
  assert (((Vptr <$> [] ++ cs) ++ [Vnull]) !! length cs = Some Vnull) as Hslot.
  { rewrite lookup_app_r by (by rewrite length_fmap).
    by rewrite length_fmap, Nat.sub_diag. }
  rewrite (bind_ok _ _ m1 m1 tt); [done |].
  by rewrite (bind_ok _ _ _ _ _ (load_slot_at _ _ _ _ _ Ha1 Hslot)).
Qed.

(** The cells of a row up to some column, when allocation succeeds. *)
Lemma row_stored_upto (alloc_ok : nat -> bool) (m0 : mem) (a0 a1 a2 a3 a4 : nat)
    (r : QueryResult) (cells_n cols_n : nat) (hps tps qps : list nat) (row : MYSQL_ROW)
    (row_index : Z) (rest todo : list (option string)) :
  forall (done : list (option string)) (m : mem) (cps : list nat),
    row = done ++ todo ++ rest ->
    row_index * cols_count r + Z.of_nat (length done) = Z.of_nat (length cps) ->
    (length cps + length todo <= cells_n)%nat ->
    Z.of_nat cells_n < 2 ^ 31 ->
    laid_out m a0 r (arrays_with a1 a2 a3 a4 cells_n cols_n cps hps tps qps) ->
    grown m0 m (owned a0 (arrays_with a1 a2 a3 a4 cells_n cols_n cps hps tps qps)) ->
    (forall k, (allocs m <= k < allocs m + length todo)%nat -> alloc_ok k = true) ->
    exists cps' m',
      for_until (seqZ (Z.of_nat (length done)) (Z.of_nat (length todo)))
        (fill_cell alloc_ok (Vptr a0) r row row_index) m = Ok (true, m') /\
      allocs m' = (allocs m + length todo)%nat /\
      length cps' = (length cps + length todo)%nat /\
      laid_out m' a0 r (arrays_with a1 a2 a3 a4 cells_n cols_n cps' hps tps qps) /\
      grown m0 m' (owned a0 (arrays_with a1 a2 a3 a4 cells_n cols_n cps' hps tps qps)).
Proof.
  induction todo as [| v todo IH];
    intros done m cps Hrow Hindex Hroom Hsmall Hlaid Hgrown Hok.
  - exists cps, m. split_and!; try done; simpl; lia.
  - simpl length in Hroom.
    destruct (cell_stored alloc_ok m0 a0 a1 a2 a3 a4 r cells_n cols_n m cps hps tps qps
                row row_index (length done) v Hlaid Hgrown)
      as (b & m1 & Hstep & Hallocs & Hlaid1 & Hgrown1).
    + lia.
    + rewrite Hrow. by apply list_lookup_middle.
    + rewrite Hindex. apply int_wrap_id. lia.
    + apply Hok. simpl. lia.
    + destruct (IH (done ++ [v]) m1 (cps ++ [b]))
        as (cps' & m' & Hloop & Hallocs' & Hlen' & Hlaid' & Hgrown'); try done.
      * by rewrite <- app_assoc.
      * rewrite !length_app. simpl. lia.
      * rewrite length_app. simpl. lia.
      * intros k Hk. apply Hok. simpl. lia.
      * exists cps', m'. split_and!; try done.
        -- rewrite seqZ_cons by (simpl; lia). cbn [for_until].
           rewrite (bind_ok _ _ _ _ _ Hstep).
           rewrite length_app in Hloop. simpl length in Hloop.
           replace (Z.succ (Z.of_nat (length done)))
             with (Z.of_nat (length done + 1)) by lia.
           replace (Z.pred (Z.of_nat (length (v :: todo))))
             with (Z.of_nat (length todo)) by (simpl; lia).
           exact Hloop.
        -- simpl. lia.
        -- rewrite Hlen', length_app. simpl. lia.
Qed.

(** The last cell when strdup() fails: NULL is stored in the last slot, and
    the rollback starts. *)
Lemma last_cell_null (alloc_ok : nat -> bool) (a0 a1 a2 a3 a4 : nat) (r : QueryResult)
    (cells_n cols_n : nat) (cps hps tps qps : list nat) (row : MYSQL_ROW)
    (row_index : Z) (j : nat) (v : option string) (m : mem) :
  laid_out m a0 r (arrays_with a1 a2 a3 a4 cells_n cols_n cps hps tps qps) ->
  S (length cps) = cells_n ->
  row !! j = Some v ->
  int_wrap (row_index * cols_count r + Z.of_nat j) = Z.of_nat (length cps) ->
  alloc_ok (allocs m) = false ->
  fill_cell alloc_ok (Vptr a0) r row row_index (Z.of_nat j) m =
  (free_query_result (Vptr a0) ;; ret false)%cmd
    (mkMem (<[a1 := Bptrs ((Vptr <$> cps) ++ [Vnull])]> (heap m)) (S (allocs m))).
Proof.
  intros Hlaid Hlast Hv Hindex Hno.
  assert (rows r = Vptr a1) as Hr
    by (destruct Hlaid as (_ & Hfields & _); by injection Hfields as <- _ _ _).
  destruct Hlaid as (_ & _ & Harrays & _).
  apply Forall_cons in Harrays as [[Hgrid _] _].
  unfold array_block in Hgrid. cbn [array_at stored slots_n] in Hgrid.
  replace (cells_n - length cps)%nat with 1%nat in Hgrid by lia.
  unfold fill_cell. rewrite (index_lookup _ _ _ Hv).
  unfold bind at 1. cbn [lift].
  assert (strdup alloc_ok (cell_text v) m = Ok (Vnull, mkMem (heap m) (S (allocs m))))
    as Hdup by (unfold strdup, alloc; by rewrite Hno).
  rewrite (bind_ok _ _ _ _ _ Hdup), Hr, Hindex.
  assert (store_slot (Vptr a1) (Z.of_nat (length cps)) Vnull
            (mkMem (heap m) (S (allocs m)))
          = Ok (tt, mkMem (<[a1 := Bptrs ((Vptr <$> cps) ++ [Vnull])]> (heap m))
                      (S (allocs m)))) as Hstore.
  { unfold store_slot. cbn [heap allocs]. rewrite Hgrid.
    rewrite length_app, length_fmap. cbn [replicate length].
    destruct (Z.ltb_spec (Z.of_nat (length cps)) 0); [lia |].
    destruct (Z.leb_spec (Z.of_nat (length cps + 1)) (Z.of_nat (length cps))); [lia |].
    cbn [orb]. rewrite Nat2Z.id.
    rewrite insert_app_r_alt by (by rewrite length_fmap).
    by rewrite length_fmap, Nat.sub_diag. }
  by rewrite (bind_ok _ _ _ _ _ Hstore).
Qed.

(** The rollback after the last cell: every slot is written (the last one
    holds NULL), and the teardown leaves the heap as it was before the
    query. *)
Lemma teardown_last_null (m0 m : mem) (a0 a1 a2 a3 a4 : nat) (r : QueryResult)
    (cells_n cols_n : nat) (cps hps tps qps : list nat) (calls : nat) :
  laid_out m a0 r (arrays_with a1 a2 a3 a4 cells_n cols_n cps hps tps qps) ->
  grown m0 m (owned a0 (arrays_with a1 a2 a3 a4 cells_n cols_n cps hps tps qps)) ->
  S (length cps) = cells_n ->
  length hps = cols_n -> length tps = cols_n -> length qps = cols_n ->
  int_wrap (rows_count r * cols_count r) = Z.of_nat cells_n ->
  cols_count r = Z.of_nat cols_n ->
  exists m',
    free_query_result (Vptr a0)
      (mkMem (<[a1 := Bptrs ((Vptr <$> cps) ++ [Vnull])]> (heap m)) calls) = Ok (tt, m') /\
    heap m' = heap m0 /\ allocs m' = calls.
Proof.
  intros Hlaid Hgrown Hlast Hh Ht Hq Hcells Hcols.
  set (m2 := mkMem (<[a1 := Bptrs ((Vptr <$> cps) ++ [Vnull])]> (heap m)) calls).
  destruct Hlaid as (Hstruct & Hfields & Harrays & Hstrings & Hdistinct).
  injection Hfields as Hr1 Hr2 Hr3 Hr4.
  apply Forall_cons in Harrays as [[Hb1 _] Harrays].
  apply Forall_cons in Harrays as [[Hb2 _] Harrays].
  apply Forall_cons in Harrays as [[Hb3 _] Harrays].
  apply Forall_cons in Harrays as [[Hb4 _] _].
  rewrite array_block_full in Hb2, Hb3, Hb4 by done.
  unfold owned, strings_of, arrays_with in *.
  cbn [fmap list_fmap array_at stored slots_n concat app] in *.
  rewrite app_nil_r in *.
  set (strings := cps ++ hps ++ tps ++ qps) in *.
  pose proof Hdistinct as Hnodup.
  apply NoDup_cons in Hdistinct as [Hout0 Hdistinct].
  apply NoDup_cons in Hdistinct as [Hout1 Hdistinct].
  rewrite !not_elem_of_cons in Hout0. rewrite !not_elem_of_cons in Hout1.
  destruct Hout0 as (H01 & _). destruct Hout1 as (H12 & H13 & H14 & H1s).
  assert (forall k, k <> a1 -> heap m2 !! k = heap m !! k) as Hkeep
    by (intros k Hk; cbn [heap m2]; by rewrite lookup_insert_ne).
  assert (Forall (fun p => is_Some (heap m2 !! p)) strings) as Hlive.
  { rewrite Forall_forall in Hstrings. apply Forall_forall. intros p Hp.
    destruct (Hstrings p Hp) as [s Hs]. rewrite Hkeep; [by rewrite Hs |].
    intros ->. by apply H1s. }
  destruct (teardown_after_cells m2 r a0 a1 a2 a3 a4 cps hps tps qps)
    as (m' & Hfree & Hwithout); try done.
  - by rewrite Hkeep.
  - cbn [heap m2]. by rewrite lookup_insert_eq.
  - by rewrite Hkeep.
  - by rewrite Hkeep.
  - by rewrite Hkeep.
  - by rewrite Hcols, Hh.
  - by rewrite Ht, Hh.
  - by rewrite Hq, Hh.
  - rewrite Hcells, <- Hlast.
    replace (S (length cps)) with (length cps + 1)%nat by lia.
    apply cells_then_null.
    + cbn [heap m2]. by rewrite lookup_insert_eq.
    + by apply Forall_app in Hlive as [? _].
    + do 3 apply NoDup_cons in Hdistinct as [_ Hdistinct].
      apply NoDup_app in Hdistinct as (Hcps & _).
      apply NoDup_cons. split; [| done].
      intros Hin. apply H1s. unfold strings. rewrite elem_of_app. by left.
  - exists m'. split; [done |]. split; [| by destruct Hwithout as [-> _]].
    apply (grown_without m0 m2 m' (a0 :: a1 :: a2 :: a3 :: a4 :: strings)); [| done].
    destruct Hgrown as (Hsub & Hdom & Hfresh). unfold grown. cbn [heap m2].
    split_and!; [| | done].
    + apply insert_subseteq_r; [| done].
      rewrite Forall_forall in Hfresh. apply Hfresh.
      rewrite !elem_of_cons. auto.
    + rewrite dom_insert_L, Hdom. apply set_eq. intros k.
      rewrite !elem_of_union, elem_of_singleton, !elem_of_list_to_set, !elem_of_cons.
      tauto.
Qed.

(** Arithmetic on the counts, once their abbreviations are unfolded. *)
Ltac sizes :=
  repeat match goal with x := _ : nat |- _ => subst x end;
  unfold MYSQL_ROW in *; (lia || nia).

Lemma last_element {A : Type} (l : list A) :
  (0 < length l)%nat -> exists init x, l = init ++ [x].
Proof.
  destruct l as [| y l] using rev_ind; [simpl; lia |]. intros _. by exists l, y.
Qed.

(** X13: the one allocation failure that is rolled back: when every allocation
    call but the last (the one for the last cell) finds memory, the rollback
    finds every slot written, execute_mysql_query returns NULL, and the heap
    is the heap from before the query. *)
Theorem last_allocation_failure (alloc_ok : nat -> bool) (conn : MYSQL)
    (res : MYSQL_RES) (m0 : mem) :
  mysql_init conn = true ->
  mysql_real_connect conn = true ->
  mysql_query conn = true ->
  mysql_store_result conn = Some res ->
  Forall (fun row => length row = length (fields res)) (data res) ->
  0 < Z.of_nat (length (data res)) < 2 ^ 31 ->
  0 < Z.of_nat (length (fields res)) < 2 ^ 31 ->
  Z.of_nat (length (data res)) * Z.of_nat (length (fields res)) < 2 ^ 31 ->
  (forall k, (allocs m0 <= k < allocs m0 + 4 + 3 * length (fields res)
                               + length (data res) * length (fields res))%nat ->
             alloc_ok k = true) ->
  alloc_ok (allocs m0 + 4 + 3 * length (fields res)
            + length (data res) * length (fields res))%nat = false ->
  exists m',
    execute_mysql_query alloc_ok conn m0 = Ok (Vnull, m') /\
    heap m' = heap m0 /\
    allocs m' = (allocs m0 + 5 + 3 * length (fields res)
                 + length (data res) * length (fields res))%nat.
Proof.
  intros Hinit Hconnect Hquery Hres Hwide Hrows Hcols Hcells Hok Hno.
  destruct (prelude_built alloc_ok conn res m0)
    as (a0 & a1 & a2 & a3 & a4 & m6 & Hrun & Hlaid & Hgrown & Hallocs6); try done; try lia.
  { intros k Hk. apply Hok. nia. }
  cbv zeta in Hrun, Hlaid, Hgrown. rewrite Hrun. clear Hrun.
  destruct (last_element (data res)) as (init & last & Hdata); [lia |].
  rewrite Hdata in *. clear Hdata.
  apply Forall_app in Hwide as [Hwide Hlast]. apply Forall_cons in Hlast as [Hlast _].
  destruct (last_element last) as (before & v & Hrow); [lia |].
  set (C := length (fields res)) in *.
  rewrite length_app in *. cbn [length] in *.
  set (R := (length init + 1)%nat) in *.
  set (r := mkQueryResult (Vptr a1) (Vptr a2) (Vptr a3) (Vptr a4)
              (Z.of_nat R) (Z.of_nat C)) in *.
  assert (length before + 1 = C)%nat as Hwidth
    by (rewrite <- Hlast, Hrow, length_app; simpl; lia).
  destruct (columns_stored alloc_ok m0 a0 a1 a2 a3 a4 r (R * C) C res (fields res) []
              m6 [] [] [] [])
    as (hps & tps & qps & m7 & Hnamed & Hallocs7 & Hh & Ht & Hq & Hlaid7 & Hgrown7);
    try done.
  { intros k Hk. apply Hok. fold C in Hk. sizes. }
  rewrite (bind_ok _ _ _ _ _ Hnamed).
  assert (exists m',
            fetch_rows alloc_ok (Vptr a0) r (init ++ [last]) 0 m7 = Ok (false, m') /\
            heap m' = heap m0 /\
            allocs m' = (allocs m0 + 5 + 3 * C + R * C)%nat) as (m' & Hfetch & Hheap & Hn').
  2:{ exists m'. split_and!; [| done | done]. by rewrite (bind_ok _ _ _ _ _ Hfetch). }
  rewrite fetch_rows_app by sizes. rewrite Z.add_0_l.
  destruct (rows_stored alloc_ok m0 a0 a1 a2 a3 a4 r (R * C) C hps tps qps init 0 m7 [])
    as (cps & m8 & Hfetched & Hallocs8 & Hc & Hlaid8 & Hgrown8); try done.
  { eapply Forall_impl; [exact Hwide |]. intros row Hwide_row. cbn [r cols_count].
    by rewrite Hwide_row. }
  { cbn [length]. rewrite (concat_uniform_length _ C) by done. sizes. }
  { sizes. }
  { sizes. }
  { intros k Hk. apply Hok. rewrite (concat_uniform_length _ C) in Hk by done.
    sizes. }
  rewrite (concat_uniform_length _ C) in Hallocs8, Hc by done. cbn [length] in Hc.
  rewrite (bind_ok _ _ _ _ _ Hfetched). cbn [fetch_rows].
  assert (exists m',
            for_until (seqZ 0 (cols_count r))
              (fill_cell alloc_ok (Vptr a0) r last (Z.of_nat (length init))) m8
            = Ok (false, m') /\
            heap m' = heap m0 /\
            allocs m' = (allocs m0 + 5 + 3 * C + R * C)%nat) as (m' & Hfill & Hheap & Hn').
  2:{ exists m'. split_and!; [| done | done]. by rewrite (bind_ok _ _ _ _ _ Hfill). }
  cbn [r cols_count]. fold r. rewrite <- Hwidth, Nat2Z.inj_add, seqZ_app by lia.
  rewrite for_until_app.
  destruct (row_stored_upto alloc_ok m0 a0 a1 a2 a3 a4 r (R * C) C hps tps qps last
              (Z.of_nat (length init)) [v] before [] m8 cps)
    as (cps' & m9 & Hcells_run & Hallocs9 & Hc' & Hlaid9 & Hgrown9); try done.
  { cbn [r cols_count length]. sizes. }
  { sizes. }
  { sizes. }
  { intros k Hk. apply Hok. sizes. }
  change (Z.of_nat (length [])) with 0 in Hcells_run.
  rewrite (bind_ok _ _ _ _ _ Hcells_run).
  change (seqZ (0 + Z.of_nat (length before)) (Z.of_nat 1))
    with [0 + Z.of_nat (length before)].
  rewrite Z.add_0_l. cbn [for_until].
  assert (S (length cps') = R * C)%nat as Hfull by sizes.
  rewrite (bind_ok _ _ _ _ _ Hcells_run) || idtac.
  unfold bind at 1.
  rewrite (last_cell_null alloc_ok a0 a1 a2 a3 a4 r (R * C) C cps' hps tps qps last
             (Z.of_nat (length init)) (length before) v m9 Hlaid9 Hfull).
  - destruct (teardown_last_null m0 m9 a0 a1 a2 a3 a4 r (R * C) C cps' hps tps qps
                (S (allocs m9)) Hlaid9 Hgrown9 Hfull Hh Ht Hq)
      as (m' & Hfree & Hheap & Hallocs').
    + cbn [r rows_count cols_count]. rewrite int_wrap_id by sizes. sizes.
    + reflexivity.
    + exists m'. split_and!; [| done |].
      * unfold bind at 1. rewrite Hfree. reflexivity.
      * rewrite Hallocs', Hallocs9, Hallocs8, Hallocs7, Hallocs6. sizes.
  - rewrite Hrow. by apply list_lookup_middle.
  - cbn [r cols_count]. rewrite int_wrap_id by sizes. sizes.
  - assert (allocs m9 = allocs m0 + 4 + 3 * C + R * C)%nat as ->; [| done].
    rewrite Hallocs9, Hallocs8, Hallocs7, Hallocs6. sizes.
Qed.

Lemma last_allocation_failure_witness :
  exists m',
    execute_mysql_query (failing 14) (answering two_by_two) empty_mem = Ok (Vnull, m') /\
    heap m' = heap empty_mem /\
    allocs m' = 15%nat.
Proof.
  apply (last_allocation_failure (failing 14) (answering two_by_two) two_by_two
           empty_mem); try reflexivity.
  - repeat constructor.
  - split; reflexivity.
  - split; reflexivity.
  - intros k Hk. do 14 (destruct k as [| k]; [reflexivity |]). simpl in Hk. lia.
Defined.

(** ** The table and the summary, as they come back *)

(** The cell buffer keeps its size. *)
Lemma poke_length (at_ : nat) (bytes : list ascii) (dest dest' : buffer) :
  poke at_ bytes dest = Ok (tt, dest') -> length dest' = length dest.
Proof.
  unfold poke. destruct (Nat.ltb_spec (length dest) (at_ + length bytes)); [done |].
  intros [= <-]. rewrite !length_app, length_take, length_drop, length_map. lia.
Qed.

Lemma safe_strncpy_length (src : string) (n : Z) (dest dest' : buffer) :
  safe_strncpy src n dest = Ok (tt, dest') -> length dest' = length dest.
Proof.
  unfold safe_strncpy. destruct (strlen src >? n); intros Hrun;
    apply bind_inv in Hrun as ([] & dest1 & Hcopy & Hend);
    unfold strncpy in Hcopy;
    (destruct (Z.of_nat (length dest) <? _); [done |]);
    apply poke_length in Hcopy; rewrite <- Hcopy.
  - unfold strcat, obind in Hend. destruct (buffer_strlen dest1); [| done].
    by apply poke_length in Hend.
  - unfold store_byte in Hend. destruct (n <? 0); [done |].
    by apply poke_length in Hend.
Qed.

(** One call of the table, on a buffer of [b] bytes, when it returns. *)
Lemma written_inv (m : mem) (r : QueryResult) (b : Z) (a : ft_arg)
    (dest dest' : buffer) (text : string) :
  Z.of_nat (length dest) = b ->
  written m r b a dest = Ok (text, dest') ->
  rendered m r b a text /\ Z.of_nat (length dest') = b.
Proof.
  intros Hdest Hrun. destruct a as [j | | | i j]; cbn [written rendered] in *.
  - apply lift_inv in Hrun as [? ->]. done.
  - by injection Hrun as <- <-.
  - by injection Hrun as <- <-.
  - apply bind_inv in Hrun as (s & dest1 & Hs & Hrun). apply lift_inv in Hs as [Hs ->].
    apply bind_inv in Hrun as ([] & dest2 & Hcopy & Hread).
    apply lift_inv in Hread as [Hread ->].
    pose proof (safe_strncpy_length _ _ _ _ Hcopy) as Hlen.
    split; [| lia]. exists s. split; [done |]. intros Hfit Hnul.
    rewrite safe_strncpy_fits in Hcopy by (done || lia). injection Hcopy as <-.
    rewrite buffer_string_with in Hread; [congruence | | done].
    unfold strlen in Hfit. lia.
Qed.

(** A loop that collects, when it returns, under an invariant of the state. *)
Lemma for_collect_inv {S A B : Type} (P : S -> Prop) (R : A -> B -> Prop)
    (body : A -> M S B) :
  (forall a s b s', P s -> body a s = Ok (b, s') -> R a b /\ P s') ->
  forall l s bs s', P s -> for_collect l body s = Ok (bs, s') -> Forall2 R l bs /\ P s'.
Proof.
  intros Hbody. induction l as [| a l IH]; intros s bs s' Hs Hrun; cbn [for_collect] in Hrun.
  - injection Hrun as <- <-. split; [constructor | done].
  - apply bind_inv in Hrun as (b & s1 & Hb & Hrun).
    apply bind_inv in Hrun as (bs' & s2 & Hrest & Hret). injection Hret as <- <-.
    destruct (Hbody _ _ _ _ Hs Hb) as [Hab Hs1].
    destruct (IH _ _ _ Hs1 Hrest) as [Hl Hs2]. split; [by constructor | done].
Qed.

(** The buffer has room for one character and the terminator at least. *)
Lemma buffer_size_min (m : mem) (r : QueryResult) (b : Z) :
  buffer_size m r = Ok b -> 2 <= b.
Proof.
  unfold buffer_size, obind. intros Hb.
  destruct (widest_header m r (head_columns (cols_count r)) 1) as [w1 |] eqn:Hw1;
    [| done].
  destruct (widest_header m r (tail_columns (cols_count r)) w1) as [w2 |] eqn:Hw2;
    [| done].
  injection Hb as <-.
  apply widest_header_spec in Hw1 as (? & _). apply widest_header_spec in Hw2 as (? & _).
  lia.
Qed.

(** The table that comes back, against the calls that made it. *)
Lemma render_table_inv (m : mem) (r : QueryResult) (table : list (list string)) :
  render_table m r = Ok table ->
  exists b,
    buffer_size m r = Ok b /\
    Forall2 (Forall2 (rendered m r b))
      (header_row (cols_count r) ::
       (if rows_count r >? 10
        then (data_row (cols_count r) <$> seqZ 0 5)
             ++ [ellipsis_row (cols_count r)]
             ++ (data_row (cols_count r) <$> seqZ (rows_count r - 5) 5)
        else data_row (cols_count r) <$> seqZ 0 (rows_count r)))
      table.
Proof.
  unfold render_table, obind. intros Hrun.
  destruct (buffer_size m r) as [b |] eqn:Hb; [| done].
  exists b. split; [done |]. rewrite table_calls_shape in Hrun.
  apply buffer_size_min in Hb.
  match type of Hrun with
  | match ?c with _ => _ end = _ => destruct c as [[table' dest'] |] eqn:Hloop; [| done]
  end.
  injection Hrun as ->.
  eapply (for_collect_inv (fun dest : buffer => Z.of_nat (length dest) = b)) in Hloop
    as [Htable _]; [exact Htable | | rewrite length_replicate; lia].
  intros row dest texts dest1 Hdest Hrow.
  eapply (for_collect_inv (fun dest : buffer => Z.of_nat (length dest) = b));
    [| exact Hdest | exact Hrow].
  intros a dest2 text dest3. apply written_inv.
Qed.

(** The row of dots has "..." in every column the header row has. *)
Lemma ellipsis_row_dots (cols : Z) :
  ellipsis_row cols = replicate (length (header_row cols)) Ellipsis.
Proof.
  unfold ellipsis_row, header_row, table_row.
  rewrite !length_app, !length_fmap, !replicate_add.
  f_equal; [by apply const_fmap |].
  f_equal; [by destruct (hidden_columns cols >? 0) |].
  by apply const_fmap.
Qed.

Lemma ellipsis_row_rendered (m : mem) (r : QueryResult) (b : Z) (cols : Z)
    (row : list string) :
  Forall2 (rendered m r b) (ellipsis_row cols) row ->
  row = replicate (length (header_row cols)) "...".
Proof.
  rewrite ellipsis_row_dots.
  generalize (length (header_row cols)). intros n. revert row.
  induction n as [| n IH]; intros row Hrow; simpl in *.
  - by apply Forall2_nil_inv_l in Hrow as ->.
  - apply Forall2_cons_inv_l in Hrow as (text & row' & -> & Hrow' & ->).
    f_equal. by apply IH.
Qed.

Lemma rows_rendered (m : mem) (r : QueryResult) (b : Z) (range : list Z)
    (body : list (list string)) :
  Forall2 (Forall2 (rendered m r b)) (data_row (cols_count r) <$> range) body <->
  Forall2 (rendered_row m r b) range body.
Proof. by rewrite Forall2_fmap_l. Qed.

(** What is printed is the table that was rendered. *)
Lemma print_query_result_shown (m : mem) (result : val) (r : QueryResult) (rep : report) :
  peek_struct m result = Ok r ->
  print_query_result m result = Ok (Some rep) ->
  render_table m r = Ok (shown rep).
Proof.
  intros Hr. unfold print_query_result, obind.
  destruct (is_null result); [done |]. rewrite Hr.
  destruct (render_table m r) as [table |]; [| done].
  destruct (footprint m r); [| done]. destruct (legend m r); [| done].
  by intros [= <-].
Qed.

(** C6: the columns shown depend on [cols_count] alone.  Up to 3 columns, all
    are shown and there is no marker; beyond, columns 0 to 2 are shown, then
    the marker column exactly when there are more than 7 columns, then the
    last four columns exactly when there are more than 4; the marker is
    labelled with the number of columns minus 7; no row has more than 8
    columns.  This holds for the calls that make the header row and every
    data row, and for the table that comes back, whenever one does: its
    header row has the headers of exactly these columns, with the marker at
    position 3; every row below is the row of dots or has the cells of one
    row of the result in the same columns, with "..." under the marker; all
    rows are as long as the header row.  This table is what
    [print_query_result] shows. *)
Theorem column_selection (cols : Z) :
  header_row cols =
    (if cols <=? 3 then Header <$> seqZ 0 cols
     else [Header 0; Header 1; Header 2]
          ++ (if cols >? 7 then [HiddenHeader] else [])
          ++ (if cols >? 4 then Header <$> seqZ (cols - 4) 4 else [])) /\
  (forall i, data_row cols i =
    (if cols <=? 3 then Cell i <$> seqZ 0 cols
     else [Cell i 0; Cell i 1; Cell i 2]
          ++ (if cols >? 7 then [Ellipsis] else [])
          ++ (if cols >? 4 then Cell i <$> seqZ (cols - 4) 4 else []))) /\
  (forall m r bufferSize dest,
     cols_count r = cols ->
     written m r bufferSize HiddenHeader dest =
     Ok (hidden_columns_header (if cols >? 7 then cols - 7 else 0), dest)) /\
  hidden_columns_header 1 = "<<+1 cols>>" /\
  hidden_columns_header 13 = "<<+13 cols>>" /\
  (length (header_row cols) <= 8)%nat /\
  (forall i, length (data_row cols i) <= 8)%nat /\
  forall (m : mem) (r : QueryResult) (table : list (list string)),
    cols_count r = cols ->
    render_table m r = Ok table ->
    exists bufferSize header body,
      buffer_size m r = Ok bufferSize /\
      table = header :: body /\
      Forall2 (rendered m r bufferSize)
        (if cols <=? 3 then Header <$> seqZ 0 cols
         else [Header 0; Header 1; Header 2]
              ++ (if cols >? 7 then [HiddenHeader] else [])
              ++ (if cols >? 4 then Header <$> seqZ (cols - 4) 4 else []))
        header /\
      (7 < cols -> header !! 3%nat = Some (hidden_columns_header (cols - 7))) /\
      Forall (fun row =>
                row = replicate (length header) "..." \/
                exists i,
                  Forall2 (rendered m r bufferSize)
                    (if cols <=? 3 then Cell i <$> seqZ 0 cols
                     else [Cell i 0; Cell i 1; Cell i 2]
                          ++ (if cols >? 7 then [Ellipsis] else [])
                          ++ (if cols >? 4 then Cell i <$> seqZ (cols - 4) 4 else []))
                    row) body /\
      Forall (fun row => length row = length header) body /\
      (length header <= 8)%nat /\
      (forall result rep,
         peek_struct m result = Ok r -> print_query_result m result = Ok (Some rep) ->
         shown rep = table).
Proof.
  split; [apply table_row_shape |].
  split; [intros i; apply table_row_shape |].
  split; [by intros m r bufferSize dest <- |].
  split; [reflexivity |].
  split; [reflexivity |].
  split; [apply table_row_length |].
  split; [intros i; apply table_row_length |].
  intros m r table.
  intros <- Hrun. destruct (render_table_inv _ _ _ Hrun) as (b & Hb & Htable).
  apply Forall2_cons_inv_l in Htable as (header & body & Hheader & Hbody & ->).
  exists b, header, body.
  pose proof (Forall2_length _ _ _ Hheader) as Hlen.
  assert (Forall (fun row =>
            row = replicate (length header) "..." \/
            exists i, rendered_row m r b i row) body) as Hrows.
  { assert (forall range rows,
              Forall2 (Forall2 (rendered m r b)) (data_row (cols_count r) <$> range) rows ->
              Forall (fun row =>
                row = replicate (length header) "..." \/
                exists i, rendered_row m r b i row) rows) as Hrange.
    { intros range rows Hrows. apply rows_rendered in Hrows.
      induction Hrows as [| i row range rows Hrow _ IH]; constructor; [| done].
      right. by exists i. }
    destruct (rows_count r >? 10); [| exact (Hrange _ _ Hbody)].
    apply Forall2_app_inv_l in Hbody as (first & rest & Hfirst & Hrest & ->).
    apply Forall2_cons_inv_l in Hrest as (dots & last & Hdots & Hlast & ->).
    rewrite Forall_app, Forall_cons.
    split_and!; [exact (Hrange _ _ Hfirst) | | exact (Hrange _ _ Hlast)].
    left. rewrite <- Hlen. by eapply ellipsis_row_rendered. }
  split_and!; try done.
  - unfold header_row in Hheader. by rewrite table_row_shape in Hheader.
  - intros Hcols. unfold header_row in Hheader. rewrite table_row_marker in Hheader by done.
    apply Forall2_cons_inv_l in Hheader as (h0 & t0 & _ & Hheader & ->).
    apply Forall2_cons_inv_l in Hheader as (h1 & t1 & _ & Hheader & ->).
    apply Forall2_cons_inv_l in Hheader as (h2 & t2 & _ & Hheader & ->).
    apply Forall2_cons_inv_l in Hheader as (h3 & t3 & Hmarker & _ & ->).
    cbn [rendered] in Hmarker. subst h3. unfold hidden_columns.
    by replace (cols_count r >? 7) with true by lia.
  - eapply Forall_impl; [exact Hrows |]. intros row [-> | [i Hrow]]; [by left | right].
    exists i. unfold rendered_row, data_row in Hrow. by rewrite table_row_shape in Hrow.
  - eapply Forall_impl; [exact Hrows |]. intros row [-> | [i Hrow]].
    + by rewrite length_replicate.
    + apply Forall2_length in Hrow. rewrite <- Hrow, <- Hlen.
      unfold data_row, header_row, table_row.
      rewrite !length_app, !List.length_map. by destruct (hidden_columns (cols_count r) >? 0).
  - rewrite <- Hlen. apply table_row_length.
  - intros result rep Hr Hprint.
    pose proof (print_query_result_shown _ _ _ _ Hr Hprint). congruence.
Qed.

Lemma column_selection_witness :
  render_table twelve_by_nine_mem twelve_by_nine_struct = Ok twelve_by_nine_table /\
  exists header body,
    twelve_by_nine_table = header :: body /\
    header !! 3%nat = Some "<<+2 cols>>" /\
    Forall (fun row => length row = length header) body /\
    (length header <= 8)%nat.
Proof.
  assert (render_table twelve_by_nine_mem twelve_by_nine_struct = Ok twelve_by_nine_table)
    as Hrun by (by vm_compute).
  split; [exact Hrun |].
  destruct (column_selection 9) as (_ & _ & _ & _ & _ & _ & _ & Hreturned).
  destruct (Hreturned twelve_by_nine_mem twelve_by_nine_struct twelve_by_nine_table
              eq_refl Hrun)
    as (b & header & body & _ & Htable & _ & Hmarker & _ & Hsame & Hlen & _).
  exists header, body. split_and!; [done | | done | done].
  apply Hmarker. lia.
Defined.

(** C7: with more than 10 rows, the table shows rows 0 to 4, then one row
    that has "..." in every displayed column, then the last five rows; with
    10 rows or fewer it shows every row, in order, and no such row.  So 10
    rows are all shown, and of 11 rows, rows 0 to 4 and 6 to 10 are.  This
    holds for the calls the row loop makes, which ends within its step
    budget, and for the table that comes back, whenever one does: below its
    header row it has these rows of the result, in this order, around the
    row of dots, and nothing else.  This table is what [print_query_result]
    shows. *)
Theorem row_selection (rows cols : Z) :
  table_calls rows cols =
    Some (header_row cols ::
          (if rows >? 10
           then (data_row cols <$> seqZ 0 5)
                ++ [ellipsis_row cols]
                ++ (data_row cols <$> seqZ (rows - 5) 5)
           else data_row cols <$> seqZ 0 rows)) /\
  ellipsis_row cols = replicate (length (header_row cols)) Ellipsis /\
  (forall m r bufferSize dest, written m r bufferSize Ellipsis dest = Ok ("...", dest)) /\
  table_calls 10 cols =
    Some (header_row cols ::
          (data_row cols <$> [0; 1; 2; 3; 4; 5; 6; 7; 8; 9])) /\
  table_calls 11 cols =
    Some (header_row cols ::
          (data_row cols <$> [0; 1; 2; 3; 4])
          ++ [ellipsis_row cols]
          ++ (data_row cols <$> [6; 7; 8; 9; 10])) /\
  forall (m : mem) (r : QueryResult) (table : list (list string)),
    rows_count r = rows ->
    cols_count r = cols ->
    render_table m r = Ok table ->
    exists bufferSize header body,
      buffer_size m r = Ok bufferSize /\
      table = header :: body /\
      Forall2 (rendered m r bufferSize) (header_row cols) header /\
      (if rows >? 10
       then exists first last,
              body = first ++ [replicate (length header) "..."] ++ last /\
              Forall2 (rendered_row m r bufferSize) (seqZ 0 5) first /\
              Forall2 (rendered_row m r bufferSize) (seqZ (rows - 5) 5) last
       else Forall2 (rendered_row m r bufferSize) (seqZ 0 rows) body) /\
      (rows = 10 ->
       Forall2 (rendered_row m r bufferSize) [0; 1; 2; 3; 4; 5; 6; 7; 8; 9] body) /\
      (rows = 11 ->
       exists first last,
         body = first ++ [replicate (length header) "..."] ++ last /\
         Forall2 (rendered_row m r bufferSize) [0; 1; 2; 3; 4] first /\
         Forall2 (rendered_row m r bufferSize) [6; 7; 8; 9; 10] last) /\
      length body = (if rows >? 10 then 11%nat else Z.to_nat rows) /\
      (forall result rep,
         peek_struct m result = Ok r -> print_query_result m result = Ok (Some rep) ->
         shown rep = table).
Proof.
  split; [apply table_calls_shape |].
  split; [apply ellipsis_row_dots |].
  split; [reflexivity |].
  split; [reflexivity |].
  split; [reflexivity |].
  intros m r table <- <- Hrun.
  destruct (render_table_inv _ _ _ Hrun) as (b & Hb & Htable).
  apply Forall2_cons_inv_l in Htable as (header & body & Hheader & Hbody & ->).
  exists b, header, body.
  pose proof (Forall2_length _ _ _ Hheader) as Hlen.
  assert (if rows_count r >? 10
          then exists first last,
                 body = first ++ [replicate (length header) "..."] ++ last /\
                 Forall2 (rendered_row m r b) (seqZ 0 5) first /\
                 Forall2 (rendered_row m r b) (seqZ (rows_count r - 5) 5) last
          else Forall2 (rendered_row m r b) (seqZ 0 (rows_count r)) body) as Hrows.
  { destruct (rows_count r >? 10); [| by apply rows_rendered].
    apply Forall2_app_inv_l in Hbody as (first & rest & Hfirst & Hrest & ->).
    apply Forall2_cons_inv_l in Hrest as (dots & last & Hdots & Hlast & ->).
    apply ellipsis_row_rendered in Hdots as ->. rewrite Hlen.
    exists first, last. split_and!; [done | by apply rows_rendered | by apply rows_rendered]. }
  split_and!; try done.
  - intros Hten. rewrite Hten in Hrows. exact Hrows.
  - intros Heleven. rewrite Heleven in Hrows. exact Hrows.
  - destruct (rows_count r >? 10).
    + destruct Hrows as (first & last & -> & Hfirst & Hlast).
      apply Forall2_length in Hfirst, Hlast. rewrite length_seqZ in Hfirst, Hlast.
      rewrite !length_app. simpl. lia.
    + apply Forall2_length in Hrows. rewrite length_seqZ in Hrows. lia.
  - intros result rep Hr Hprint.
    pose proof (print_query_result_shown _ _ _ _ Hr Hprint). congruence.
Qed.

Lemma row_selection_witness :
  render_table twelve_by_nine_mem twelve_by_nine_struct = Ok twelve_by_nine_table /\
  exists header first last,
    twelve_by_nine_table =
      header :: first ++ [replicate (length header) "..."] ++ last /\
    length first = 5%nat /\ length last = 5%nat.
Proof.
  assert (render_table twelve_by_nine_mem twelve_by_nine_struct = Ok twelve_by_nine_table)
    as Hrun by (by vm_compute).
  split; [exact Hrun |].
  destruct (row_selection 12 9) as (_ & _ & _ & _ & _ & Hreturned).
  destruct (Hreturned twelve_by_nine_mem twelve_by_nine_struct twelve_by_nine_table
              eq_refl eq_refl Hrun)
    as (b & header & body & _ & Htable & _ & Hrows & _).
  change (12 >? 10) with true in Hrows. cbv iota in Hrows.
  destruct Hrows as (first & last & Hbody & Hfirst & Hlast).
  exists header, first, last. rewrite <- Hbody.
  apply Forall2_length in Hfirst, Hlast.
  split_and!; [done | by rewrite <- Hfirst | by rewrite <- Hlast].
Defined.

(** C9: for a complete result, what [print_query_result] reports as soon as
    the table is rendered: the table, [rows_count] as the total number of
    rows, as the size the estimate (the structure, one pointer per cell,
    three pointers per column, every cell, header and type-name string with
    its terminator) divided by 1024^3, and every column with its two type
    names.  Below 2^53 bytes the conversion to double and the division are
    exact. *)
Theorem report_summary (m : mem) (result : val) (r : QueryResult)
    (cells : list string) (columns : list (string * string * string)) :
  partial m result r (length cells) (length columns) cells columns ->
  rows_count r * cols_count r = Z.of_nat (length cells) ->
  cols_count r = Z.of_nat (length columns) ->
  Z.of_nat (length cells) < 2 ^ 31 ->
  estimated_footprint (rows_count r) (cols_count r) cells columns < 2 ^ 53 ->
  footprint m r = Ok (estimated_footprint (rows_count r) (cols_count r) cells columns) /\
  gigabytes (estimated_footprint (rows_count r) (cols_count r) cells columns) =
    (inject_Z (estimated_footprint (rows_count r) (cols_count r) cells columns)
     / inject_Z (1024 * 1024 * 1024))%Q /\
  (forall table,
     render_table m r = Ok table ->
     print_query_result m result =
     Ok (Some (mkReport table (rows_count r)
                 (inject_Z (estimated_footprint (rows_count r) (cols_count r) cells columns)
                  / inject_Z (1024 * 1024 * 1024))%Q
                 columns))) /\
  (forall rep,
     print_query_result m result = Ok (Some rep) ->
     total_rows rep = rows_count r /\
     size_in_gb rep =
       (inject_Z (estimated_footprint (rows_count r) (cols_count r) cells columns)
        / inject_Z (1024 * 1024 * 1024))%Q).
Proof.
  intros Hpartial Hcells Hcols Hint Hsmall.
  assert (footprint m r =
          Ok (estimated_footprint (rows_count r) (cols_count r) cells columns))
    as Hsize by (apply (footprint_estimate m result); (done || lia)).
  assert (gigabytes (estimated_footprint (rows_count r) (cols_count r) cells columns) =
            (inject_Z (estimated_footprint (rows_count r) (cols_count r) cells columns)
             / inject_Z (1024 * 1024 * 1024))%Q) as Hgb.
  { unfold gigabytes, to_double.
    destruct (Z.ltb_spec (estimated_footprint (rows_count r) (cols_count r) cells columns)
                (2 ^ 53)); [done | lia]. }
  destruct Hpartial as (Hstruct & _ & _ & Hheaders & Htypes & Hctypes).
  assert (legend m r = Ok columns) as Hlegend.
  { apply legend_columns; [| done]. intros j c Hj.
    split_and!; (eapply holds_text_at; [done |]); by rewrite list_lookup_fmap, Hj. }
  assert (is_null result = false) as Hnull by (by destruct result).
  split; [done |]. split; [done |]. split.
  - intros table Htable. unfold print_query_result.
    rewrite Hnull, Hstruct. cbn [obind].
    rewrite Htable. cbn [obind]. rewrite Hsize. cbn [obind]. rewrite Hlegend. cbn [obind].
    by rewrite Hgb.
  - intros rep Hprint. unfold print_query_result in Hprint.
    rewrite Hnull, Hstruct in Hprint. cbn [obind] in Hprint.
    destruct (render_table m r) as [table |]; [| discriminate].
    cbn [obind] in Hprint. rewrite Hsize in Hprint. cbn [obind] in Hprint.
    rewrite Hlegend in Hprint. injection Hprint as <-. simpl. by rewrite Hgb.
Qed.

Lemma report_summary_witness :
  print_query_result two_by_two_mem (Vptr 0) =
  Ok (Some (mkReport [["id"; "name"]; ["1"; "A..."]; ["2"; "NULL"]] 2
              (inject_Z 169 / inject_Z (1024 * 1024 * 1024))%Q
              [("id", "INT", "int32_t"); ("name", "VARCHAR", "char*")])).
Proof.
  destruct (execute_mysql_query_complete always (answering two_by_two) two_by_two
              empty_mem two_by_two_mem (Vptr 0))
    as (r & _ & _ & Hpartial).
  - reflexivity.
  - repeat constructor.
  - by vm_compute.
  - by vm_compute.
  - by vm_compute.
  - by vm_compute.
  - discriminate.
  - assert (r = two_by_two_struct) as ->.
    { destruct Hpartial as (Hstruct & _).
      assert (peek_struct two_by_two_mem (Vptr 0) = Ok two_by_two_struct) as Hread
        by (by vm_compute).
      congruence. }
    destruct (report_summary two_by_two_mem (Vptr 0) two_by_two_struct
                ["1"; "Alice"; "2"; "NULL"]
                [("id", "INT", "int32_t"); ("name", "VARCHAR", "char*")])
      as (_ & _ & Hreport & _).
    + exact Hpartial.
    + reflexivity.
    + reflexivity.
    + by vm_compute.
    + by vm_compute.
    + apply (Hreport [["id"; "name"]; ["1"; "A..."]; ["2"; "NULL"]]). by vm_compute.
Defined.
